(** * Multimodal RAG: indexing and retrieval pipeline

    A shallow embedding of the Python sources

      - [config/settings.py]
      - [backend/processing/vector_store.py]
      - [backend/processing/pdf_processor.py]
      - [backend/retrieval/retriever.py]
      - [backend/retrieval/response_generator.py]

    Python objects with mutable state become explicit state passing, a raised
    exception becomes the left injection of a sum, and the third-party
    collaborators (CLIP, PIL, PyMuPDF, the text splitter, numpy and FAISS)
    are either records of oracles or small executable models whose doc
    comments say what they stand for.  [print] calls are logging only and
    are left out. *)

From Stdlib Require Import QArith Lia Lqa Permutation Sorted.
From Stdlib Require Import Strings.Byte Ascii String.
From stdpp Require Import gmap strings list pretty sorting.


(** ** Python values and exceptions *)

Inductive exn :=
| ValueError (msg : string)
| KeyError (key : string)
| TypeError (msg : string)
| IndexError (msg : string)
| AssertionError (msg : string)
| RuntimeError (msg : string).

(** A fallible computation: [inl e] is [raise e]. *)
Definition result (A : Type) : Type := exn + A.

Definition is_ok {A} (r : result A) : bool :=
  match r with inr _ => true | inl _ => false end.

Definition bytes := list Byte.byte.

(** An embedding is a one-dimensional array of numbers; exact rationals
    stand for the float32 entries. *)
Definition Vec := list Q.

(** Values stored in a [Document]'s metadata dictionary. *)
Inductive value :=
| VInt (n : Z)
| VStr (s : string).

#[global] Instance value_eq_dec : EqDecision value.
Proof. solve_decision. Defined.

(** [langchain_core.documents.Document] *)
Record Document := mkDocument {
  page_content : string;
  metadata : gmap string value
}.

#[global] Instance Document_eq_dec : EqDecision Document.
Proof. solve_decision. Defined.

(** A decoded raster image ([PIL.Image.Image]). *)
Record PilImage := mkPilImage {
  im_size : nat * nat;
  im_data : bytes
}.

(** ** [config/settings.py] *)
Module settings.
Definition CHUNK_SIZE : nat := 500.
Definition CHUNK_OVERLAP : nat := 100.
Definition DEFAULT_K : Z := 5.
Definition IMAGE_FORMAT : string := "PNG".
Definition MAX_IMAGE_SIZE : nat * nat := (1024, 1024)%nat.
End settings.

(** ** Vector arithmetic *)

Fixpoint dot (x y : Vec) : Q :=
  match x, y with
  | a :: x', b :: y' => a * b + dot x' y'
  | _, _ => 0
  end.

Definition norm2 (x : Vec) : Q := dot x x.

(** Squared Euclidean distance, the metric of a flat L2 index. *)
Fixpoint l2sqr (x y : Vec) : Q :=
  match x, y with
  | a :: x', b :: y' => (a - b) * (a - b) + l2sqr x' y'
  | _, _ => 0
  end.

(** [sgn x * x^2]: a strictly increasing function of [x]. *)
Definition signed_square (x : Q) : Q :=
  if Qle_bool 0 x then x * x else - (x * x).

(** Cosine similarity [q.v / (|q| |v|)] needs a square root; its image under
    the strictly increasing map [c |-> sgn c * c^2] does not, and orders
    vectors exactly as the cosine does. *)
Definition cosine_rank (q v : Vec) : Q :=
  signed_square (dot q v) / (norm2 q * norm2 v).

Definition unit_norm (v : Vec) : Prop := norm2 v == 1.

(** ** The FAISS vector store of [langchain_community] *)

(** Modelled from the spec: the vector store is a third-party library and
    its code is not among the repository's sources.  The model follows
    section 4.4 of the specification (a search returns the [k] nearest
    items, or all of them when fewer are indexed, nearest first and ties in
    insertion order; on unit vectors Euclidean nearest-neighbour search
    stands for cosine search) and the way the repository calls the library:
    [from_embeddings] with the default distance strategy builds a flat L2
    index over the array of embeddings; a search is an exhaustive scan that
    reports the [k] best hits by ascending (distance, label) and fills the
    slots it cannot serve with label [-1], which the wrapper drops. *)
Module FAISS.

Record t := mk {
  d : nat;                       (* index.d *)
  xb : list Vec;                 (* the stored vectors, by label *)
  docstore : list Document       (* label |-> document *)
}.

(** [np.array(embeddings)]: a ragged nested list is refused. *)
Definition np_array (embeddings : list Vec) : result (list Vec) :=
  match embeddings with
  | [] => inr []
  | e0 :: _ =>
      if forallb (fun e => Nat.eqb (length e) (length e0)) embeddings
      then inr embeddings
      else inl (ValueError "setting an array element with a sequence. The requested array has an inhomogeneous shape")
  end.

Definition from_embeddings (text_embeddings : list (string * Vec))
    (metadatas : list (gmap string value)) : result t :=
  let texts := text_embeddings.*1 in
  let embeddings := text_embeddings.*2 in
  match embeddings with
  | [] => inl (IndexError "list index out of range")
  | e0 :: _ =>
      if negb (Nat.eqb (length texts) (length metadatas))
      then inl (ValueError "texts and metadatas must be of the same length")
      else
        match np_array embeddings with
        | inl e => inl e
        | inr vector =>
            inr {| d := length e0;
                   xb := vector;
                   docstore := zip_with mkDocument texts metadatas |}
        end
  end.

(** One slot of a search answer: distance and label. *)
Definition hit : Type := Q * Z.

Definition hit_leb (a b : hit) : bool :=
  negb (Qle_bool b.1 a.1) || (Qle_bool a.1 b.1 && Z.leb a.2 b.2).

Fixpoint insert_hit (h : hit) (l : list hit) : list hit :=
  match l with
  | [] => [h]
  | x :: l' => if hit_leb h x then h :: l else x :: insert_hit h l'
  end.

Definition sort_hits (l : list hit) : list hit := foldr insert_hit [] l.

Definition FLT_MAX : Q := 340282346638528859811704183484516925440.

(** The candidates of a scan: every stored vector with its distance to
    the query, labelled by its position. *)
Definition scored (q : Vec) (xb : list Vec) : list hit :=
  imap (fun i v => (l2sqr q v, Z.of_nat i)) xb.

(** [index.search(vector, k)] on a flat L2 index: always [k] slots. *)
Definition index_search (ix : t) (q : Vec) (k : Z) : result (list hit) :=
  if negb (Nat.eqb (length q) (d ix))
  then inl (AssertionError "d == self.d")
  else if negb (0 <? k)%Z
  then inl (AssertionError "k > 0")
  else
    let best := take (Z.to_nat k) (sort_hits (scored q (xb ix))) in
    inr (best ++ replicate (Z.to_nat k - length best) (FLT_MAX, (-1)%Z)).

(** The wrapper's loop over the labels: [if i == -1: continue]. *)
Fixpoint collect_docs (store : list Document) (hits : list hit)
    : result (list Document) :=
  match hits with
  | [] => inr []
  | (_, i) :: rest =>
      if Z.eqb i (-1) then collect_docs store rest
      else
        match store !! Z.to_nat i with
        | None => inl (KeyError "index_to_docstore_id")
        | Some doc =>
            match collect_docs store rest with
            | inl e => inl e
            | inr docs => inr (doc :: docs)
            end
        end
  end.

Definition similarity_search_by_vector (ix : t) (embedding : Vec) (k : Z)
    : result (list Document) :=
  match index_search ix embedding k with
  | inl e => inl e
  | inr hits =>
      match collect_docs (docstore ix) hits with
      | inl e => inl e
      | inr docs => inr (take (Z.to_nat k) docs)
      end
  end.

End FAISS.

(** ** The process state

    [vector_store_manager] is a module-level singleton; its one field, the
    directories written by [save_local], and a log of the calls made to the
    embedding provider and to the index make up the state that the methods
    thread. *)

(** A dynamically typed query argument. *)
Inductive pyobj :=
| PStr (s : string)
| PImage (im : PilImage).

Inductive call :=
| EmbedText (x : pyobj)
| EmbedImage (x : pyobj)
| IndexSearch (embedding : Vec) (k : Z).

Record World := mkWorld {
  vector_store : option FAISS.t;      (* VectorStoreManager.vector_store *)
  disk : gmap string FAISS.t;         (* path |-> saved index *)
  calls : list call                   (* most recent last *)
}.

(** State and exception monad: the state reached when an exception is raised
    is kept, as in Python. *)
Definition M (A : Type) : Type := World -> result A * World.

#[global] Instance M_ret : MRet M := fun A (x : A) w => (inr x, w).

#[global] Instance M_bind : MBind M := fun A B (f : A -> M B) (c : M A) w =>
  match c w with
  | (inl e, w') => (inl e, w')
  | (inr x, w') => f x w'
  end.

Definition raise {A} (e : exn) : M A := fun w => (inl e, w).

Definition lift {A} (r : result A) : M A := fun w => (r, w).

Definition get_vector_store : M (option FAISS.t) :=
  fun w => (inr (vector_store w), w).

Definition set_vector_store (vs : FAISS.t) : M unit :=
  fun w => (inr tt, mkWorld (Some vs) (disk w) (calls w)).

Definition write_disk (path : string) (vs : FAISS.t) : M unit :=
  fun w => (inr tt, mkWorld (vector_store w) (<[path := vs]> (disk w)) (calls w)).

Definition read_disk (path : string) : M FAISS.t :=
  fun w =>
    match disk w !! path with
    | Some vs => (inr vs, w)
    | None => (inl (RuntimeError ("could not open " +:+ path)), w)
    end.

(** [FAISS.load_local(folder_path, embeddings, index_name="index", *,
    allow_dangerous_deserialization=False)] of [langchain_community], which
    is not among the repository's sources.  The saved index is a pickle
    file, and the first statement of the method refuses to read it, for
    every folder, unless the caller passes
    [allow_dangerous_deserialization=True]. *)
Definition load_local (folder_path : string)
    (allow_dangerous_deserialization : bool) : M FAISS.t :=
  if allow_dangerous_deserialization then read_disk folder_path
  else raise (ValueError "The de-serialization relies loading a pickle file. You will need to set `allow_dangerous_deserialization` to `True` to enable deserialization.").

Definition log (c : call) : M unit :=
  fun w => (inr tt, mkWorld (vector_store w) (disk w) (calls w ++ [c])).

(** The state of a freshly started process: [self.vector_store = None]. *)
Definition initial_world (files : gmap string FAISS.t) : World :=
  mkWorld None files [].

(** Truthiness of a list: [not l]. *)
Definition py_not {A} (l : list A) : bool :=
  match l with [] => true | _ :: _ => false end.

(** [k or default] for [k] either [None] or an [int]. *)
Definition py_or (k : option Z) (default : Z) : Z :=
  match k with
  | None => default
  | Some n => if Z.eqb n 0 then default else n
  end.

(** ** [backend/processing/vector_store.py] *)
Module VectorStoreManager.

Definition create_vector_store (docs : list Document) (embeddings : list Vec)
    : M FAISS.t :=
  if py_not docs || py_not embeddings
  then raise (ValueError "Documents and embeddings cannot be empty")
  else if negb (Nat.eqb (length docs) (length embeddings))
  then raise (ValueError "Number of documents must match number of embeddings")
  else
    embeddings_array ← lift (FAISS.np_array embeddings);
    vs ← lift (FAISS.from_embeddings
                 (zip (page_content <$> docs) embeddings_array)
                 (metadata <$> docs));
    set_vector_store vs;;
    mret vs.

Definition search_by_vector (query_embedding : Vec) (k : option Z)
    : M (list Document) :=
  store ← get_vector_store;
  match store with
  | None => raise (ValueError "Vector store not initialized")
  | Some vs =>
      let k := py_or k settings.DEFAULT_K in
      log (IndexSearch query_embedding k);;
      lift (FAISS.similarity_search_by_vector vs query_embedding k)
  end.

Definition is_initialized : M bool :=
  store ← get_vector_store; mret (bool_decide (is_Some store)).

Definition save_vector_store (path : string) : M unit :=
  store ← get_vector_store;
  match store with
  | None => raise (ValueError "Vector store not initialized")
  | Some vs => write_disk path vs
  end.

(** [self.vector_store = FAISS.load_local(path, embeddings=None)]: the
    call leaves [allow_dangerous_deserialization] at its default, and it
    passes no embedding provider. *)
Definition load_vector_store (path : string) : M FAISS.t :=
  vs ← load_local path false;
  set_vector_store vs;;
  mret vs.

End VectorStoreManager.

(** ** [backend/processing/embeddings.py]: the CLIP embedding provider,
    an oracle for this development. *)
Record EmbeddingGenerator := mkEmbeddingGenerator {
  embed_text : pyobj -> result Vec;
  embed_image : pyobj -> result Vec
}.

(** ** [backend/retrieval/retriever.py] *)
Module MultimodalRetriever.
Section WithProvider.
Context (embedding_generator : EmbeddingGenerator).

Definition retrieve_by_text (query_text : pyobj) (k : option Z)
    : M (list Document) :=
  let k := py_or k settings.DEFAULT_K in
  log (EmbedText query_text);;
  query_embedding ← lift (embed_text embedding_generator query_text);
  VectorStoreManager.search_by_vector query_embedding (Some k).

Definition retrieve_by_image (image_data : pyobj) (k : option Z)
    : M (list Document) :=
  let k := py_or k settings.DEFAULT_K in
  log (EmbedImage image_data);;
  query_embedding ← lift (embed_image embedding_generator image_data);
  VectorStoreManager.search_by_vector query_embedding (Some k).

Definition retrieve_multimodal (query : pyobj) (query_type : string)
    (k : option Z) : M (list Document) :=
  if String.eqb query_type "text" then retrieve_by_text query k
  else if String.eqb query_type "image" then retrieve_by_image query k
  else raise (ValueError ("Unsupported query type: " +:+ query_type)).

Definition get_similar_documents (embedding_vector : Vec) (k : option Z)
    : M (list Document) :=
  let k := py_or k settings.DEFAULT_K in
  VectorStoreManager.search_by_vector embedding_vector (Some k).

End WithProvider.
End MultimodalRetriever.

(** ** Exceptions without state: the [result] monad *)

#[global] Instance result_ret : MRet result := fun A (x : A) => inr x.

#[global] Instance result_bind : MBind result :=
  fun A B (f : A -> result B) (r : result A) =>
    match r with
    | inl e => inl e
    | inr x => f x
    end.

(** ** Strings *)

Definition nl : string := String "010"%char EmptyString.

(** [str(n)] *)
Definition str_nat (n : nat) : string := pretty n.
Definition str_Z (n : Z) : string := pretty n.

(** A Python [str] is a sequence of characters; a [string] here is its
    UTF-8 encoding, one to four bytes for each character. *)

(** [str.isspace] on the ASCII range. *)
Definition is_space (c : ascii) : bool :=
  let n := nat_of_ascii c in
  ((9 <=? n) && (n <=? 13) || (28 <=? n) && (n <=? 32))%nat.

(** The white space of two bytes: U+0085 and U+00A0. *)
Definition is_space2 (a b : ascii) : bool :=
  let '(na, nb) := (nat_of_ascii a, nat_of_ascii b) in
  ((na =? 194) && ((nb =? 133) || (nb =? 160)))%nat.

(** The white space of three bytes: U+1680, U+2000 to U+200A, U+2028,
    U+2029, U+202F, U+205F and U+3000. *)
Definition is_space3 (a b c : ascii) : bool :=
  let '(na, nb, nc) := (nat_of_ascii a, nat_of_ascii b, nat_of_ascii c) in
  ((na =? 225) && (nb =? 154) && (nc =? 128)
   || (na =? 226) && (nb =? 128)
      && ((128 <=? nc) && (nc <=? 138) || (nc =? 168) || (nc =? 169)
          || (nc =? 175))
   || (na =? 226) && (nb =? 129) && (nc =? 159)
   || (na =? 227) && (nb =? 128) && (nc =? 128))%nat.

(** Truthiness of [text.strip()]: some character is not white space. *)
Fixpoint strip_nonempty (text : string) : bool :=
  match text with
  | EmptyString => false
  | String a rest =>
      if is_space a then strip_nonempty rest
      else
        match rest with
        | EmptyString => true
        | String b rest2 =>
            if is_space2 a b then strip_nonempty rest2
            else
              match rest2 with
              | EmptyString => true
              | String c rest3 =>
                  if is_space3 a b c then strip_nonempty rest3 else true
              end
        end
  end.

(** [enumerate(l)] *)
Definition enumerate {A} (l : list A) : list (nat * A) :=
  imap (fun i x => (i, x)) l.

(** ** The document and the libraries that read it

    A PyMuPDF document is the data its accessors return: per page the text
    ([page.get_text()]) and the cross references of its images (the first
    component of each entry of [page.get_images(full=True)]), and per cross
    reference the raw image bytes ([extract_image(xref)["image"]]).  Each
    accessor may raise. *)
Record Page := mkPage {
  get_text : result string;
  get_images : result (list nat)
}.

Record PdfDocument := mkPdfDocument {
  pdf_pages : list Page;
  extract_image : nat -> result bytes
}.

Inductive pdf_source :=
| PdfPath (path : string)
| PdfBytes (data : bytes).

Record Libraries := mkLibraries {
  (* pymupdf.open(path) and pymupdf.open(stream=..., filetype="pdf") *)
  pymupdf_open : pdf_source -> result PdfDocument;
  (* RecursiveCharacterTextSplitter(chunk_size, chunk_overlap).split_text *)
  split_text : nat -> nat -> string -> list string;
  (* Image.open(io.BytesIO(b)).convert("RGB") *)
  Image_open : bytes -> result PilImage;
  (* im.thumbnail(size, LANCZOS), as a function *)
  thumbnail : PilImage -> nat * nat -> result PilImage;
  (* im.save(buffer, format=...); buffer.getvalue() *)
  Image_save : PilImage -> string -> result bytes;
  (* base64.b64encode(b).decode() *)
  b64encode : bytes -> string;
  embedding_generator : EmbeddingGenerator
}.

(** ** [backend/processing/pdf_processor.py] *)
Module PDFProcessor.
Section WithLibraries.
Context (L : Libraries).

(** [TextSplitter.split_documents]: every chunk carries a copy of the
    metadata of the document it was cut from. *)
Definition split_documents (documents : list Document) : list Document :=
  documents ≫= fun doc =>
    (fun chunk => mkDocument chunk (metadata doc)) <$>
      split_text L settings.CHUNK_SIZE settings.CHUNK_OVERLAP (page_content doc).

(** Body of the loop over the chunks: [try ... except: continue]. *)
Definition text_step (st : list Document * list Vec) (chunk : Document)
    : list Document * list Vec :=
  let '(docs, embeddings) := st in
  match embed_text (embedding_generator L) (PStr (page_content chunk)) with
  | inl _ => (docs, embeddings)
  | inr embedding => (docs ++ [chunk], embeddings ++ [embedding])
  end.

Definition _process_page_text (page : Page) (page_num : nat)
    : result (list Document * list Vec) :=
  text ← get_text page;
  if strip_nonempty text then
    let temp_doc :=
      mkDocument text
        (<["page" := VInt (Z.of_nat page_num)]> (<["type" := VStr "text"]> ∅)) in
    let text_chunks := split_documents [temp_doc] in
    mret (foldl text_step ([], []) text_chunks)
  else mret ([], []).

Definition image_id_of (page_num img_index : nat) : string :=
  "page_" +:+ str_nat page_num +:+ "_img_" +:+ str_nat img_index.

Definition image_state : Type :=
  list Document * list Vec * gmap string string.

(** Body of the loop over the images of a page.  Whatever was written
    before a statement raises stays written; the [except] branch only
    moves on to the next image. *)
Definition image_step (doc : PdfDocument) (page_num : nat)
    (st : image_state) (entry : nat * nat) : image_state :=
  let '(docs, embeddings, image_store) := st in
  let '(img_index, xref) := entry in
  match extract_image doc xref with
  | inl _ => st
  | inr image_bytes =>
  match Image_open L image_bytes with
  | inl _ => st
  | inr pil_image =>
  match (if ((settings.MAX_IMAGE_SIZE.1 <? (im_size pil_image).1)
             || (settings.MAX_IMAGE_SIZE.2 <? (im_size pil_image).2))%nat
         then thumbnail L pil_image settings.MAX_IMAGE_SIZE
         else inr pil_image) with
  | inl _ => st
  | inr pil_image =>
  let image_id := image_id_of page_num img_index in
  match Image_save L pil_image settings.IMAGE_FORMAT with
  | inl _ => st
  | inr buffered =>
  let img_base64 := b64encode L buffered in
  let image_store := <[image_id := img_base64]> image_store in
  match embed_image (embedding_generator L) (PImage pil_image) with
  | inl _ => (docs, embeddings, image_store)
  | inr embedding =>
      let image_doc :=
        mkDocument ("[Image: " +:+ image_id +:+ "]")
          (<["page" := VInt (Z.of_nat page_num)]>
             (<["type" := VStr "image"]>
                (<["image_id" := VStr image_id]> ∅))) in
      (docs ++ [image_doc], embeddings ++ [embedding], image_store)
  end end end end end.

Definition _process_page_images (doc : PdfDocument) (page : Page)
    (page_num : nat) : result image_state :=
  images ← get_images page;
  mret (foldl (image_step doc page_num) ([], [], ∅) (enumerate images)).

(** [if progress_callback: progress_callback((i + 1) / total_pages)].  The
    callback is the caller's; all that matters here is whether it
    raises. *)
Definition report_progress (progress_callback : option (Q -> result unit))
    (i total_pages : nat) : result unit :=
  match progress_callback with
  | Some callback =>
      callback (inject_Z (Z.of_nat (i + 1)) / inject_Z (Z.of_nat total_pages))%Q
  | None => mret tt
  end.

(** Body of the loop over the pages; an exception raised here is not
    caught by the loop. *)
Definition page_step (doc : PdfDocument)
    (progress_callback : option (Q -> result unit)) (total_pages : nat)
    (st : image_state) (entry : nat * Page) : result image_state :=
  let '(all_docs, all_embeddings, image_data_store) := st in
  let '(i, page) := entry in
  report_progress progress_callback i total_pages;;
  '(text_docs, text_embeddings) ← _process_page_text page i;
  '(image_docs, image_embeddings, page_image_store) ←
      _process_page_images doc page i;
  mret (all_docs ++ text_docs ++ image_docs,
        all_embeddings ++ text_embeddings ++ image_embeddings,
        page_image_store ∪ image_data_store).

Fixpoint run_pages (doc : PdfDocument)
    (progress_callback : option (Q -> result unit)) (total_pages : nat)
    (st : image_state) (entries : list (nat * Page)) : result image_state :=
  match entries with
  | [] => mret st
  | entry :: rest =>
      st' ← page_step doc progress_callback total_pages st entry;
      run_pages doc progress_callback total_pages st' rest
  end.

(** The outer [except Exception: raise] re-raises what it catches. *)
Definition process_pdf (pdf_path_or_bytes : pdf_source)
    (progress_callback : option (Q -> result unit)) : result image_state :=
  doc ← pymupdf_open L pdf_path_or_bytes;
  let total_pages := length (pdf_pages doc) in
  run_pages doc progress_callback total_pages ([], [], ∅)
    (enumerate (pdf_pages doc)).

End WithLibraries.
End PDFProcessor.

(** ** [backend/retrieval/response_generator.py] *)

(** One entry of [HumanMessage.content]. *)
Inductive block :=
| TextBlock (text : string)
| ImageUrlBlock (url : string).

Module ResponseGenerator.

(** [doc.metadata.get("type") == t] *)
Definition has_type (t : string) (doc : Document) : bool :=
  bool_decide (metadata doc !! "type" = Some (VStr t)).

(** [doc.metadata['page'] + 1], formatted *)
Definition page_label (doc : Document) : result string :=
  match metadata doc !! "page" with
  | None => inl (KeyError "page")
  | Some (VInt n) => inr (str_Z (n + 1))
  | Some (VStr _) => inl (TypeError "can only concatenate str to str")
  end.

Definition text_line (doc : Document) : result string :=
  label ← page_label doc;
  mret ("[Page " +:+ label +:+ "]: " +:+ page_content doc).

(** A list comprehension whose element expression may raise. *)
Fixpoint comprehension {A B} (f : A -> result B) (l : list A)
    : result (list B) :=
  match l with
  | [] => mret []
  | x :: rest => y ← f x; ys ← comprehension f rest; mret (y :: ys)
  end.

(** [image_id = doc.metadata.get("image_id")] followed by the test
    [image_id and image_id in image_data_store]: the identifier when the
    test passes.  [None], the empty string and [0] are falsy, and an [int]
    is no key of a dictionary keyed by strings. *)
Definition usable_image_id (image_data_store : gmap string string)
    (doc : Document) : option string :=
  match metadata doc !! "image_id" with
  | Some (VStr image_id) =>
      if negb (String.eqb image_id "")
         && bool_decide (is_Some (image_data_store !! image_id))
      then Some image_id else None
  | _ => None
  end.

Definition data_url (payload : string) : string :=
  "data:image/png;base64," +:+ payload.

(** Body of [for doc in image_docs]; [header] is the text put before the
    page number. *)
Definition image_blocks_step (header : string)
    (image_data_store : gmap string string)
    (content : list block) (doc : Document) : result (list block) :=
  match usable_image_id image_data_store doc with
  | None => mret content
  | Some image_id =>
      label ← page_label doc;
      mret (content ++
            [TextBlock (header +:+ label +:+ "]:" +:+ nl);
             ImageUrlBlock (data_url (default "" (image_data_store !! image_id)))])
  end.

Fixpoint add_images (header : string) (image_data_store : gmap string string)
    (content : list block) (image_docs : list Document)
    : result (list block) :=
  match image_docs with
  | [] => mret content
  | doc :: rest =>
      content' ← image_blocks_step header image_data_store content doc;
      add_images header image_data_store content' rest
  end.

(** [if text_docs: content.append(...)] *)
Definition add_text_context (title : string) (content : list block)
    (text_docs : list Document) : result (list block) :=
  if py_not text_docs then mret content
  else
    lines ← comprehension text_line text_docs;
    mret (content ++
          [TextBlock (title +:+ nl +:+ String.concat (nl +:+ nl) lines +:+ nl)]).

Definition create_text_query_message (query : string)
    (retrieved_docs : list Document) (image_data_store : gmap string string)
    : result (list block) :=
  let content :=
    [TextBlock ("Question: " +:+ query +:+ nl +:+ nl +:+ "Context:" +:+ nl)] in
  let text_docs := filter (fun doc => has_type "text" doc) retrieved_docs in
  let image_docs := filter (fun doc => has_type "image" doc) retrieved_docs in
  content ← add_text_context "Text excerpts:" content text_docs;
  content ← add_images (nl +:+ "[Image from page ") image_data_store
              content image_docs;
  mret (content ++
        [TextBlock (nl +:+ nl +:+ "Please answer the question based on the provided text and images.")]).

Section WithLibraries.
Context (L : Libraries).

(** [input_image.save(buffered, format="PNG")] and its base64 text. *)
Definition encode_input_image (input_image : PilImage) : result string :=
  buffered ← Image_save L input_image "PNG";
  mret (b64encode L buffered).

(** The part shared by the two image-query messages, from the
    separation of the retrieved documents to the last image block. *)
Definition related_content (content : list block)
    (retrieved_docs : list Document)
    (image_data_store : gmap string string) : result (list block) :=
  let text_docs := filter (fun doc => has_type "text" doc) retrieved_docs in
  let image_docs := filter (fun doc => has_type "image" doc) retrieved_docs in
  let content :=
    content ++ [TextBlock (nl +:+ nl +:+ "Related content from PDF:" +:+ nl)] in
  content ← add_text_context "Text content:" content text_docs;
  if py_not image_docs then mret content
  else
    add_images "[Image from page " image_data_store
      (content ++ [TextBlock (nl +:+ "Related images from PDF:" +:+ nl)])
      image_docs.

Definition create_image_query_message (input_image : PilImage)
    (retrieved_docs : list Document)
    (image_data_store : gmap string string) : result (list block) :=
  input_img_base64 ← encode_input_image input_image;
  let content :=
    [TextBlock ("I have provided you with an input image and relevant content from a PDF document. Please analyze the input image and provide information based on the related content found in the PDF." +:+ nl +:+ nl +:+ "Input Image:");
     ImageUrlBlock (data_url input_img_base64)] in
  content ← related_content content retrieved_docs image_data_store;
  mret (content ++
        [TextBlock (nl +:+ nl +:+ "Based on the input image and the related content from the PDF, please provide a comprehensive answer about what the input image shows and how it relates to the information in the PDF document.")]).

Definition create_image_question_message (input_image : PilImage)
    (question : string) (retrieved_docs : list Document)
    (image_data_store : gmap string string) : result (list block) :=
  input_img_base64 ← encode_input_image input_image;
  let content :=
    [TextBlock ("I have provided you with an input image and relevant content from a PDF document. Please answer the following specific question about the image:" +:+ nl +:+ nl +:+ "Question: " +:+ question +:+ nl +:+ nl +:+ "Input Image:");
     ImageUrlBlock (data_url input_img_base64)] in
  content ← related_content content retrieved_docs image_data_store;
  mret (content ++
        [TextBlock (nl +:+ nl +:+ "Please provide a detailed answer to the question: '" +:+ question +:+ "' based on the input image and the related content from the PDF document.")]).

(** [generate_response]: one call of the language model, whose failure
    is re-raised. *)
Definition generate_response (llm : list block -> result string)
    (message : list block) : result string :=
  llm message.

Definition process_text_query (llm : list block -> result string)
    (query : string) (retrieved_docs : list Document)
    (image_data_store : gmap string string) : result string :=
  message ← create_text_query_message query retrieved_docs image_data_store;
  generate_response llm message.

Definition process_image_query (llm : list block -> result string)
    (input_image : PilImage) (retrieved_docs : list Document)
    (image_data_store : gmap string string) : result string :=
  message ← create_image_query_message input_image retrieved_docs
              image_data_store;
  generate_response llm message.

End WithLibraries.

(** The image blocks of a message, in order. *)
Definition image_urls (content : list block) : list string :=
  content ≫= fun b =>
    match b with ImageUrlBlock url => [url] | TextBlock _ => [] end.

End ResponseGenerator.

(** ** Vocabulary of the statements *)

(** The order in which a flat index reports its hits. *)
Definition hit_le (a b : FAISS.hit) : Prop :=
  (a.1 < b.1)%Q \/ (a.1 == b.1 /\ (a.2 <= b.2)%Z).

(** [ranked_before q embeddings i j]: item [i] must come before item [j] in
    an answer to the query [q], because it is strictly more similar to [q],
    or equally similar and inserted earlier. *)
Definition ranked_before (q : Vec) (embeddings : list Vec) (i j : nat) : Prop :=
  exists ei ej,
    embeddings !! i = Some ei /\ embeddings !! j = Some ej /\
    ((cosine_rank q ej < cosine_rank q ei)%Q \/
     (cosine_rank q ei == cosine_rank q ej /\ (i < j)%nat)).

(** All embeddings have one and the same dimensionality. *)
Definition uniform_dim (embeddings : list Vec) : Prop :=
  exists n, Forall (fun e : Vec => length e = n) embeddings.

(** The embedding provider produces vectors of dimensionality [n]. *)
Definition provider_dim (g : EmbeddingGenerator) (n : nat) : Prop :=
  forall x v, embed_text g x = inr v \/ embed_image g x = inr v -> length v = n.

(** The states in which no index has been built or loaded: the state of a
    fresh process, and what the manager's methods make of such a state as
    long as no [create_vector_store] and no [load_vector_store] succeeds. *)
Inductive unbuilt : World -> Prop :=
| unbuilt_start files :
    unbuilt (initial_world files)
| unbuilt_build w docs embeddings e w' :
    unbuilt w ->
    VectorStoreManager.create_vector_store docs embeddings w = (inl e, w') ->
    unbuilt w'
| unbuilt_load w path e w' :
    unbuilt w ->
    VectorStoreManager.load_vector_store path w = (inl e, w') ->
    unbuilt w'
| unbuilt_search w q k r w' :
    unbuilt w ->
    VectorStoreManager.search_by_vector q k w = (r, w') ->
    unbuilt w'
| unbuilt_save w path r w' :
    unbuilt w ->
    VectorStoreManager.save_vector_store path w = (r, w') ->
    unbuilt w'.

(** ** Ingestion, unit by unit

    A second description of what [process_pdf] collects, written per unit:
    each chunk and each image is an attempt that yields a (document,
    embedding) pair or nothing, independently of the other attempts, and the
    output is the successful attempts in page order, text before images. *)
Module IngestionSpec.
Section WithLibraries.
Context (L : Libraries).

Definition ok {A} (r : result A) : option A :=
  match r with inr x => Some x | inl _ => None end.

(** One text chunk: kept when its embedding succeeds. *)
Definition text_unit (chunk : Document) : option (Document * Vec) :=
  embedding ← ok (embed_text (embedding_generator L) (PStr (page_content chunk)));
  Some (chunk, embedding).

(** The image as it is embedded and stored: extracted, decoded and, when
    too large, scaled down. *)
Definition prepared_image (doc : PdfDocument) (xref : nat) : option PilImage :=
  image_bytes ← ok (extract_image doc xref);
  pil_image ← ok (Image_open L image_bytes);
  if ((settings.MAX_IMAGE_SIZE.1 <? (im_size pil_image).1)
      || (settings.MAX_IMAGE_SIZE.2 <? (im_size pil_image).2))%nat
  then ok (thumbnail L pil_image settings.MAX_IMAGE_SIZE)
  else Some pil_image.

Definition image_document (page_num img_index : nat) : Document :=
  let image_id := PDFProcessor.image_id_of page_num img_index in
  mkDocument ("[Image: " +:+ image_id +:+ "]")
    (<["page" := VInt (Z.of_nat page_num)]>
       (<["type" := VStr "image"]> (<["image_id" := VStr image_id]> ∅))).

(** One image: kept when decoding, re-encoding and embedding succeed. *)
Definition image_unit (doc : PdfDocument) (page_num : nat)
    (entry : nat * nat) : option (Document * Vec) :=
  pil_image ← prepared_image doc entry.2;
  _ ← ok (Image_save L pil_image settings.IMAGE_FORMAT);
  embedding ← ok (embed_image (embedding_generator L) (PImage pil_image));
  Some (image_document page_num entry.1, embedding).

(** The chunks of a page, each tagged with the page number. *)
Definition page_chunks (page : Page) (page_num : nat) : list Document :=
  match get_text page with
  | inr text =>
      if strip_nonempty text then
        (fun chunk =>
           mkDocument chunk
             (<["page" := VInt (Z.of_nat page_num)]> (<["type" := VStr "text"]> ∅)))
        <$> split_text L settings.CHUNK_SIZE settings.CHUNK_OVERLAP text
      else []
  | inl _ => []
  end.

Definition page_images (page : Page) : list nat :=
  match get_images page with inr images => images | inl _ => [] end.

Definition page_units (doc : PdfDocument) (page_num : nat) (page : Page)
    : list (Document * Vec) :=
  omap text_unit (page_chunks page page_num)
  ++ omap (image_unit doc page_num) (enumerate (page_images page)).

Definition document_units (doc : PdfDocument) : list (Document * Vec) :=
  mjoin (imap (page_units doc) (pdf_pages doc)).

(** One image: written to the store when decoding and re-encoding
    succeed, whatever becomes of its embedding. *)
Definition stored_image (doc : PdfDocument) (page_num : nat)
    (entry : nat * nat) : option (string * string) :=
  pil_image ← prepared_image doc entry.2;
  buffered ← ok (Image_save L pil_image settings.IMAGE_FORMAT);
  Some (PDFProcessor.image_id_of page_num entry.1, b64encode L buffered).

Definition page_stored (doc : PdfDocument) (page_num : nat) (page : Page)
    : list (string * string) :=
  omap (stored_image doc page_num) (enumerate (page_images page)).

Definition document_stored (doc : PdfDocument) : list (string * string) :=
  mjoin (imap (page_stored doc) (pdf_pages doc)).

Definition readable (page : Page) : Prop :=
  is_ok (get_text page) = true /\ is_ok (get_images page) = true.

End WithLibraries.
End IngestionSpec.

(** The progress callback, when there is one, returns normally. *)
Definition never_raises (progress_callback : option (Q -> result unit)) : Prop :=
  forall callback x, progress_callback = Some callback -> callback x = inr tt.

(** [doc] is a text chunk of page [p] / an image of page [p]. *)
Definition on_page (doc : Document) (p : Z) : Prop :=
  metadata doc !! "page" = Some (VInt p).

Definition is_text (doc : Document) : Prop :=
  metadata doc !! "type" = Some (VStr "text").

Definition is_image (doc : Document) : Prop :=
  metadata doc !! "type" = Some (VStr "image").

(** [a] may come before [b] in the output of an ingestion: [a] is on an
    earlier page, or on the same page and not an image followed by text. *)
Definition ingestion_order (a b : Document) : Prop :=
  exists pa pb : Z,
    on_page a pa /\ on_page b pb /\
    (is_text a \/ is_image a) /\ (is_text b \/ is_image b) /\
    ((pa < pb)%Z \/ (pa = pb /\ (is_text a \/ is_image b))).

(** [embedding] is what the provider returns for the unit [doc]. *)
Definition embedded_by (g : EmbeddingGenerator) (doc : Document)
    (embedding : Vec) : Prop :=
  (is_text doc /\ embed_text g (PStr (page_content doc)) = inr embedding) \/
  (is_image doc /\ exists pil_image, embed_image g (PImage pil_image) = inr embedding).

(** No character of [s] is an underscore. *)
Fixpoint underscore_free (s : string) : bool :=
  match s with
  | EmptyString => true
  | String c rest => negb (Ascii.eqb c "_") && underscore_free rest
  end.

(** ** Images of a prompt *)

(** The document carries an integer page number, as every unit made by
    [process_pdf] does. *)
Definition has_page (doc : Document) : Prop := exists p : Z, on_page doc p.

(** The stored payload of a retrieved unit that is an image with a
    non-empty identifier found in the store. *)
Definition included_payload (image_data_store : gmap string string)
    (doc : Document) : option string :=
  if ResponseGenerator.has_type "image" doc then
    match metadata doc !! "image_id" with
    | Some (VStr image_id) =>
        if String.eqb image_id "" then None else image_data_store !! image_id
    | _ => None
    end
  else None.

Definition included_images (image_data_store : gmap string string)
    (retrieved_docs : list Document) : list string :=
  ResponseGenerator.data_url <$> omap (included_payload image_data_store) retrieved_docs.

(** A retrieved unit as the data model has it: it carries its page index,
    and an image unit carries the identifier it was given at ingestion,
    [page_p_img_i], a string that is never empty. *)
Definition content_unit (doc : Document) : Prop :=
  has_page doc /\
  (is_image doc ->
   exists image_id,
     metadata doc !! "image_id" = Some (VStr image_id) /\ image_id <> "").

(** What the store holds under the identifier of an image unit. *)
Definition stored_payload (image_data_store : gmap string string)
    (doc : Document) : option string :=
  if ResponseGenerator.has_type "image" doc then
    match metadata doc !! "image_id" with
    | Some (VStr image_id) => image_data_store !! image_id
    | _ => None
    end
  else None.

(** The image blocks of the image units whose identifier is a key of the
    store, in retrieval order. *)
Definition stored_images (image_data_store : gmap string string)
    (retrieved_docs : list Document) : list string :=
  ResponseGenerator.data_url <$> omap (stored_payload image_data_store) retrieved_docs.

(** ** Sample data *)
Module Sample.

Definition text_meta (p : Z) : gmap string value :=
  <["page" := VInt p]> (<["type" := VStr "text"]> ∅).

Definition image_meta (p : Z) (image_id : string) : gmap string value :=
  <["page" := VInt p]>
    (<["type" := VStr "image"]> (<["image_id" := VStr image_id]> ∅)).

(** Four units; the second and the fourth have the same embedding. *)
Definition docs : list Document :=
  [mkDocument "alpha" (text_meta 0);
   mkDocument "beta" (text_meta 0);
   mkDocument "[Image: page_0_img_0]" (image_meta 0 "page_0_img_0");
   mkDocument "gamma" (text_meta 1)].

Definition embeddings : list Vec :=
  [[1; 0]; [0; 1]; [3 # 5; 4 # 5]; [0; 1]]%Q.

Definition query : Vec := [0; 1]%Q.

Definition index : FAISS.t := FAISS.mk 2 embeddings docs.

Definition world : World := mkWorld (Some index) ∅ [].

(** Six units, one more than [DEFAULT_K]. *)
Definition docs6 : list Document :=
  docs ++ [mkDocument "delta" (text_meta 1); mkDocument "epsilon" (text_meta 2)].

Definition embeddings6 : list Vec :=
  embeddings ++ [[1; 0]; [4 # 5; 3 # 5]]%Q.

Definition index6 : FAISS.t := FAISS.mk 2 embeddings6 docs6.

Definition world6 : World := mkWorld (Some index6) ∅ [].

(** A provider of two-dimensional embeddings that fails on one text and on
    one image. *)
Definition provider : EmbeddingGenerator :=
  {| embed_text := fun x =>
       match x with
       | PStr s =>
           if String.eqb s "unembeddable"
           then inl (RuntimeError "CLIP failed") else inr [1; 0]%Q
       | PImage _ => inl (TypeError "text expected")
       end;
     embed_image := fun x =>
       match x with
       | PImage im =>
           match im_data im with
           | [b] =>
               if Byte.eqb b Byte.x00
               then inl (RuntimeError "CLIP failed") else inr [0; 1]%Q
           | _ => inr [0; 1]%Q
           end
       | PStr _ => inl (RuntimeError "cannot open image file")
       end |}.

Fixpoint split_bar (s cur : string) : list string :=
  match s with
  | EmptyString => [cur]
  | String c rest =>
      if Ascii.eqb c "|" then cur :: split_bar rest ""
      else split_bar rest (cur +:+ String c "")
  end.

(** Page 0: three chunks, the second of which cannot be embedded, and three
    images, the second of which cannot be extracted and the third of which
    cannot be embedded.  Page 1: blank text and one image. *)
Definition report : PdfDocument :=
  {| pdf_pages :=
       [mkPage (inr "alpha|unembeddable|beta") (inr [7; 8; 9]);
        mkPage (inr "   ") (inr [7])];
     extract_image := fun xref =>
       match xref with
       | 7 => inr [Byte.x61]
       | 9 => inr [Byte.x00]
       | _ => inl (ValueError "bad xref")
       end |}.

(** One page with a single image, whose embedding fails. *)
Definition lone_image : PdfDocument :=
  {| pdf_pages := [mkPage (inr "") (inr [9])];
     extract_image := extract_image report |}.

(** A document whose second page cannot be read. *)
Definition torn : PdfDocument :=
  {| pdf_pages :=
       [mkPage (inr "alpha") (inr []);
        mkPage (inl (RuntimeError "cannot load page")) (inr [])];
     extract_image := extract_image report |}.

Definition libraries : Libraries :=
  {| pymupdf_open := fun src =>
       match src with
       | PdfPath "report.pdf" => inr report
       | PdfPath "lone_image.pdf" => inr lone_image
       | PdfPath "torn.pdf" => inr torn
       | _ => inl (RuntimeError "cannot open file")
       end;
     split_text := fun _ _ text => split_bar text "";
     Image_open := fun b =>
       match b with
       | [] => inl (ValueError "cannot identify image file")
       | _ => inr (mkPilImage (600 * length b, 100) b)
       end;
     thumbnail := fun im size =>
       inr (mkPilImage ((im_size im).1 `min` size.1, (im_size im).2 `min` size.2)
              (im_data im));
     Image_save := fun im _ => inr (im_data im);
     b64encode := string_of_list_byte;
     embedding_generator := provider |}.

(** A progress callback that returns normally. *)
Definition callback : option (Q -> result unit) := Some (fun _ => inr tt).

(** A saved index of three-dimensional vectors. *)
Definition index3 : FAISS.t :=
  FAISS.mk 3 [[1; 0; 0]%Q] [mkDocument "delta" (text_meta 0)].

Definition files : gmap string FAISS.t := {["saved" := index3]}.

Definition image_store : gmap string string :=
  {["page_0_img_0" := "QUJD"]}.

End Sample.


(** * Further operations *)

(** ** [backend/processing/embeddings.py]: the batch variants *)
Module EmbeddingBatch.

(** [for x in items: embedding = embed(x); embeddings.append(embedding)]:
    an exception leaves the loop and the function. *)
Fixpoint batch_loop (embed : pyobj -> result Vec) (embeddings : list Vec)
    (items : list pyobj) : result (list Vec) :=
  match items with
  | [] => mret embeddings
  | x :: rest =>
      embedding ← embed x;
      batch_loop embed (embeddings ++ [embedding]) rest
  end.

Definition embed_batch_texts (g : EmbeddingGenerator) (texts : list pyobj)
    : result (list Vec) :=
  batch_loop (embed_text g) [] texts.

Definition embed_batch_images (g : EmbeddingGenerator) (images : list pyobj)
    : result (list Vec) :=
  batch_loop (embed_image g) [] images.

End EmbeddingBatch.

(** ** [backend/retrieval/response_generator.py]: [process_image_question] *)
Module ImageQuestion.

Definition process_image_question (L : Libraries)
    (llm : list block -> result string) (input_image : PilImage)
    (question : string) (retrieved_docs : list Document)
    (image_data_store : gmap string string) : result string :=
  message ← ResponseGenerator.create_image_question_message L input_image
              question retrieved_docs image_data_store;
  ResponseGenerator.generate_response llm message.

End ImageQuestion.

(** [str(e)] for the exceptions of this development: the message, and for
    a [KeyError] the key in quotes. *)
Definition str_exn (e : exn) : string :=
  match e with
  | ValueError msg => msg
  | KeyError key => "'" +:+ key +:+ "'"
  | TypeError msg => msg
  | IndexError msg => msg
  | AssertionError msg => msg
  | RuntimeError msg => msg
  end.

(** ** [frontend/streamlit_app.py] *)
Module Frontend.

(** The keys of [st.session_state] that the application sets. *)
Record SessionState := mkSessionState {
  vector_store_ready : bool;
  image_data_store : gmap string string;
  processed_docs_count : nat;
  current_pdf_name : option string
}.

(** What [initialize_session_state] puts under the keys that are absent. *)
Definition initial_session : SessionState :=
  mkSessionState false ∅ 0 None.

(** [st.file_uploader]'s result. *)
Record UploadedFile := mkUploadedFile {
  file_name : string;
  getvalue : bytes
}.

(** The operating system and the widgets, as oracles. *)
Record Host := mkHost {
  (* NamedTemporaryFile(delete=False, suffix=".pdf"), write, and its name *)
  write_temp_file : bytes -> result string;
  (* os.unlink *)
  unlink : string -> result unit;
  (* progress_bar.progress(p); status_text.text(...) *)
  show_progress : Q -> result unit;
  (* base64.b64decode *)
  b64decode : string -> result bytes;
  (* st.image(data, caption=..., width=300), which has to open the data as
     an image *)
  st_image : bytes -> string -> result unit
}.

Definition AppState : Type := World * SessionState.

(** The body of the [try] block of [process_uploaded_pdf]. *)
Definition upload_body (L : Libraries) (H : Host) (uploaded_file : UploadedFile)
    (st : AppState) : result (bool * string) * AppState :=
  let '(w, s) := st in
  match write_temp_file H (getvalue uploaded_file) with
  | inl e => (inl e, (w, s))
  | inr tmp_path =>
  match PDFProcessor.process_pdf L (PdfPath tmp_path) (Some (show_progress H)) with
  | inl e => (inl e, (w, s))
  | inr (all_docs, all_embeddings, image_store) =>
      if negb (py_not all_docs) && negb (py_not all_embeddings) then
        match VectorStoreManager.create_vector_store all_docs all_embeddings w with
        | (inl e, w') => (inl e, (w', s))
        | (inr _, w') =>
            let s' := mkSessionState true image_store (length all_docs)
                        (Some (file_name uploaded_file)) in
            match unlink H tmp_path with
            | inl e => (inl e, (w', s'))
            | inr _ =>
                (inr (true,
                      "Successfully processed " +:+ str_nat (length all_docs)
                      +:+ " document chunks!"),
                 (w', s'))
            end
        end
      else (inr (false, "No content found in the PDF file."), (w, s))
  end end.

(** [except Exception as e: return False, f"Error processing PDF: {str(e)}"] *)
Definition process_uploaded_pdf (L : Libraries) (H : Host)
    (uploaded_file : UploadedFile) (st : AppState) : (bool * string) * AppState :=
  match upload_body L H uploaded_file st with
  | (inr answer, st') => (answer, st')
  | (inl e, st') => ((false, "Error processing PDF: " +:+ str_exn e), st')
  end.

(** What [display_retrieved_context] puts on the page. *)
Inductive widget :=
| Write (text : string)
| ShowImage (data : bytes) (caption : string).

(** [len(s)]: the number of characters, that is, of bytes that do not
    continue a character. *)
Definition is_continuation (c : ascii) : bool :=
  let n := nat_of_ascii c in ((128 <=? n) && (n <? 192))%nat.

Fixpoint py_len (s : string) : nat :=
  match s with
  | EmptyString => 0
  | String c rest => (if is_continuation c then 0 else 1) + py_len rest
  end.

(** [s[:n]]: the first [n] characters, each with the bytes that continue
    it. *)
Fixpoint py_prefix (n : nat) (s : string) : string :=
  match s with
  | EmptyString => EmptyString
  | String c rest =>
      if is_continuation c then String c (py_prefix n rest)
      else
        match n with
        | 0 => EmptyString
        | S n' => String c (py_prefix n' rest)
        end
  end.

(** [doc.page_content[:300] + "..." if len(doc.page_content) > 300 else
    doc.page_content] *)
Definition preview_of (content : string) : string :=
  if (300 <? py_len content)%nat
  then py_prefix 300 content +:+ "..."
  else content.

(** [doc.metadata.get("page", 0) + 1], formatted *)
Definition shown_page (doc : Document) : result string :=
  match metadata doc !! "page" with
  | None => inr (str_Z (0 + 1))
  | Some (VInt n) => inr (str_Z (n + 1))
  | Some (VStr _) => inl (TypeError "can only concatenate str to str")
  end.

(** Body of the loop of [display_retrieved_context]: the widgets drawn for
    one document, and the exception that ended the drawing, if any. *)
Definition display_step (H : Host) (store : gmap string string)
    (i : nat) (doc : Document) : list widget * option exn :=
  match shown_page doc with
  | inl e => ([], Some e)
  | inr page =>
      if bool_decide (metadata doc !! "type" = Some (VStr "text")) then
        ([Write ("**" +:+ str_nat (i + 1) +:+ ". Text from page " +:+ page +:+ ":**");
          Write (preview_of (page_content doc));
          Write "---"], None)
      else
        let header :=
          Write ("**" +:+ str_nat (i + 1) +:+ ". Image from page " +:+ page +:+ ":**") in
        match ResponseGenerator.usable_image_id store doc with
        | None => ([header; Write "---"], None)
        | Some image_id =>
            match b64decode H (default "" (store !! image_id)) with
            | inl e => ([header], Some e)
            | inr img_data =>
                match st_image H img_data ("Image from page " +:+ page) with
                | inl e => ([header], Some e)
                | inr _ =>
                    ([header; ShowImage img_data ("Image from page " +:+ page);
                      Write "---"], None)
                end
            end
        end
  end.

Fixpoint display_loop (H : Host) (store : gmap string string)
    (entries : list (nat * Document)) : list widget * option exn :=
  match entries with
  | [] => ([], None)
  | (i, doc) :: rest =>
      match display_step H store i doc with
      | (drawn, Some e) => (drawn, Some e)
      | (drawn, None) =>
          let '(more, outcome) := display_loop H store rest in
          (drawn ++ more, outcome)
      end
  end.

Definition display_retrieved_context (H : Host)
    (retrieved_docs : list Document) (store : gmap string string)
    : list widget * option exn :=
  let '(drawn, outcome) := display_loop H store (enumerate retrieved_docs) in
  (Write ("Found " +:+ str_nat (length retrieved_docs) +:+ " relevant items:")
   :: drawn, outcome).

(** The images drawn, in order. *)
Definition shown_images (drawn : list widget) : list bytes :=
  drawn ≫= fun w =>
    match w with ShowImage data _ => [data] | Write _ => [] end.

End Frontend.

(** ** Vocabulary of the further statements *)

(** The document is one whose page label the text prompt formats: a text
    unit, or an image unit that passes the store test. *)
Definition needs_label (image_data_store : gmap string string)
    (doc : Document) : bool :=
  ResponseGenerator.has_type "text" doc
  || (ResponseGenerator.has_type "image" doc
      && bool_decide (is_Some (ResponseGenerator.usable_image_id image_data_store doc))).

(** The document is of one of the two kinds a prompt looks at. *)
Definition text_or_image (doc : Document) : bool :=
  ResponseGenerator.has_type "text" doc || ResponseGenerator.has_type "image" doc.

(** The page entry, when there is one, is an integer. *)
Definition page_not_a_string (doc : Document) : Prop :=
  forall s, metadata doc !! "page" <> Some (VStr s).

(** The payload decodes, and [st.image] draws what it decodes to. *)
Definition drawable (H : Frontend.Host) (payload : string) : Prop :=
  exists data,
    Frontend.b64decode H payload = inr data /\
    forall caption, Frontend.st_image H data caption = inr tt.

(** The document with page 0 in the place of a missing page. *)
Definition with_default_page (doc : Document) : Document :=
  match metadata doc !! "page" with
  | None => mkDocument (page_content doc) (<["page" := VInt 0]> (metadata doc))
  | Some _ => doc
  end.

(** A page without text and without images. *)
Definition blank (page : Page) : Prop :=
  (exists text, get_text page = inr text /\ strip_nonempty text = false) /\
  get_images page = inr [].

(** The value the progress callback receives for page [i] of
    [total_pages]. *)
Definition progress_at (i total_pages : nat) : Q :=
  (inject_Z (Z.of_nat (i + 1)) / inject_Z (Z.of_nat total_pages))%Q.

(** The identifiers that the units of a list carry. *)
Definition image_ids (docs : list Document) : list value :=
  omap (fun doc => metadata doc !! "image_id") docs.

Module Fixture.

(** A progress display that fails once the work is complete. *)
Definition fragile_callback (progress : Q) : result unit :=
  if Qle_bool 1 progress then inl (RuntimeError "widget is gone") else inr tt.

(** A no-break space, U+00A0, in UTF-8. *)
Definition nbsp : string := String "194"%char (String "160"%char EmptyString).

(** Three pages without text and without images; the text of the second
    is a no-break space between two spaces. *)
Definition empty_pages : PdfDocument :=
  {| pdf_pages :=
       [mkPage (inr "  ") (inr []);
        mkPage (inr (" " +:+ nbsp +:+ " ")) (inr []);
        mkPage (inr "") (inr [])];
     extract_image := extract_image Sample.report |}.

(** The sample libraries, which also open [blank.pdf]. *)
Definition libraries : Libraries :=
  {| pymupdf_open := fun src =>
       match src with
       | PdfPath "blank.pdf" => inr empty_pages
       | _ => pymupdf_open Sample.libraries src
       end;
     split_text := split_text Sample.libraries;
     Image_open := Image_open Sample.libraries;
     thumbnail := thumbnail Sample.libraries;
     Image_save := Image_save Sample.libraries;
     b64encode := b64encode Sample.libraries;
     embedding_generator := Sample.provider |}.

(** What the ingestion of the sample report returns. *)
Definition report_docs : list Document :=
  [mkDocument "alpha" (Sample.text_meta 0);
   mkDocument "beta" (Sample.text_meta 0);
   mkDocument "[Image: page_0_img_0]" (Sample.image_meta 0 "page_0_img_0");
   mkDocument "[Image: page_1_img_0]" (Sample.image_meta 1 "page_1_img_0")].

Definition report_embeddings : list Vec :=
  [[1; 0]; [1; 0]; [0; 1]; [0; 1]]%Q.

Definition report_store : gmap string string :=
  <["page_0_img_0" := "a"]>
    (<["page_0_img_2" := String "000"%char EmptyString]>
       (<["page_1_img_0" := "a"]> ∅)).

Definition report_index : FAISS.t :=
  FAISS.mk 2 report_embeddings report_docs.

(** A host whose temporary file is the sample report. *)
Definition host : Frontend.Host :=
  {| Frontend.write_temp_file := fun _ => inr "report.pdf";
     Frontend.unlink := fun _ => inr tt;
     Frontend.show_progress := fun _ => inr tt;
     Frontend.b64decode := fun s => inr (list_byte_of_string s);
     Frontend.st_image := fun data _ =>
       match data with
       | [] => inl (RuntimeError "cannot identify image file")
       | _ => inr tt
       end |}.

(** The same host, on which the temporary file cannot be removed. *)
Definition locked_host : Frontend.Host :=
  {| Frontend.write_temp_file := Frontend.write_temp_file host;
     Frontend.unlink := fun _ => inl (RuntimeError "file is in use");
     Frontend.show_progress := Frontend.show_progress host;
     Frontend.b64decode := Frontend.b64decode host;
     Frontend.st_image := Frontend.st_image host |}.

(** A text unit that carries no page. *)
Definition loose : Document :=
  mkDocument "loose leaf" (<["type" := VStr "text"]> ∅).

Definition upload : Frontend.UploadedFile :=
  Frontend.mkUploadedFile "report.pdf" [Byte.x25; Byte.x50; Byte.x44; Byte.x46].

End Fixture.

(** * Properties *)

(** ** Arithmetic of embeddings *)

Local Open Scope Q_scope.

Lemma Qle_bool_false (x y : Q) : Qle_bool x y = false -> y < x.
Proof.
  intros H. apply Qnot_le_lt. intros Hle.
  apply Qle_bool_iff in Hle. congruence.
Qed.

Lemma l2sqr_expand (q v : Vec) :
  length q = length v ->
  l2sqr q v == norm2 q + norm2 v - 2 * dot q v.
Proof.
  unfold norm2. revert v.
  induction q as [|a q IH]; intros [|b v] Hlen; simpl in *; try discriminate.
  - ring.
  - rewrite IH by lia. ring.
Qed.

Lemma norm2_nonneg (v : Vec) : 0 <= norm2 v.
Proof.
  unfold norm2. induction v as [|a v IH]; simpl.
  - apply Qle_refl.
  - assert (0 <= a * a) by nra. lra.
Qed.

Lemma dot_zero_norm (q v : Vec) : norm2 q == 0 -> dot q v == 0.
Proof.
  unfold norm2. revert v.
  induction q as [|a q IH]; intros [|b v] H; simpl in *; try reflexivity.
  pose proof (norm2_nonneg q) as Hq. unfold norm2 in Hq.
  assert (Ha : 0 <= a * a) by nra.
  assert (Ha0 : a * a == 0) by lra.
  assert (a == 0) by nra.
  rewrite IH by lra. nra.
Qed.

Lemma signed_square_mono (x y : Q) : x <= y -> signed_square x <= signed_square y.
Proof.
  intros Hxy. unfold signed_square.
  destruct (Qle_bool 0 x) eqn:Hx; destruct (Qle_bool 0 y) eqn:Hy;
    try apply Qle_bool_iff in Hx; try apply Qle_bool_iff in Hy;
    try apply Qle_bool_false in Hx; try apply Qle_bool_false in Hy; nra.
Qed.

Lemma signed_square_strict (x y : Q) : x < y -> signed_square x < signed_square y.
Proof.
  intros Hxy. unfold signed_square.
  destruct (Qle_bool 0 x) eqn:Hx; destruct (Qle_bool 0 y) eqn:Hy;
    try apply Qle_bool_iff in Hx; try apply Qle_bool_iff in Hy;
    try apply Qle_bool_false in Hx; try apply Qle_bool_false in Hy; nra.
Qed.

Local Close Scope Q_scope.

(** ** The hits of a search are sorted *)

Lemma hit_leb_le (a b : FAISS.hit) : FAISS.hit_leb a b = true <-> hit_le a b.
Proof.
  unfold FAISS.hit_leb, hit_le.
  rewrite orb_true_iff, andb_true_iff, negb_true_iff, Z.leb_le.
  split.
  - intros [H | [H1 H2]].
    + left. by apply Qle_bool_false.
    + apply Qle_bool_iff in H1.
      destruct (Qlt_le_dec a.1 b.1) as [Hlt | Hge]; [by left |].
      right. split; [by apply Qle_antisym | done].
  - intros [H | [H1 H2]].
    + left. destruct (Qle_bool b.1 a.1) eqn:E; [|done].
      apply Qle_bool_iff in E. exfalso. by apply (Qlt_not_le _ _ H).
    + right. split; [|done]. apply Qle_bool_iff. rewrite H1. apply Qle_refl.
Qed.

Lemma hit_leb_total (a b : FAISS.hit) : FAISS.hit_leb a b = false -> hit_le b a.
Proof.
  intros H. unfold hit_le.
  destruct (Qlt_le_dec b.1 a.1) as [Hlt | Hge]; [by left |].
  destruct (Qlt_le_dec a.1 b.1) as [Hlt' | Hge'].
  { assert (hit_le a b) as Hab by (by left).
    apply hit_leb_le in Hab. congruence. }
  right. split; [by apply Qle_antisym |].
  destruct (Z.le_gt_cases b.2 a.2) as [|Hgt]; [done |].
  assert (hit_le a b) as Hab.
  { right. split; [by apply Qle_antisym | lia]. }
  apply hit_leb_le in Hab. congruence.
Qed.

Lemma hit_le_trans (a b c : FAISS.hit) : hit_le a b -> hit_le b c -> hit_le a c.
Proof.
  unfold hit_le. intros [H1 | [H1 H1']] [H2 | [H2 H2']].
  - left. by eapply Qlt_trans.
  - left. by rewrite <- H2.
  - left. by rewrite H1.
  - right. split; [by rewrite H1 | lia].
Qed.

Lemma insert_hit_perm (h : FAISS.hit) (l : list FAISS.hit) :
  FAISS.insert_hit h l ≡ₚ h :: l.
Proof.
  induction l as [|x l IH]; simpl; [done |].
  destruct (FAISS.hit_leb h x); [done |].
  rewrite IH. apply Permutation_swap.
Qed.

Lemma sort_hits_perm (l : list FAISS.hit) : FAISS.sort_hits l ≡ₚ l.
Proof.
  induction l as [|x l IH]; simpl; [done |].
  by rewrite insert_hit_perm, IH.
Qed.

Lemma insert_hit_sorted (h : FAISS.hit) (l : list FAISS.hit) :
  StronglySorted hit_le l -> StronglySorted hit_le (FAISS.insert_hit h l).
Proof.
  induction 1 as [|x l Hl IH Hx]; simpl.
  - repeat constructor.
  - destruct (FAISS.hit_leb h x) eqn:E.
    + apply hit_leb_le in E.
      constructor; [by constructor |].
      constructor; [done |].
      eapply Forall_impl; [exact Hx |]. intros y Hy. by eapply hit_le_trans.
    + apply hit_leb_total in E.
      constructor; [done |].
      rewrite insert_hit_perm. by constructor.
Qed.

Lemma sort_hits_sorted (l : list FAISS.hit) :
  StronglySorted hit_le (FAISS.sort_hits l).
Proof.
  induction l as [|x l IH]; simpl; [constructor |].
  by apply insert_hit_sorted.
Qed.

(** ** Building an index *)

Lemma zip_with_mkDocument (docs : list Document) :
  zip_with mkDocument (page_content <$> docs) (metadata <$> docs) = docs.
Proof.
  induction docs as [|[c m] docs IH]; [done |].
  rewrite !fmap_cons. cbn [zip_with page_content metadata]. by rewrite IH.
Qed.

Lemma np_array_inr (embeddings arr : list Vec) :
  FAISS.np_array embeddings = inr arr ->
  arr = embeddings /\
  forall e0, head embeddings = Some e0 ->
    Forall (fun e : Vec => length e = length e0) embeddings.
Proof.
  unfold FAISS.np_array. destruct embeddings as [|e0 rest]; intros H.
  - inversion H. split; [done |]. intros ? [=].
  - destruct (forallb _ _) eqn:E; [|discriminate]. inversion H.
    split; [done |]. intros e [= <-].
    pose proof (proj1 (forallb_forall _ _) E) as E'. apply Forall_forall.
    intros x Hx. apply Nat.eqb_eq, E'. by apply list_elem_of_In.
Qed.

Lemma np_array_uniform (embeddings : list Vec) (n : nat) :
  Forall (fun e : Vec => length e = n) embeddings ->
  FAISS.np_array embeddings = inr embeddings.
Proof.
  intros H. unfold FAISS.np_array. destruct embeddings as [|e0 rest]; [done |].
  assert (forallb (fun e => Nat.eqb (length e) (length e0)) (e0 :: rest) = true)
    as ->; [|done].
  apply (proj2 (forallb_forall _ _)). intros x Hx. apply Nat.eqb_eq.
  apply list_elem_of_In in Hx.
  rewrite Forall_forall in H.
  rewrite (H x Hx). symmetry. apply H. left.
Qed.

(** What a successful [create_vector_store] leaves behind. *)
Lemma create_vector_store_inr (docs : list Document) (embeddings : list Vec)
    (w0 w : World) (vs : FAISS.t) :
  VectorStoreManager.create_vector_store docs embeddings w0 = (inr vs, w) ->
  docs <> [] /\ length docs = length embeddings /\
  FAISS.xb vs = embeddings /\ FAISS.docstore vs = docs /\
  Forall (fun e : Vec => length e = FAISS.d vs) embeddings /\
  w = mkWorld (Some vs) (disk w0) (calls w0).
Proof.
  unfold VectorStoreManager.create_vector_store.
  destruct docs as [|doc docs]; [discriminate |].
  destruct embeddings as [|e0 embeddings]; [discriminate |].
  cbn [py_not orb].
  destruct (Nat.eqb _ _) eqn:Hlen; cbn [negb]; [|discriminate].
  apply Nat.eqb_eq in Hlen.
  unfold mbind, M_bind, lift, set_vector_store, mret, M_ret.
  destruct (FAISS.np_array (e0 :: embeddings)) as [e|arr] eqn:Harr; [discriminate |].
  apply np_array_inr in Harr as [-> Hdim].
  unfold FAISS.from_embeddings.
  rewrite snd_zip, fst_zip by (rewrite length_fmap; lia).
  rewrite !length_fmap, Nat.eqb_refl. cbn [negb].
  destruct (FAISS.np_array (e0 :: embeddings)) as [e|arr] eqn:Harr; [discriminate |].
  apply np_array_inr in Harr as [-> _].
  intros [= <- <-]. cbn [FAISS.xb FAISS.docstore FAISS.d].
  pose proof (zip_with_mkDocument (doc :: docs)) as Hz.
  repeat split; try done; first [exact Hz | by apply Hdim].
Qed.

(** [create_vector_store] on well-formed input. *)
Lemma create_vector_store_ok (docs : list Document) (embeddings : list Vec)
    (n : nat) (w0 : World) :
  docs <> [] -> length docs = length embeddings ->
  Forall (fun e : Vec => length e = n) embeddings ->
  exists vs,
    VectorStoreManager.create_vector_store docs embeddings w0
    = (inr vs, mkWorld (Some vs) (disk w0) (calls w0)).
Proof.
  intros Hne Hlen Hdim.
  unfold VectorStoreManager.create_vector_store.
  destruct docs as [|doc docs]; [done |].
  destruct embeddings as [|e0 embeddings]; [discriminate |].
  cbn [py_not orb].
  rewrite Hlen, Nat.eqb_refl. cbn [negb].
  unfold mbind, M_bind, lift, set_vector_store, mret, M_ret.
  rewrite (np_array_uniform _ n Hdim).
  unfold FAISS.from_embeddings.
  rewrite snd_zip, fst_zip by (rewrite length_fmap; lia).
  rewrite !length_fmap, Nat.eqb_refl. cbn [negb].
  rewrite (np_array_uniform _ n Hdim). eexists. reflexivity.
Qed.

(** ** From distances to cosine ranks *)

Local Open Scope Q_scope.

Lemma signed_square_eq (x y : Q) : x == y -> signed_square x == signed_square y.
Proof.
  intros H. apply Qle_antisym; apply signed_square_mono; rewrite H; apply Qle_refl.
Qed.

Lemma cosine_rank_unit (q v : Vec) :
  unit_norm v -> cosine_rank q v == signed_square (dot q v) / norm2 q.
Proof.
  unfold unit_norm, cosine_rank. intros ->. by rewrite Qmult_1_r.
Qed.

(** Between unit vectors of the query's dimension, nearer in Euclidean
    distance means higher in cosine rank. *)
Lemma nearer_ranks_higher (q a b : Vec) :
  unit_norm a -> unit_norm b ->
  length q = length a -> length q = length b ->
  l2sqr q a < l2sqr q b -> cosine_rank q b < cosine_rank q a.
Proof.
  intros Ha Hb La Lb Hlt.
  rewrite !l2sqr_expand in Hlt by done.
  unfold unit_norm in Ha, Hb. rewrite Ha, Hb in Hlt.
  assert (dot q b < dot q a) as Hdot by lra.
  rewrite !cosine_rank_unit by done.
  destruct (Qeq_dec (norm2 q) 0) as [Hz | Hnz].
  { rewrite !dot_zero_norm in Hdot by done. lra. }
  assert (0 < norm2 q) as Hpos.
  { pose proof (norm2_nonneg q). apply Qle_lteq in H as [H | H]; [done |].
    exfalso. apply Hnz. by symmetry. }
  unfold Qdiv. apply Qmult_lt_compat_r.
  - by apply Qinv_lt_0_compat.
  - by apply signed_square_strict.
Qed.

Lemma equidistant_ranks_equal (q a b : Vec) :
  unit_norm a -> unit_norm b ->
  length q = length a -> length q = length b ->
  l2sqr q a == l2sqr q b -> cosine_rank q a == cosine_rank q b.
Proof.
  intros Ha Hb La Lb Heq.
  rewrite !l2sqr_expand in Heq by done.
  unfold unit_norm in Ha, Hb. rewrite Ha, Hb in Heq.
  assert (dot q a == dot q b) as Hdot by lra.
  rewrite !cosine_rank_unit by done.
  unfold Qdiv. by rewrite (signed_square_eq _ _ Hdot).
Qed.

Local Close Scope Q_scope.

Lemma hit_le_ranked_before (q : Vec) (embeddings : list Vec) (i j : nat)
    (ei ej : Vec) :
  embeddings !! i = Some ei -> embeddings !! j = Some ej ->
  unit_norm ei -> unit_norm ej ->
  length q = length ei -> length q = length ej ->
  hit_le (l2sqr q ei, Z.of_nat i) (l2sqr q ej, Z.of_nat j) ->
  i <> j ->
  ranked_before q embeddings i j.
Proof.
  intros Hi Hj Ui Uj Li Lj Hle Hne.
  exists ei, ej. split; [done |]. split; [done |].
  destruct Hle as [Hlt | [Heq Hlab]]; simpl in *.
  - left. by apply nearer_ranks_higher.
  - right. split; [by apply equidistant_ranks_equal | lia].
Qed.

Lemma StronglySorted_transfer {A B} (R : relation A) (R' : relation B)
    (f : A -> B) (P : A -> Prop) (l : list A) :
  (forall x y, P x -> P y -> R x y -> f x <> f y -> R' (f x) (f y)) ->
  Forall P l -> NoDup (f <$> l) ->
  StronglySorted R l -> StronglySorted R' (f <$> l).
Proof.
  intros Hstep HP Hnd Hs.
  induction Hs as [|x l Hs IH Hx]; [constructor |].
  rewrite fmap_cons in *.
  apply NoDup_cons in Hnd as [Hnotin Hnd].
  apply Forall_cons in HP as [Px HP].
  constructor; [by apply IH |].
  apply Forall_fmap, Forall_forall. intros y Hy. simpl.
  rewrite Forall_forall in Hx, HP.
  apply Hstep; auto.
  intros Heq. apply Hnotin. rewrite Heq. by apply list_elem_of_fmap_2.
Qed.

(** ** Searching a flat index *)

Lemma scored_labels (q : Vec) (xb : list Vec) :
  (FAISS.scored q xb).*2 = Z.of_nat <$> seq 0 (length xb).
Proof.
  unfold FAISS.scored. rewrite fmap_imap, <- imap_seq_0. by apply imap_ext.
Qed.

Lemma scored_elem (q : Vec) (xb : list Vec) (h : FAISS.hit) :
  h ∈ FAISS.scored q xb ->
  exists i v, xb !! i = Some v /\ h = (l2sqr q v, Z.of_nat i).
Proof.
  unfold FAISS.scored. intros (i & v & -> & Hv)%elem_of_lookup_imap. eauto.
Qed.

(** Labels that address the store are looked up; the filler label is
    skipped. *)
Lemma collect_docs_all (store : list Document) (hits : list FAISS.hit) (m : nat) :
  Forall (fun h : FAISS.hit => exists i : nat, h.2 = Z.of_nat i /\ i < length store) hits ->
  exists docs,
    FAISS.collect_docs store (hits ++ replicate m (FAISS.FLT_MAX, (-1)%Z)) = inr docs /\
    Forall2 (fun (h : FAISS.hit) doc => store !! Z.to_nat h.2 = Some doc) hits docs.
Proof.
  induction 1 as [|[dist lab] hits (i & Hi & Hlt) _ (docs & IH & IH2)].
  - exists []. split; [|constructor].
    simpl. induction m as [|m IHm]; [done |]. simpl. exact IHm.
  - simpl in Hi. subst lab.
    destruct (lookup_lt_is_Some_2 store i Hlt) as [doc Hdoc].
    exists (doc :: docs). split.
    + cbn [app FAISS.collect_docs].
      destruct (Z.eqb_spec (Z.of_nat i) (-1)) as [|_]; [lia |].
      rewrite Nat2Z.id, Hdoc, IH. done.
    + constructor; [|done]. simpl. by rewrite Nat2Z.id.
Qed.

(** A search with a positive [k] on a well-formed index of the query's
    dimension succeeds; its answer is the documents of the [k] best hits. *)
Lemma similarity_search_spec (ix : FAISS.t) (q : Vec) (k : Z) :
  length (FAISS.xb ix) = length (FAISS.docstore ix) ->
  length q = FAISS.d ix ->
  (0 < k)%Z ->
  exists results,
    FAISS.similarity_search_by_vector ix q k = inr results /\
    Forall2 (fun (h : FAISS.hit) doc => FAISS.docstore ix !! Z.to_nat h.2 = Some doc)
      (take (Z.to_nat k) (FAISS.sort_hits (FAISS.scored q (FAISS.xb ix)))) results.
Proof.
  intros Hstore Hdim Hpos.
  unfold FAISS.similarity_search_by_vector, FAISS.index_search.
  rewrite Hdim, Nat.eqb_refl. cbn [negb].
  destruct (Z.ltb_spec 0 k) as [_ |]; [|lia]. cbn [negb].
  set (hits := take (Z.to_nat k) (FAISS.sort_hits (FAISS.scored q (FAISS.xb ix)))).
  destruct (collect_docs_all (FAISS.docstore ix) hits (Z.to_nat k - length hits))
    as (docs & Hdocs & Hall).
  { apply Forall_forall. intros h Hh.
    unfold hits in Hh. apply elem_of_take in Hh as (n & Hh & _).
    apply list_elem_of_lookup_2 in Hh. rewrite sort_hits_perm in Hh.
    apply scored_elem in Hh as (i & v & Hv & ->).
    exists i. split; [done |]. rewrite <- Hstore. by eapply lookup_lt_Some. }
  rewrite Hdocs. exists docs. split; [|done].
  rewrite take_ge; [done |].
  rewrite <- (Forall2_length _ _ _ Hall). unfold hits. rewrite length_take. lia.
Qed.

Lemma sort_hits_length (q : Vec) (xb : list Vec) :
  length (FAISS.sort_hits (FAISS.scored q xb)) = length xb.
Proof.
  rewrite (Permutation_length (sort_hits_perm _)).
  unfold FAISS.scored. by rewrite length_imap.
Qed.

Lemma sorted_labels_perm (q : Vec) (xb : list Vec) :
  Z.to_nat <$> (FAISS.sort_hits (FAISS.scored q xb)).*2 ≡ₚ seq 0 (length xb).
Proof.
  rewrite sort_hits_perm, scored_labels, <- list_fmap_compose.
  rewrite (list_fmap_ext (Z.to_nat ∘ Z.of_nat) id (seq 0 (length xb))).
  - by rewrite list_fmap_id.
  - intros i x _. simpl. apply Nat2Z.id.
Qed.

(** What [search_by_vector] does on an initialised store. *)
Lemma search_by_vector_initialised (q : Vec) (k : option Z) (w : World)
    (vs : FAISS.t) :
  vector_store w = Some vs ->
  VectorStoreManager.search_by_vector q k w =
    (FAISS.similarity_search_by_vector vs q (py_or k settings.DEFAULT_K),
     mkWorld (vector_store w) (disk w)
       (calls w ++ [IndexSearch q (py_or k settings.DEFAULT_K)])).
Proof.
  destruct w as [store files log]. cbn [vector_store]. intros ->. reflexivity.
Qed.

(** C1: on an index built from [n] documents with unit-norm embeddings, a
    search with [k >= n] succeeds and returns every document exactly once
    (the answer is the documents at a permutation of the positions
    [0 .. n-1]), ordered by descending cosine similarity to the query, ties
    in insertion order. *)
Theorem search_large_k_returns_all_ranked (docs : list Document)
    (embeddings : list Vec) (w0 w1 w : World) (vs : FAISS.t) (q : Vec) (k : Z) :
  VectorStoreManager.create_vector_store docs embeddings w0 = (inr vs, w1) ->
  vector_store w = Some vs ->
  Forall unit_norm embeddings ->
  length q = FAISS.d vs ->
  (Z.of_nat (length docs) <= k)%Z ->
  exists (perm : list nat) (results : list Document),
    (VectorStoreManager.search_by_vector q (Some k) w).1 = inr results /\
    perm ≡ₚ seq 0 (length docs) /\
    Forall2 (fun i doc => docs !! i = Some doc) perm results /\
    StronglySorted (ranked_before q embeddings) perm.
Proof.
  intros Hbuild Hvs Hunit Hq Hk.
  apply create_vector_store_inr in Hbuild
    as (Hne & Hlen & Hxb & Hstore & Hdim & _).
  assert (0 < length docs) as Hpos by (destruct docs; [done | simpl; lia]).
  rewrite (search_by_vector_initialised _ _ _ _ Hvs). cbn [fst].
  assert (py_or (Some k) settings.DEFAULT_K = k) as ->.
  { unfold py_or. destruct (Z.eqb_spec k 0); [lia | done]. }
  destruct (similarity_search_spec vs q k) as (results & Hres & Hall);
    [rewrite Hxb, Hstore; lia | done | lia |].
  rewrite take_ge in Hall by (rewrite sort_hits_length, Hxb; lia).
  set (hits := FAISS.sort_hits (FAISS.scored q (FAISS.xb vs))) in *.
  exists (Z.to_nat <$> hits.*2), results.
  split; [done |]. split; [|split].
  - unfold hits. rewrite sorted_labels_perm, Hxb. by rewrite Hlen.
  - rewrite <- list_fmap_compose. apply Forall2_fmap_l.
    rewrite Hstore in Hall. exact Hall.
  - rewrite <- list_fmap_compose.
    apply (StronglySorted_transfer hit_le _ _
             (fun h : FAISS.hit => exists i v, embeddings !! i = Some v /\
                               h = (l2sqr q v, Z.of_nat i))).
    + intros x y (i & ei & Hi & ->) (j & ej & Hj & ->) Hle Hneq.
      simpl in *. rewrite !Nat2Z.id in *.
      rewrite Forall_forall in Hunit, Hdim.
      pose proof (list_elem_of_lookup_2 _ _ _ Hi) as Hini.
      pose proof (list_elem_of_lookup_2 _ _ _ Hj) as Hinj.
      eapply hit_le_ranked_before; eauto.
      * rewrite Hq. symmetry. by apply Hdim.
      * rewrite Hq. symmetry. by apply Hdim.
    + apply Forall_forall. intros h Hh. unfold hits in Hh.
      rewrite sort_hits_perm in Hh. rewrite <- Hxb. by apply scored_elem.
    + rewrite list_fmap_compose. unfold hits.
      rewrite sorted_labels_perm. apply NoDup_seq.
    + apply sort_hits_sorted.
Qed.

(** ** The vector store manager *)

(** A failed [create_vector_store] leaves the state as it was. *)
Lemma create_vector_store_inl (docs : list Document) (embeddings : list Vec)
    (w w' : World) (e : exn) :
  VectorStoreManager.create_vector_store docs embeddings w = (inl e, w') -> w' = w.
Proof.
  unfold VectorStoreManager.create_vector_store.
  destruct (py_not docs || py_not embeddings); [by intros [= _ <-] |].
  destruct (negb _); [by intros [= _ <-] |].
  unfold mbind, M_bind, lift, set_vector_store, mret, M_ret, raise.
  destruct (FAISS.np_array embeddings); [by intros [= _ <-] |].
  destruct (FAISS.from_embeddings _ _); [by intros [= _ <-] | discriminate].
Qed.

Lemma load_vector_store_inl (path : string) (w w' : World) (e : exn) :
  VectorStoreManager.load_vector_store path w = (inl e, w') -> w' = w.
Proof.
  unfold VectorStoreManager.load_vector_store.
  unfold mbind, M_bind, load_local, raise. by intros [= _ <-].
Qed.

Lemma search_by_vector_uninitialised (q : Vec) (k : option Z) (w : World) :
  vector_store w = None ->
  VectorStoreManager.search_by_vector q k w
  = (inl (ValueError "Vector store not initialized"), w).
Proof.
  destruct w as [store files log]. cbn [vector_store]. intros ->. reflexivity.
Qed.

Lemma save_vector_store_uninitialised (path : string) (w : World) :
  vector_store w = None ->
  VectorStoreManager.save_vector_store path w
  = (inl (ValueError "Vector store not initialized"), w).
Proof.
  destruct w as [store files log]. cbn [vector_store]. intros ->. reflexivity.
Qed.

Lemma unbuilt_vector_store (w : World) : unbuilt w -> vector_store w = None.
Proof.
  induction 1 as [files | w docs embeddings e w' _ IH Hrun
                 | w path e w' _ IH Hrun | w q k r w' _ IH Hrun
                 | w path r w' _ IH Hrun].
  - reflexivity.
  - apply create_vector_store_inl in Hrun. by subst.
  - apply load_vector_store_inl in Hrun. by subst.
  - rewrite search_by_vector_uninitialised in Hrun by done.
    by injection Hrun as _ <-.
  - rewrite save_vector_store_uninitialised in Hrun by done.
    by injection Hrun as _ <-.
Qed.

(** C2: [create_vector_store] raises [ValueError] when an input is empty
    or the two lengths differ, and, for embeddings of one dimensionality,
    only then; whenever it raises, the state, hence the index built before,
    is what it was. *)
Theorem create_vector_store_fails_iff (docs : list Document)
    (embeddings : list Vec) (w : World) :
  ((docs = [] \/ embeddings = [] \/ length docs <> length embeddings) ->
   exists msg,
     (VectorStoreManager.create_vector_store docs embeddings w).1
     = inl (ValueError msg))
  /\ (uniform_dim embeddings ->
      (exists msg,
         (VectorStoreManager.create_vector_store docs embeddings w).1
         = inl (ValueError msg)) ->
      docs = [] \/ embeddings = [] \/ length docs <> length embeddings)
  /\ (forall e,
        (VectorStoreManager.create_vector_store docs embeddings w).1 = inl e ->
        (VectorStoreManager.create_vector_store docs embeddings w).2 = w).
Proof.
  split; [|split].
  - unfold VectorStoreManager.create_vector_store.
    intros [-> | [-> | Hlen]].
    + eexists. reflexivity.
    + rewrite orb_true_r. eexists. reflexivity.
    + destruct (py_not docs || py_not embeddings); [eexists; reflexivity |].
      destruct (Nat.eqb_spec (length docs) (length embeddings)); [done |].
      eexists. reflexivity.
  - intros [n Hdim] [msg Hfail].
    destruct docs as [|doc docs]; [by left |].
    destruct embeddings as [|e0 embeddings]; [by right; left |].
    right; right. intros Hlen.
    destruct (create_vector_store_ok (doc :: docs) (e0 :: embeddings) n w)
      as [vs Hok]; [done | done | done |].
    rewrite Hok in Hfail. discriminate.
  - intros e Hfail.
    destruct (VectorStoreManager.create_vector_store docs embeddings w)
      as [r w'] eqn:Hrun.
    simpl in *. subst r. by apply create_vector_store_inl in Hrun.
Qed.

(** C3: as long as no index was built or loaded, [search_by_vector] and
    [save_vector_store] raise the not-initialised error, whatever their
    arguments, and change nothing. *)
Theorem search_and_save_before_build_fail (w : World) (q : Vec)
    (k : option Z) (path : string) :
  unbuilt w ->
  VectorStoreManager.search_by_vector q k w
    = (inl (ValueError "Vector store not initialized"), w) /\
  VectorStoreManager.save_vector_store path w
    = (inl (ValueError "Vector store not initialized"), w).
Proof.
  intros Hw. apply unbuilt_vector_store in Hw. split.
  - by apply search_by_vector_uninitialised.
  - by apply save_vector_store_uninitialised.
Qed.


(** ** The retriever *)

(** C7: [retrieve_multimodal] with a query type other than ["text"] and
    ["image"] raises [ValueError] and leaves the state, with its log of
    provider and index calls, untouched. *)
Theorem retrieve_multimodal_unsupported_type (g : EmbeddingGenerator)
    (query : pyobj) (query_type : string) (k : option Z) (w : World) :
  query_type <> "text" -> query_type <> "image" ->
  MultimodalRetriever.retrieve_multimodal g query query_type k w
  = (inl (ValueError ("Unsupported query type: " +:+ query_type)), w).
Proof.
  intros Htext Himage. unfold MultimodalRetriever.retrieve_multimodal.
  destruct (String.eqb_spec query_type "text"); [done |].
  destruct (String.eqb_spec query_type "image"); [done |].
  reflexivity.
Qed.

(** The supported query types do reach the provider: the call is logged
    before anything else happens. *)
Lemma retrieve_multimodal_text_calls_provider (g : EmbeddingGenerator)
    (query : pyobj) (k : option Z) (w : World) :
  exists rest,
    calls (MultimodalRetriever.retrieve_multimodal g query "text" k w).2
    = calls w ++ EmbedText query :: rest.
Proof.
  unfold MultimodalRetriever.retrieve_multimodal. cbn [String.eqb Ascii.eqb Bool.eqb].
  unfold MultimodalRetriever.retrieve_by_text.
  unfold mbind, M_bind, log, lift. cbn [vector_store disk calls].
  destruct (embed_text g query) as [e | v]; [exists []; reflexivity |].
  unfold VectorStoreManager.search_by_vector.
  unfold mbind, M_bind, get_vector_store, log, lift, raise.
  cbn [vector_store disk calls].
  destruct (vector_store w); cbn [snd calls].
  - eexists. by rewrite <- app_assoc.
  - by exists [].
Qed.

(** The number of documents a search returns: [k] after defaulting, capped
    by the number of documents indexed. *)
Lemma search_by_vector_count (q : Vec) (k : option Z) (w : World) (vs : FAISS.t) :
  vector_store w = Some vs ->
  length (FAISS.xb vs) = length (FAISS.docstore vs) ->
  length q = FAISS.d vs ->
  (0 < py_or k settings.DEFAULT_K)%Z ->
  exists results,
    (VectorStoreManager.search_by_vector q k w).1 = inr results /\
    length results
    = Z.to_nat (py_or k settings.DEFAULT_K) `min` length (FAISS.docstore vs).
Proof.
  intros Hvs Hwf Hq Hpos.
  rewrite (search_by_vector_initialised _ _ _ _ Hvs). cbn [fst].
  destruct (similarity_search_spec vs q _ Hwf Hq Hpos) as (results & -> & Hall).
  exists results. split; [done |].
  rewrite <- (Forall2_length _ _ _ Hall), length_take, sort_hits_length.
  by rewrite Hwf.
Qed.

Lemma py_or_zero (default : Z) : py_or (Some 0%Z) default = py_or None default.
Proof. reflexivity. Qed.

(** C10: [k = 0] is falsy, so every search and retrieval entry point
    treats it exactly as [k = None]; on a built index the search then
    returns [DEFAULT_K = 5] documents, or all of them when fewer are
    indexed. *)
Theorem zero_k_means_default_k (g : EmbeddingGenerator) (docs : list Document)
    (embeddings : list Vec) (w0 w1 w : World) (vs : FAISS.t) (q : Vec)
    (x : pyobj) (query_type : string) :
  (VectorStoreManager.search_by_vector q (Some 0%Z) w
     = VectorStoreManager.search_by_vector q None w /\
   MultimodalRetriever.retrieve_by_text g x (Some 0%Z) w
     = MultimodalRetriever.retrieve_by_text g x None w /\
   MultimodalRetriever.retrieve_by_image g x (Some 0%Z) w
     = MultimodalRetriever.retrieve_by_image g x None w /\
   MultimodalRetriever.retrieve_multimodal g x query_type (Some 0%Z) w
     = MultimodalRetriever.retrieve_multimodal g x query_type None w /\
   MultimodalRetriever.get_similar_documents q (Some 0%Z) w
     = MultimodalRetriever.get_similar_documents q None w) /\
  (VectorStoreManager.create_vector_store docs embeddings w0 = (inr vs, w1) ->
   vector_store w = Some vs ->
   length q = FAISS.d vs ->
   (exists results,
      (VectorStoreManager.search_by_vector q (Some 0%Z) w).1 = inr results /\
      length results = 5 `min` length docs) /\
   (exists results,
      (MultimodalRetriever.get_similar_documents q (Some 0%Z) w).1 = inr results /\
      length results = 5 `min` length docs) /\
   (embed_text g x = inr q ->
    exists results,
      (MultimodalRetriever.retrieve_by_text g x (Some 0%Z) w).1 = inr results /\
      length results = 5 `min` length docs) /\
   (embed_image g x = inr q ->
    exists results,
      (MultimodalRetriever.retrieve_by_image g x (Some 0%Z) w).1 = inr results /\
      length results = 5 `min` length docs)).
Proof.
  split; [repeat split; reflexivity |].
  intros Hbuild Hvs Hq.
  apply create_vector_store_inr in Hbuild
    as (Hne & Hlen & Hxb & Hstore & Hdim & _).
  assert (length (FAISS.xb vs) = length (FAISS.docstore vs)) as Hwf
    by (by rewrite Hxb, Hstore).
  rewrite <- Hstore.
  assert (forall (k : option Z) (w' : World),
            vector_store w' = Some vs ->
            py_or k settings.DEFAULT_K = 5%Z ->
            exists results,
              (VectorStoreManager.search_by_vector q k w').1 = inr results /\
              length results = 5 `min` length (FAISS.docstore vs)) as Hcount.
  { intros k w' Hw' Hk.
    destruct (search_by_vector_count q k w' vs) as (results & Hres & Hn);
      [done | done | done | by rewrite Hk |].
    rewrite Hk in Hn. by exists results. }
  split; [by apply Hcount |].
  split; [by apply Hcount |].
  split.
  - intros Hx. unfold MultimodalRetriever.retrieve_by_text.
    unfold mbind at 1, M_bind at 1, log at 1.
    unfold mbind at 1, M_bind at 1, lift at 1. rewrite Hx.
    by apply Hcount.
  - intros Hx. unfold MultimodalRetriever.retrieve_by_image.
    unfold mbind at 1, M_bind at 1, log at 1.
    unfold mbind at 1, M_bind at 1, lift at 1. rewrite Hx.
    by apply Hcount.
Qed.

(** ** Ingestion *)

Lemma omap_cons_option_list {A B} (f : A -> option B) (x : A) (l : list A) :
  omap f (x :: l) = option_list (f x) ++ omap f l.
Proof. simpl. by destruct (f x). Qed.

Section Ingestion.
Context (L : Libraries) (progress_callback : option (Q -> result unit)).

Import IngestionSpec.

Lemma text_step_unit (docs : list Document) (embeddings : list Vec)
    (chunk : Document) :
  PDFProcessor.text_step L (docs, embeddings) chunk
  = (docs ++ (option_list (text_unit L chunk)).*1,
     embeddings ++ (option_list (text_unit L chunk)).*2).
Proof.
  unfold PDFProcessor.text_step, text_unit.
  destruct (embed_text _ _) as [e | embedding]; cbn [ok mbind option_bind];
    [by rewrite !app_nil_r | reflexivity].
Qed.

Lemma foldl_text_step (chunks docs : list Document) (embeddings : list Vec) :
  foldl (PDFProcessor.text_step L) (docs, embeddings) chunks
  = (docs ++ (omap (text_unit L) chunks).*1,
     embeddings ++ (omap (text_unit L) chunks).*2).
Proof.
  revert docs embeddings.
  induction chunks as [|chunk chunks IH]; intros docs embeddings.
  - by rewrite !app_nil_r.
  - cbn [foldl]. rewrite text_step_unit, IH, omap_cons_option_list.
    by rewrite !fmap_app, !app_assoc.
Qed.

Lemma process_page_text_units (page : Page) (page_num : nat) (text : string) :
  get_text page = inr text ->
  PDFProcessor._process_page_text L page page_num
  = inr ((omap (text_unit L) (page_chunks L page page_num)).*1,
         (omap (text_unit L) (page_chunks L page page_num)).*2).
Proof.
  intros Htext. unfold PDFProcessor._process_page_text, page_chunks.
  rewrite Htext. cbn [mbind result_bind].
  destruct (strip_nonempty text); [|reflexivity].
  unfold PDFProcessor.split_documents.
  cbn [mbind list_bind metadata page_content]. rewrite app_nil_r.
  unfold mret, result_ret. f_equal. apply foldl_text_step.
Qed.

Lemma image_step_unit (doc : PdfDocument) (page_num : nat)
    (docs : list Document) (embeddings : list Vec)
    (store : gmap string string) (entry : nat * nat) :
  exists store',
    PDFProcessor.image_step L doc page_num (docs, embeddings, store) entry
    = (docs ++ (option_list (image_unit L doc page_num entry)).*1,
       embeddings ++ (option_list (image_unit L doc page_num entry)).*2,
       store').
Proof.
  destruct entry as [img_index xref].
  unfold PDFProcessor.image_step, image_unit, prepared_image. cbn [fst snd].
  destruct (extract_image doc xref) as [e | image_bytes]; cbn [ok mbind option_bind];
    [exists store; by rewrite !app_nil_r |].
  destruct (Image_open L image_bytes) as [e | pil_image]; cbn [ok mbind option_bind];
    [exists store; by rewrite !app_nil_r |].
  destruct (_ || _).
  - destruct (thumbnail L pil_image _) as [e | small]; cbn [ok mbind option_bind];
      [exists store; by rewrite !app_nil_r |].
    destruct (Image_save L small _) as [e | buffered]; cbn [ok mbind option_bind];
      [exists store; by rewrite !app_nil_r |].
    destruct (embed_image _ _) as [e | embedding]; cbn [ok mbind option_bind];
      eexists; [by rewrite !app_nil_r | reflexivity].
  - cbn [ok mbind option_bind].
    destruct (Image_save L pil_image _) as [e | buffered]; cbn [ok mbind option_bind];
      [exists store; by rewrite !app_nil_r |].
    destruct (embed_image _ _) as [e | embedding]; cbn [ok mbind option_bind];
      eexists; [by rewrite !app_nil_r | reflexivity].
Qed.

Lemma foldl_image_step (doc : PdfDocument) (page_num : nat)
    (entries : list (nat * nat)) (docs : list Document)
    (embeddings : list Vec) (store : gmap string string) :
  exists store',
    foldl (PDFProcessor.image_step L doc page_num) (docs, embeddings, store) entries
    = (docs ++ (omap (image_unit L doc page_num) entries).*1,
       embeddings ++ (omap (image_unit L doc page_num) entries).*2,
       store').
Proof.
  revert docs embeddings store.
  induction entries as [|entry entries IH]; intros docs embeddings store.
  - exists store. by rewrite !app_nil_r.
  - cbn [foldl].
    destruct (image_step_unit doc page_num docs embeddings store entry)
      as [store1 ->].
    destruct (IH (docs ++ (option_list (image_unit L doc page_num entry)).*1)
                 (embeddings ++ (option_list (image_unit L doc page_num entry)).*2)
                 store1) as [store2 ->].
    exists store2. rewrite omap_cons_option_list.
    by rewrite !fmap_app, !app_assoc.
Qed.

Lemma process_page_images_units (doc : PdfDocument) (page : Page)
    (page_num : nat) (images : list nat) :
  get_images page = inr images ->
  exists store,
    PDFProcessor._process_page_images L doc page page_num
    = inr ((omap (image_unit L doc page_num) (enumerate (page_images page))).*1,
           (omap (image_unit L doc page_num) (enumerate (page_images page))).*2,
           store).
Proof.
  intros Himages. unfold PDFProcessor._process_page_images, page_images.
  rewrite Himages. cbn [mbind result_bind].
  destruct (foldl_image_step doc page_num (enumerate images) [] [] ∅)
    as [store ->].
  by exists store.
Qed.

Lemma report_progress_ok (i total_pages : nat) :
  never_raises progress_callback ->
  PDFProcessor.report_progress progress_callback i total_pages = inr tt.
Proof.
  intros Hcb. unfold PDFProcessor.report_progress.
  destruct progress_callback as [callback|]; [|reflexivity]. by apply Hcb.
Qed.

Lemma page_step_callback_raises (doc : PdfDocument) (total_pages : nat)
    (st : PDFProcessor.image_state) (page_num : nat) (page : Page) (e : exn) :
  PDFProcessor.report_progress progress_callback page_num total_pages = inl e ->
  PDFProcessor.page_step L doc progress_callback total_pages st (page_num, page)
  = inl e.
Proof.
  intros Hcb. destruct st as [[docs embeddings] store].
  unfold PDFProcessor.page_step. by rewrite Hcb.
Qed.

Lemma page_step_units (doc : PdfDocument) (total_pages : nat)
    (docs : list Document) (embeddings : list Vec)
    (store : gmap string string) (page_num : nat) (page : Page) :
  PDFProcessor.report_progress progress_callback page_num total_pages = inr tt ->
  readable page ->
  exists store',
    PDFProcessor.page_step L doc progress_callback total_pages
      (docs, embeddings, store) (page_num, page)
    = inr (docs ++ (page_units L doc page_num page).*1,
           embeddings ++ (page_units L doc page_num page).*2,
           store').
Proof.
  intros Hcb [Htext Himages].
  destruct (get_text page) as [|text] eqn:Et; [discriminate |].
  destruct (get_images page) as [|images] eqn:Ei; [discriminate |].
  unfold PDFProcessor.page_step. rewrite Hcb. cbn [mbind result_bind].
  rewrite (process_page_text_units page page_num text Et).
  cbn [mbind result_bind].
  destruct (process_page_images_units doc page page_num images Ei)
    as [pstore ->].
  cbn [mbind result_bind]. eexists.
  unfold page_units. rewrite !fmap_app. reflexivity.
Qed.

Lemma page_step_unreadable (doc : PdfDocument) (total_pages : nat)
    (st : PDFProcessor.image_state) (page_num : nat) (page : Page) :
  ~ readable page ->
  exists e,
    PDFProcessor.page_step L doc progress_callback total_pages st (page_num, page)
    = inl e.
Proof.
  intros Hbad. destruct st as [[docs embeddings] store].
  unfold PDFProcessor.page_step.
  destruct (PDFProcessor.report_progress _ _ _) as [e | []];
    [by exists e |]. cbn [mbind result_bind].
  destruct (get_text page) as [e|text] eqn:Et.
  { exists e. unfold PDFProcessor._process_page_text. by rewrite Et. }
  rewrite (process_page_text_units page page_num text Et).
  cbn [mbind result_bind].
  destruct (get_images page) as [e|images] eqn:Ei.
  { exists e. unfold PDFProcessor._process_page_images. by rewrite Ei. }
  exfalso. apply Hbad. unfold readable. by rewrite Et, Ei.
Qed.

(** The loop over the pages, from page number [k] on: when it ends without
    an exception, every page could be read and the units of each page
    were appended. *)
Lemma run_pages_inr (doc : PdfDocument) (total_pages : nat)
    (pages : list Page) (k : nat)
    (docs docs' : list Document) (embeddings embeddings' : list Vec)
    (store store' : gmap string string) :
  PDFProcessor.run_pages L doc progress_callback total_pages
    (docs, embeddings, store) (imap (fun i page => (k + i, page)) pages)
  = inr (docs', embeddings', store') ->
  Forall (readable) pages /\
  docs' = docs ++ (mjoin (imap (fun i => page_units L doc (k + i)) pages)).*1 /\
  embeddings'
  = embeddings ++ (mjoin (imap (fun i => page_units L doc (k + i)) pages)).*2.
Proof.
  revert k docs embeddings store.
  induction pages as [|page pages IH]; intros k docs embeddings store.
  - cbn. intros [= <- <- <-]. by rewrite !app_nil_r.
  - rewrite !imap_cons. cbn [PDFProcessor.run_pages mjoin list_join].
    rewrite Nat.add_0_r.
    destruct (PDFProcessor.report_progress progress_callback k total_pages)
      as [e | []] eqn:Hcb.
    { by rewrite (page_step_callback_raises doc total_pages _ k page e Hcb). }
    destruct (is_ok (get_text page) && is_ok (get_images page)) eqn:Hr.
    + apply andb_true_iff in Hr.
      destruct (page_step_units doc total_pages docs embeddings store k page Hcb Hr)
        as [store1 ->].
      cbn [mbind result_bind].
      rewrite (imap_ext _ (fun i page => (S k + i, page)))
        by (intros; simpl; f_equal; lia).
      intros (Hall & -> & ->)%IH.
      split; [by constructor |].
      rewrite (imap_ext ((fun i => page_units L doc (k + i)) ∘ S)
                 (fun i => page_units L doc (S k + i)))
        by (intros; simpl; f_equal; lia).
      by rewrite !fmap_app, !app_assoc.
    + destruct (page_step_unreadable doc total_pages (docs, embeddings, store) k page)
        as [e ->]; [|discriminate].
      intros [H1 H2]. rewrite H1, H2 in Hr. discriminate.
Qed.

Lemma run_pages_readable (doc : PdfDocument) (total_pages : nat)
    (pages : list Page) (k : nat)
    (docs : list Document) (embeddings : list Vec)
    (store : gmap string string) :
  never_raises progress_callback ->
  Forall readable pages ->
  exists store',
    PDFProcessor.run_pages L doc progress_callback total_pages
      (docs, embeddings, store) (imap (fun i page => (k + i, page)) pages)
    = inr (docs ++ (mjoin (imap (fun i => page_units L doc (k + i)) pages)).*1,
           embeddings ++ (mjoin (imap (fun i => page_units L doc (k + i)) pages)).*2,
           store').
Proof.
  intros Hcb Hall. revert k docs embeddings store.
  induction Hall as [|page pages Hr _ IH]; intros k docs embeddings store.
  - exists store. cbn. by rewrite !app_nil_r.
  - rewrite !imap_cons. cbn [PDFProcessor.run_pages mjoin list_join].
    rewrite Nat.add_0_r.
    destruct (page_step_units doc total_pages docs embeddings store k page
                (report_progress_ok k total_pages Hcb) Hr)
      as [store1 ->].
    cbn [mbind result_bind].
    rewrite (imap_ext _ (fun i page => (S k + i, page)))
      by (intros; simpl; f_equal; lia).
    destruct (IH (S k) (docs ++ (page_units L doc k page).*1)
                (embeddings ++ (page_units L doc k page).*2) store1)
      as [store2 ->].
    exists store2.
    rewrite (imap_ext ((fun i => page_units L doc (k + i)) ∘ S)
               (fun i => page_units L doc (S k + i)))
      by (intros; simpl; f_equal; lia).
    by rewrite !fmap_app, !app_assoc.
Qed.

Lemma run_pages_unreadable (doc : PdfDocument) (total_pages : nat)
    (pages : list Page) (k : nat) (st : PDFProcessor.image_state) :
  ~ Forall readable pages ->
  exists e,
    PDFProcessor.run_pages L doc progress_callback total_pages st
      (imap (fun i page => (k + i, page)) pages)
    = inl e.
Proof.
  revert k st.
  induction pages as [|page pages IH]; intros k st Hbad.
  - exfalso. apply Hbad. constructor.
  - rewrite !imap_cons. cbn [PDFProcessor.run_pages]. rewrite Nat.add_0_r.
    destruct (PDFProcessor.report_progress progress_callback k total_pages)
      as [e | []] eqn:Hcb.
    { exists e.
      by rewrite (page_step_callback_raises doc total_pages _ k page e Hcb). }
    destruct (is_ok (get_text page) && is_ok (get_images page)) eqn:Hr.
    + apply andb_true_iff in Hr. destruct st as [[docs embeddings] store].
      destruct (page_step_units doc total_pages docs embeddings store k page Hcb Hr)
        as [store1 ->].
      cbn [mbind result_bind].
      rewrite (imap_ext _ (fun i page => (S k + i, page)))
        by (intros; simpl; f_equal; lia).
      apply IH. intros Hall. apply Hbad. by constructor.
    + destruct (page_step_unreadable doc total_pages st k page) as [e ->];
        [|by exists e].
      intros [H1 H2]. rewrite H1, H2 in Hr. discriminate.
Qed.

(** C6: a chunk or an image whose embedding (or, for an image, decoding or
    re-encoding) fails is left out and nothing else is: when the document
    opens, its pages can be read and the progress callback returns, the
    output is the successful units of every page, in order.  A failure to
    open the document, or to read one of its pages, is raised to the
    caller. *)
Theorem unit_failures_dropped_document_failures_raised (src : pdf_source) :
  match pymupdf_open L src with
  | inl e => PDFProcessor.process_pdf L src progress_callback = inl e
  | inr doc =>
      (never_raises progress_callback ->
       Forall readable (pdf_pages doc) ->
       exists store,
         PDFProcessor.process_pdf L src progress_callback
         = inr ((document_units L doc).*1, (document_units L doc).*2, store))
      /\ (~ Forall readable (pdf_pages doc) ->
          exists e, PDFProcessor.process_pdf L src progress_callback = inl e)
  end.
Proof.
  unfold PDFProcessor.process_pdf.
  destruct (pymupdf_open L src) as [e | doc]; [reflexivity |].
  cbn [mbind result_bind]. unfold enumerate, document_units. split.
  - intros Hcb Hall.
    destruct (run_pages_readable doc (length (pdf_pages doc)) (pdf_pages doc)
                0 [] [] ∅ Hcb Hall)
      as [store Hrun].
    exists store. exact Hrun.
  - intros Hbad.
    exact (run_pages_unreadable doc _ (pdf_pages doc) 0 _ Hbad).
Qed.

(** *** The shape of the output *)

Lemma text_unit_Some (chunk d : Document) (e : Vec) :
  text_unit L chunk = Some (d, e) ->
  d = chunk /\ embed_text (embedding_generator L) (PStr (page_content chunk)) = inr e.
Proof.
  unfold text_unit.
  destruct (embed_text _ _) as [|v]; cbn [ok mbind option_bind]; [done |].
  by intros [= <- <-].
Qed.

Lemma image_unit_Some (doc : PdfDocument) (p : nat) (entry : nat * nat)
    (d : Document) (e : Vec) :
  image_unit L doc p entry = Some (d, e) ->
  d = image_document p entry.1 /\
  exists pil_image, embed_image (embedding_generator L) (PImage pil_image) = inr e.
Proof.
  unfold image_unit.
  destruct (prepared_image L doc entry.2) as [pil_image|];
    cbn [mbind option_bind]; [|done].
  destruct (Image_save L pil_image _); cbn [ok mbind option_bind]; [done |].
  destruct (embed_image _ _) as [|v] eqn:E; cbn [ok mbind option_bind]; [done |].
  intros [= <- <-]. split; [done |]. by exists pil_image.
Qed.

Lemma page_chunks_meta (page : Page) (p : nat) (chunk : Document) :
  chunk ∈ page_chunks L page p -> on_page chunk (Z.of_nat p) /\ is_text chunk.
Proof.
  unfold page_chunks.
  destruct (get_text page) as [|text]; [by intros ?%elem_of_nil |].
  destruct (strip_nonempty text); [|by intros ?%elem_of_nil].
  intros (c & -> & _)%list_elem_of_fmap.
  unfold on_page, is_text. cbn [metadata]. split.
  - apply lookup_insert_eq.
  - rewrite lookup_insert_ne by done. apply lookup_insert_eq.
Qed.

Lemma image_document_meta (p i : nat) :
  on_page (image_document p i) (Z.of_nat p) /\ is_image (image_document p i).
Proof.
  unfold on_page, is_image, image_document. cbn [metadata]. split.
  - apply lookup_insert_eq.
  - rewrite lookup_insert_ne by done. apply lookup_insert_eq.
Qed.

Lemma page_text_units_meta (page : Page) (p : nat) (d : Document) (e : Vec) :
  (d, e) ∈ omap (text_unit L) (page_chunks L page p) ->
  on_page d (Z.of_nat p) /\ is_text d /\ embedded_by (embedding_generator L) d e.
Proof.
  intros (c & Hc & Hu)%list_elem_of_omap.
  apply text_unit_Some in Hu as [-> He].
  apply page_chunks_meta in Hc as [Hp Ht].
  split; [done |]. split; [done |]. by left.
Qed.

Lemma page_image_units_meta (doc : PdfDocument) (page : Page) (p : nat)
    (d : Document) (e : Vec) :
  (d, e) ∈ omap (image_unit L doc p) (enumerate (page_images page)) ->
  on_page d (Z.of_nat p) /\ is_image d /\ embedded_by (embedding_generator L) d e.
Proof.
  intros (c & Hc & Hu)%list_elem_of_omap.
  apply image_unit_Some in Hu as [-> He].
  destruct (image_document_meta p c.1) as [Hp Hi].
  split; [done |]. split; [done |]. by right.
Qed.

Lemma page_units_meta (doc : PdfDocument) (page : Page) (p : nat)
    (d : Document) (e : Vec) :
  (d, e) ∈ page_units L doc p page ->
  on_page d (Z.of_nat p) /\ (is_text d \/ is_image d) /\
  embedded_by (embedding_generator L) d e.
Proof.
  unfold page_units. intros [H | H]%elem_of_app.
  - apply page_text_units_meta in H as (? & ? & ?). auto.
  - apply page_image_units_meta in H as (? & ? & ?). auto.
Qed.

Lemma StronglySorted_all {A} (R : relation A) (l : list A) :
  (forall x y, x ∈ l -> y ∈ l -> R x y) -> StronglySorted R l.
Proof.
  induction l as [|x l IH]; intros H; constructor.
  - apply IH. intros y z Hy Hz. apply H; by right.
  - apply Forall_forall. intros y Hy. apply H; [by left | by right].
Qed.

Lemma fst_elem {A B} (x : A) (l : list (A * B)) :
  x ∈ l.*1 -> exists y, (x, y) ∈ l.
Proof. intros ([a b] & -> & H)%list_elem_of_fmap. by exists b. Qed.

Lemma page_units_sorted (doc : PdfDocument) (page : Page) (p : nat) :
  StronglySorted ingestion_order (page_units L doc p page).*1.
Proof.
  unfold page_units. rewrite fmap_app. apply StronglySorted_app_2.
  - intros a b [ea Ha]%fst_elem [eb Hb]%fst_elem.
    apply page_text_units_meta in Ha as (Pa & Ta & _).
    apply page_image_units_meta in Hb as (Pb & Ib & _).
    exists (Z.of_nat p), (Z.of_nat p). repeat split; auto.
  - apply StronglySorted_all. intros a b [ea Ha]%fst_elem [eb Hb]%fst_elem.
    apply page_text_units_meta in Ha as (Pa & Ta & _).
    apply page_text_units_meta in Hb as (Pb & Tb & _).
    exists (Z.of_nat p), (Z.of_nat p). repeat split; auto.
  - apply StronglySorted_all. intros a b [ea Ha]%fst_elem [eb Hb]%fst_elem.
    apply page_image_units_meta in Ha as (Pa & Ia & _).
    apply page_image_units_meta in Hb as (Pb & Ib & _).
    exists (Z.of_nat p), (Z.of_nat p). repeat split; auto.
Qed.

Lemma later_pages_meta (doc : PdfDocument) (pages : list Page) (k : nat)
    (d : Document) (e : Vec) :
  (d, e) ∈ mjoin (imap (fun i => page_units L doc (k + i)) pages) ->
  exists p, k <= p /\ on_page d (Z.of_nat p) /\ (is_text d \/ is_image d) /\
            embedded_by (embedding_generator L) d e.
Proof.
  intros (units & Hd & Hunits)%list_elem_of_join.
  apply elem_of_lookup_imap in Hunits as (i & page & -> & _).
  apply page_units_meta in Hd as (? & ? & ?).
  exists (k + i). split; [lia | done].
Qed.

Lemma pages_sorted (doc : PdfDocument) (pages : list Page) (k : nat) :
  StronglySorted ingestion_order
    (mjoin (imap (fun i => page_units L doc (k + i)) pages)).*1.
Proof.
  revert k. induction pages as [|page pages IH]; intros k; [constructor |].
  rewrite imap_cons. cbn [mjoin list_join]. rewrite Nat.add_0_r, fmap_app.
  rewrite (imap_ext ((fun i => page_units L doc (k + i)) ∘ S)
             (fun i => page_units L doc (S k + i)))
    by (intros; simpl; f_equal; lia).
  apply StronglySorted_app_2; [|apply page_units_sorted | apply IH].
  intros a b [ea Ha]%fst_elem [eb Hb]%fst_elem.
  apply page_units_meta in Ha as (Pa & Ka & _).
  apply later_pages_meta in Hb as (p & Hp & Pb & Kb & _).
  exists (Z.of_nat k), (Z.of_nat p). repeat split; auto. left. lia.
Qed.

(** C4: what [process_pdf] returns is two lists of one length, the
    embedding at each position being the provider's embedding of the
    document there; the documents are in increasing page order and, on a
    page, no image comes before a text chunk. *)
Theorem process_pdf_output_order (src : pdf_source) (docs : list Document)
    (embeddings : list Vec) (store : gmap string string) :
  PDFProcessor.process_pdf L src progress_callback
  = inr (docs, embeddings, store) ->
  length docs = length embeddings /\
  Forall2 (embedded_by (embedding_generator L)) docs embeddings /\
  StronglySorted ingestion_order docs.
Proof.
  unfold PDFProcessor.process_pdf.
  destruct (pymupdf_open L src) as [e | doc]; [discriminate |].
  cbn [mbind result_bind]. unfold enumerate.
  intros (_ & -> & ->)%(run_pages_inr doc _ (pdf_pages doc) 0).
  rewrite !app_nil_l.
  set (units := mjoin (imap (fun i => page_units L doc (0 + i)) (pdf_pages doc))).
  split; [by rewrite !length_fmap |]. split.
  - apply Forall2_fmap, Forall_Forall2_diag, Forall_forall.
    intros [d e] (p & _ & _ & _ & He)%later_pages_meta. exact He.
  - apply pages_sorted.
Qed.

End Ingestion.

(** ** Image identifiers *)

Lemma pretty_N_go_underscore_free (x : N) (s : string) :
  underscore_free s = true -> underscore_free (pretty_N_go x s) = true.
Proof.
  revert s. induction (N.lt_wf_0 x) as [x _ IH]; intros s Hs.
  assert (x = 0 \/ 0 < x)%N as [-> | Hpos] by lia.
  - by rewrite pretty_N_go_0.
  - rewrite pretty_N_go_step by done. apply IH.
    { by apply N.div_lt. }
    cbn [underscore_free]. rewrite Hs, andb_true_r.
    unfold pretty_N_char. by repeat case_match.
Qed.

Lemma str_nat_underscore_free (n : nat) : underscore_free (str_nat n) = true.
Proof.
  unfold str_nat, pretty, pretty_nat, pretty, pretty_N.
  case_decide; [done |]. by apply pretty_N_go_underscore_free.
Qed.

Lemma split_at_underscore (a a' r r' : string) :
  underscore_free a = true -> underscore_free a' = true ->
  a +:+ String "_" r = a' +:+ String "_" r' -> a = a' /\ r = r'.
Proof.
  revert a'. induction a as [|c a IH]; intros [|c' a'] Ha Ha'; cbn in *.
  - by intros [= ->].
  - intros [= <- _]. done.
  - intros [= -> _]. done.
  - apply andb_true_iff in Ha as [_ Ha]. apply andb_true_iff in Ha' as [_ Ha'].
    intros [= -> Heq]. destruct (IH a' Ha Ha' Heq) as [-> ->]. done.
Qed.

Lemma image_id_of_inj (p i p' i' : nat) :
  PDFProcessor.image_id_of p i = PDFProcessor.image_id_of p' i' ->
  p = p' /\ i = i'.
Proof.
  unfold PDFProcessor.image_id_of. cbn [String.append].
  intros [= Heq].
  apply split_at_underscore in Heq as [Hp [= Hi]];
    try apply str_nat_underscore_free.
  split; by apply (inj pretty).
Qed.

(** ** The image store *)

Section Store.
Context (L : Libraries) (progress_callback : option (Q -> result unit)).

Import IngestionSpec.

Lemma image_step_store (doc : PdfDocument) (page_num : nat)
    (st : PDFProcessor.image_state) (entry : nat * nat) :
  (PDFProcessor.image_step L doc page_num st entry).2
  = list_to_map (option_list (stored_image L doc page_num entry)) ∪ st.2.
Proof.
  destruct st as [[docs embeddings] store]. destruct entry as [img_index xref].
  unfold PDFProcessor.image_step, stored_image, prepared_image. cbn [fst snd].
  destruct (extract_image doc xref) as [e | image_bytes]; simpl;
    [by rewrite (left_id ∅ (∪)) |].
  destruct (Image_open L image_bytes) as [e | pil_image]; simpl;
    [by rewrite (left_id ∅ (∪)) |].
  destruct (_ || _); [destruct (thumbnail L pil_image _) as [e | small] |];
    simpl; [by rewrite (left_id ∅ (∪)) | |].
  - destruct (Image_save L small _) as [e | buffered]; simpl;
      [by rewrite (left_id ∅ (∪)) |].
    destruct (embed_image _ _) as [e | embedding]; simpl;
      by rewrite <- insert_union_l, (left_id ∅ (∪)).
  - destruct (Image_save L pil_image _) as [e | buffered]; simpl;
      [by rewrite (left_id ∅ (∪)) |].
    destruct (embed_image _ _) as [e | embedding]; simpl;
      by rewrite <- insert_union_l, (left_id ∅ (∪)).
Qed.

Lemma foldl_image_step_store (doc : PdfDocument) (page_num : nat)
    (entries : list (nat * nat)) (st : PDFProcessor.image_state) :
  (foldl (PDFProcessor.image_step L doc page_num) st entries).2
  = list_to_map (reverse (omap (stored_image L doc page_num) entries)) ∪ st.2.
Proof.
  revert st. induction entries as [|entry entries IH]; intros st.
  - cbn. by rewrite (left_id ∅ (∪)).
  - cbn [foldl]. rewrite IH, image_step_store, omap_cons_option_list.
    rewrite reverse_app, list_to_map_app, (assoc_L (∪)). f_equal. f_equal.
    by destruct (stored_image L doc page_num entry).
Qed.

Lemma page_step_store (doc : PdfDocument) (total_pages : nat)
    (st st' : PDFProcessor.image_state) (page_num : nat) (page : Page) :
  PDFProcessor.page_step L doc progress_callback total_pages st (page_num, page)
  = inr st' ->
  st'.2 = list_to_map (reverse (page_stored L doc page_num page)) ∪ st.2.
Proof.
  destruct st as [[docs embeddings] store].
  unfold PDFProcessor.page_step.
  destruct (PDFProcessor.report_progress _ _ _) as [e | []]; [discriminate |].
  cbn [mbind result_bind].
  destruct (PDFProcessor._process_page_text L page page_num)
    as [e | [text_docs text_embeddings]]; [discriminate |].
  cbn [mbind result_bind].
  unfold PDFProcessor._process_page_images, page_stored, page_images.
  destruct (get_images page) as [e | images]; [discriminate |].
  cbn [mbind result_bind mret result_ret].
  pose proof (foldl_image_step_store doc page_num (enumerate images) ([], [], ∅))
    as Hstore.
  destruct (foldl _ _ _) as [[image_docs image_embeddings] page_image_store].
  cbn [snd] in Hstore. intros [= <-]. cbn [snd].
  by rewrite Hstore, (right_id ∅ (∪)).
Qed.

Lemma run_pages_store (doc : PdfDocument) (total_pages : nat)
    (pages : list Page) (k : nat) (st st' : PDFProcessor.image_state) :
  PDFProcessor.run_pages L doc progress_callback total_pages st
    (imap (fun i page => (k + i, page)) pages)
  = inr st' ->
  st'.2
  = list_to_map
      (reverse (mjoin (imap (fun i => page_stored L doc (k + i)) pages)))
    ∪ st.2.
Proof.
  revert k st. induction pages as [|page pages IH]; intros k st.
  - cbn. intros [= <-]. by rewrite (left_id ∅ (∪)).
  - rewrite !imap_cons. cbn [PDFProcessor.run_pages mjoin list_join].
    rewrite Nat.add_0_r.
    destruct (PDFProcessor.page_step L doc progress_callback total_pages st
                (k, page)) as [e | st1] eqn:Hstep; [discriminate |].
    cbn [mbind result_bind].
    rewrite (imap_ext _ (fun i page => (S k + i, page)))
      by (intros; simpl; f_equal; lia).
    intros Hrun%IH. apply page_step_store in Hstep.
    rewrite Hrun, Hstep.
    rewrite (imap_ext ((fun i => page_stored L doc (k + i)) ∘ S)
               (fun i => page_stored L doc (S k + i)))
      by (intros; simpl; f_equal; lia).
    by rewrite reverse_app, list_to_map_app, (assoc_L (∪)).
Qed.

(** The store that [process_pdf] returns holds the images that were
    decoded and re-encoded. *)
Lemma process_pdf_store (src : pdf_source) (doc : PdfDocument)
    (docs : list Document) (embeddings : list Vec)
    (store : gmap string string) :
  pymupdf_open L src = inr doc ->
  PDFProcessor.process_pdf L src progress_callback
  = inr (docs, embeddings, store) ->
  store = list_to_map (reverse (document_stored L doc)).
Proof.
  intros Hopen. unfold PDFProcessor.process_pdf. rewrite Hopen.
  cbn [mbind result_bind]. unfold enumerate.
  intros Hrun%(run_pages_store doc _ (pdf_pages doc) 0).
  cbn [snd] in Hrun. rewrite Hrun. by rewrite (right_id ∅ (∪)).
Qed.

Lemma document_stored_elem (doc : PdfDocument) (id payload : string) :
  (id, payload) ∈ document_stored L doc <->
  exists p page i xref,
    pdf_pages doc !! p = Some page /\ page_images page !! i = Some xref /\
    stored_image L doc p (i, xref) = Some (id, payload).
Proof.
  unfold document_stored, page_stored, enumerate. split.
  - intros (entries & Hin & Hentries)%list_elem_of_join.
    apply elem_of_lookup_imap in Hentries as (p & page & -> & Hpage).
    apply list_elem_of_omap in Hin as ([i xref] & Hentry & Hstored).
    apply elem_of_lookup_imap in Hentry as (i' & xref' & [= -> ->] & Hxref).
    by exists p, page, i', xref'.
  - intros (p & page & i & xref & Hpage & Hxref & Hstored).
    apply list_elem_of_join.
    exists (omap (stored_image L doc p)
              (imap (fun i x => (i, x)) (page_images page))).
    split.
    + apply list_elem_of_omap. exists (i, xref). split; [|done].
      by apply (elem_of_lookup_imap_2 (fun i x => (i, x))).
    + by apply (elem_of_lookup_imap_2
                  (fun p page => omap (stored_image L doc p)
                                   (imap (fun i x => (i, x)) (page_images page)))).
Qed.

Lemma stored_image_id (doc : PdfDocument) (p : nat) (entry : nat * nat)
    (id payload : string) :
  stored_image L doc p entry = Some (id, payload) ->
  id = PDFProcessor.image_id_of p entry.1.
Proof.
  unfold stored_image.
  destruct (prepared_image L doc entry.2); cbn [mbind option_bind]; [|done].
  destruct (Image_save L _ _); cbn [ok mbind option_bind]; [done |].
  by intros [= <- _].
Qed.

(** An identifier has one payload. *)
Lemma document_stored_functional (doc : PdfDocument) (id v v' : string) :
  (id, v) ∈ document_stored L doc -> (id, v') ∈ document_stored L doc -> v = v'.
Proof.
  intros (p & page & i & xref & Hpage & Hxref & Hs)%document_stored_elem
         (p' & page' & i' & xref' & Hpage' & Hxref' & Hs')%document_stored_elem.
  pose proof (stored_image_id _ _ _ _ _ Hs) as Hid.
  pose proof (stored_image_id _ _ _ _ _ Hs') as Hid'.
  cbn [fst] in Hid, Hid'. rewrite Hid in Hid'.
  apply image_id_of_inj in Hid' as [-> ->].
  simplify_eq. done.
Qed.

Lemma process_pdf_store_lookup (src : pdf_source) (doc : PdfDocument)
    (docs : list Document) (embeddings : list Vec)
    (store : gmap string string) (id payload : string) :
  pymupdf_open L src = inr doc ->
  PDFProcessor.process_pdf L src progress_callback
  = inr (docs, embeddings, store) ->
  store !! id = Some payload <-> (id, payload) ∈ document_stored L doc.
Proof.
  intros Hopen Hrun. rewrite (process_pdf_store src doc _ _ _ Hopen Hrun).
  rewrite <- elem_of_list_to_map'.
  - apply elem_of_reverse.
  - intros v' H1 H2. rewrite elem_of_reverse in H1, H2.
    exact (document_stored_functional _ _ _ _ H1 H2).
Qed.

Lemma document_units_elem (doc : PdfDocument) (d : Document) (e : Vec) :
  (d, e) ∈ document_units L doc ->
  exists p page,
    pdf_pages doc !! p = Some page /\ (d, e) ∈ page_units L doc p page.
Proof.
  unfold document_units.
  intros (units & Hin & Hunits)%list_elem_of_join.
  apply elem_of_lookup_imap in Hunits as (p & page & -> & Hpage).
  by exists p, page.
Qed.

Lemma image_unit_stored (doc : PdfDocument) (p : nat) (entry : nat * nat)
    (d : Document) (e : Vec) :
  image_unit L doc p entry = Some (d, e) ->
  d = image_document p entry.1 /\
  exists pil_image buffered,
    prepared_image L doc entry.2 = Some pil_image /\
    Image_save L pil_image settings.IMAGE_FORMAT = inr buffered /\
    embed_image (embedding_generator L) (PImage pil_image) = inr e /\
    stored_image L doc p entry
    = Some (PDFProcessor.image_id_of p entry.1, b64encode L buffered).
Proof.
  unfold image_unit, stored_image.
  destruct (prepared_image L doc entry.2) as [pil_image|] eqn:Hprep;
    cbn [mbind option_bind]; [|done].
  destruct (Image_save L pil_image _) as [|buffered] eqn:Hsave;
    cbn [ok mbind option_bind]; [done |].
  destruct (embed_image _ _) as [|v] eqn:E; cbn [ok mbind option_bind]; [done |].
  intros [= <- <-]. split; [done |]. exists pil_image, buffered.
  repeat split; done.
Qed.

(** A unit that carries an image identifier is an image unit, made from
    an image that was stored under that identifier. *)
Lemma unit_with_image_id (doc : PdfDocument) (d : Document) (e : Vec)
    (id : string) :
  (d, e) ∈ document_units L doc ->
  metadata d !! "image_id" = Some (VStr id) ->
  exists p page i xref,
    pdf_pages doc !! p = Some page /\ page_images page !! i = Some xref /\
    id = PDFProcessor.image_id_of p i /\
    image_unit L doc p (i, xref) = Some (d, e).
Proof.
  intros (p & page & Hpage & Hin)%document_units_elem Hid.
  unfold page_units in Hin. apply elem_of_app in Hin as [Hin | Hin].
  - apply list_elem_of_omap in Hin as (c & Hc & Hu).
    apply text_unit_Some in Hu as [-> _].
    unfold page_chunks in Hc.
    destruct (get_text page) as [|text]; [by apply elem_of_nil in Hc |].
    destruct (strip_nonempty text); [|by apply elem_of_nil in Hc].
    apply list_elem_of_fmap in Hc as (chunk & -> & _).
    cbn [metadata] in Hid.
    rewrite !lookup_insert_ne, lookup_empty in Hid by done. done.
  - apply list_elem_of_omap in Hin as ([i xref] & Hentry & Hu).
    apply elem_of_lookup_imap in Hentry as (i' & xref' & [= -> ->] & Hxref).
    pose proof (image_unit_stored _ _ _ _ _ Hu) as [-> _].
    cbn [fst image_document metadata] in Hid.
    rewrite !lookup_insert_ne, lookup_insert_eq in Hid by done.
    injection Hid as <-.
    by exists p, page, i', xref'.
Qed.

(** Every image unit of the output has its payload in the store. *)
Lemma image_units_are_stored (src : pdf_source) (doc : PdfDocument)
    (docs : list Document) (embeddings : list Vec)
    (store : gmap string string) (d : Document) (id : string) :
  pymupdf_open L src = inr doc ->
  PDFProcessor.process_pdf L src progress_callback
  = inr (docs, embeddings, store) ->
  d ∈ docs -> metadata d !! "image_id" = Some (VStr id) ->
  is_Some (store !! id).
Proof.
  intros Hopen Hrun Hd Hid.
  pose proof Hrun as Hunits. unfold PDFProcessor.process_pdf in Hunits.
  rewrite Hopen in Hunits. cbn [mbind result_bind] in Hunits.
  apply (run_pages_inr L progress_callback doc _ (pdf_pages doc) 0)
    in Hunits as (_ & -> & _).
  rewrite app_nil_l in Hd. apply fst_elem in Hd as [e Hd].
  destruct (unit_with_image_id doc d e id Hd Hid)
    as (p & page & i & xref & Hpage & Hxref & -> & Hu).
  apply image_unit_stored in Hu as (_ & pil & buffered & _ & _ & _ & Hs).
  exists (b64encode L buffered).
  apply (process_pdf_store_lookup src doc _ _ store _ _ Hopen Hrun).
  apply document_stored_elem. by exists p, page, i, xref.
Qed.

(** An image that is decoded and re-encoded but cannot be embedded stays
    in the store, and no unit of the output refers to it. *)
Lemma dropped_image_keeps_its_entry (src : pdf_source) (doc : PdfDocument)
    (docs : list Document) (embeddings : list Vec)
    (store : gmap string string) (p i xref : nat) (page : Page)
    (pil_image : PilImage) (buffered : bytes) (err : exn) :
  pymupdf_open L src = inr doc ->
  PDFProcessor.process_pdf L src progress_callback
  = inr (docs, embeddings, store) ->
  pdf_pages doc !! p = Some page ->
  page_images page !! i = Some xref ->
  prepared_image L doc xref = Some pil_image ->
  Image_save L pil_image settings.IMAGE_FORMAT = inr buffered ->
  embed_image (embedding_generator L) (PImage pil_image) = inl err ->
  store !! PDFProcessor.image_id_of p i = Some (b64encode L buffered) /\
  Forall (fun d => metadata d !! "image_id"
                   <> Some (VStr (PDFProcessor.image_id_of p i))) docs.
Proof.
  intros Hopen Hrun Hpage Hxref Hprep Hsave Hembed. split.
  - apply (process_pdf_store_lookup src doc _ _ store _ _ Hopen Hrun).
    apply document_stored_elem. exists p, page, i, xref.
    split; [done |]. split; [done |].
    unfold stored_image. cbn [snd fst]. rewrite Hprep. cbn [mbind option_bind].
    by rewrite Hsave.
  - pose proof Hrun as Hunits. unfold PDFProcessor.process_pdf in Hunits.
    rewrite Hopen in Hunits. cbn [mbind result_bind] in Hunits.
    apply (run_pages_inr L progress_callback doc _ (pdf_pages doc) 0)
    in Hunits as (_ & -> & _).
    rewrite app_nil_l. apply Forall_forall. intros d [e Hd]%fst_elem Hid.
    destruct (unit_with_image_id doc d e _ Hd Hid)
      as (p' & page' & i' & xref' & Hpage' & Hxref' & Heq & Hu).
    apply image_id_of_inj in Heq as [<- <-]. simplify_eq.
    apply image_unit_stored in Hu as (_ & pil & buf & Hprep' & _ & Hembed' & _).
    cbn [snd] in Hprep'. simplify_eq. congruence.
Qed.
End Store.

(** ** The prompt *)

Section Prompt.
Import ResponseGenerator.

Lemma filter_bool_cons {A} (f : A -> bool) (x : A) (l : list A) :
  filter (fun y => f y) (x :: l)
  = if f x then x :: filter (fun y => f y) l else filter (fun y => f y) l.
Proof.
  rewrite filter_cons. destruct (decide (f x)) as [H | H]; destruct (f x);
    simpl in *; done.
Qed.

Lemma image_urls_app (a b : list block) :
  image_urls (a ++ b) = image_urls a ++ image_urls b.
Proof. unfold image_urls. apply bind_app. Qed.

Lemma page_label_ok (doc : Document) :
  has_page doc -> exists label, page_label doc = inr label.
Proof. intros [p Hp]. unfold page_label. rewrite Hp. eauto. Qed.

Lemma text_line_ok (doc : Document) :
  has_page doc -> exists line, text_line doc = inr line.
Proof.
  intros [label Hl]%page_label_ok. unfold text_line. rewrite Hl. eauto.
Qed.

Lemma comprehension_text_line (docs : list Document) :
  Forall has_page docs ->
  exists lines, comprehension text_line docs = inr lines.
Proof.
  induction 1 as [|doc docs Hp _ [lines IH]]; [by exists [] |].
  destruct (text_line_ok doc Hp) as [line Hl].
  cbn [comprehension]. rewrite Hl.
  cbn [mbind result_bind mret result_ret]. rewrite IH. eauto.
Qed.

(** The text context adds no image block. *)
Lemma add_text_context_ok (title : string) (content : list block)
    (text_docs : list Document) :
  Forall has_page text_docs ->
  exists content',
    add_text_context title content text_docs = inr content' /\
    image_urls content' = image_urls content.
Proof.
  intros Hp. unfold add_text_context.
  destruct (py_not text_docs); [by exists content |].
  destruct (comprehension_text_line text_docs Hp) as [lines ->].
  cbn [mbind result_bind mret result_ret]. eexists. split; [done |].
  rewrite image_urls_app. cbn. by rewrite app_nil_r.
Qed.

Lemma usable_image_id_payload (store : gmap string string) (doc : Document) :
  has_type "image" doc = true ->
  included_payload store doc
  = image_id ← usable_image_id store doc; store !! image_id.
Proof.
  intros Hi. unfold included_payload, usable_image_id. rewrite Hi.
  destruct (metadata doc !! "image_id") as [[n | image_id]|]; try done.
  destruct (String.eqb image_id ""); cbn [negb andb]; [done |].
  destruct (store !! image_id) as [payload|] eqn:E.
  - rewrite bool_decide_eq_true_2 by eauto. cbn. done.
  - rewrite bool_decide_eq_false_2 by (by intros [? ?]). done.
Qed.

Lemma usable_image_id_in_store (store : gmap string string) (doc : Document)
    (image_id : string) :
  usable_image_id store doc = Some image_id -> is_Some (store !! image_id).
Proof.
  unfold usable_image_id.
  destruct (metadata doc !! "image_id") as [[n | s]|]; try done.
  destruct (negb _); cbn [andb]; [|done].
  destruct (bool_decide _) eqn:E; [|done].
  intros [= <-]. by apply bool_decide_eq_true_1 in E.
Qed.

(** The loop over the image documents adds one image block for every
    document that passes the test, and never raises on documents with a
    page number. *)
Lemma add_images_ok (header : string) (store : gmap string string)
    (content : list block) (image_docs : list Document) :
  Forall has_page image_docs ->
  Forall (fun doc => has_type "image" doc = true) image_docs ->
  exists content',
    add_images header store content image_docs = inr content' /\
    image_urls content' = image_urls content ++ included_images store image_docs.
Proof.
  intros Hp. revert content.
  induction Hp as [|doc docs Hdoc _ IH]; intros content Hi.
  - exists content. split; [done |]. unfold included_images. cbn.
    by rewrite app_nil_r.
  - apply Forall_cons in Hi as [Hi His].
    cbn [add_images]. unfold image_blocks_step.
    unfold included_images. rewrite omap_cons_option_list, fmap_app.
    rewrite (usable_image_id_payload store doc Hi).
    destruct (usable_image_id store doc) as [image_id|] eqn:Eid;
      cbn [mbind result_bind option_bind mret result_ret].
    + destruct (page_label_ok doc Hdoc) as [label ->].
      cbn [mbind result_bind mret result_ret].
      destruct (IH (content ++
                 [TextBlock (header +:+ label +:+ "]:" +:+ nl);
                  ImageUrlBlock (data_url (default "" (store !! image_id)))]) His)
        as (content' & -> & Hurls).
      exists content'. split; [done |]. rewrite Hurls, image_urls_app.
      destruct (usable_image_id_in_store _ _ _ Eid) as [payload ->].
      cbn. by rewrite <- app_assoc.
    + destruct (IH content His) as (content' & -> & Hurls).
      exists content'. split; [done |]. by rewrite Hurls.
Qed.

Lemma included_images_filter (store : gmap string string)
    (docs : list Document) :
  included_images store (filter (fun doc => has_type "image" doc) docs)
  = included_images store docs.
Proof.
  unfold included_images. f_equal.
  induction docs as [|doc docs IH]; [done |].
  rewrite filter_bool_cons, (omap_cons_option_list _ doc docs).
  destruct (has_type "image" doc) eqn:E.
  - by rewrite omap_cons_option_list, IH.
  - rewrite IH. unfold included_payload at 2. by rewrite E.
Qed.

Lemma Forall_filter_bool {A} (P : A -> Prop) (f : A -> bool) (l : list A) :
  Forall P l -> Forall P (filter (fun y => f y) l).
Proof.
  intros H. apply Forall_forall. intros x [_ Hx]%list_elem_of_filter.
  rewrite Forall_forall in H. by apply H.
Qed.

Lemma filter_bool_all {A} (f : A -> bool) (l : list A) :
  Forall (fun x => f x = true) (filter (fun y => f y) l).
Proof.
  apply Forall_forall. intros x [Hx _]%list_elem_of_filter.
  by apply Is_true_true.
Qed.

Lemma related_content_ok (content : list block)
    (retrieved_docs : list Document) (store : gmap string string) :
  Forall has_page retrieved_docs ->
  exists content',
    related_content content retrieved_docs store = inr content' /\
    image_urls content'
    = image_urls content ++ included_images store retrieved_docs.
Proof.
  intros Hp. unfold related_content.
  destruct (add_text_context_ok "Text content:"
              (content ++ [TextBlock (nl +:+ nl +:+ "Related content from PDF:" +:+ nl)])
              (filter (fun doc => has_type "text" doc) retrieved_docs))
    as (content1 & -> & Hurls1); [by apply Forall_filter_bool |].
  cbn [mbind result_bind].
  rewrite image_urls_app in Hurls1. cbn in Hurls1. rewrite app_nil_r in Hurls1.
  rewrite <- (included_images_filter store retrieved_docs).
  destruct (py_not _) eqn:Hempty.
  - exists content1. split; [done |].
    destruct (filter _ retrieved_docs); [|done].
    unfold included_images. cbn. by rewrite app_nil_r.
  - destruct (add_images_ok "[Image from page " store
                (content1 ++ [TextBlock (nl +:+ "Related images from PDF:" +:+ nl)])
                (filter (fun doc => has_type "image" doc) retrieved_docs))
      as (content2 & -> & Hurls2);
      [by apply Forall_filter_bool | apply filter_bool_all |].
    exists content2. split; [done |].
    rewrite Hurls2, image_urls_app, Hurls1. cbn. by rewrite app_nil_r.
Qed.

(** A prompt built from units that carry a page number is always
    produced, and its image blocks (after the query image, for an image
    query) are, in retrieval order, the payloads of the retrieved image
    units whose identifier is a non-empty key of the store. *)
Lemma prompt_images_are_the_usable_images (L : Libraries) (query : string)
    (input_image : PilImage) (retrieved_docs : list Document)
    (image_data_store : gmap string string) :
  Forall has_page retrieved_docs ->
  (exists content,
     create_text_query_message query retrieved_docs image_data_store
     = inr content /\
     image_urls content = included_images image_data_store retrieved_docs) /\
  (forall input_img_base64,
     encode_input_image L input_image = inr input_img_base64 ->
     exists content,
       create_image_query_message L input_image retrieved_docs image_data_store
       = inr content /\
       image_urls content
       = data_url input_img_base64
         :: included_images image_data_store retrieved_docs).
Proof.
  intros Hp. split.
  - unfold create_text_query_message.
    destruct (add_text_context_ok "Text excerpts:"
                [TextBlock ("Question: " +:+ query +:+ nl +:+ nl +:+ "Context:" +:+ nl)]
                (filter (fun doc => has_type "text" doc) retrieved_docs))
      as (content1 & -> & Hurls1); [by apply Forall_filter_bool |].
    cbn [mbind result_bind].
    destruct (add_images_ok (nl +:+ "[Image from page ") image_data_store content1
                (filter (fun doc => has_type "image" doc) retrieved_docs))
      as (content2 & -> & Hurls2);
      [by apply Forall_filter_bool | apply filter_bool_all |].
    cbn [mbind result_bind mret result_ret].
    eexists. split; [done |].
    rewrite image_urls_app, Hurls2, Hurls1, included_images_filter.
    cbn. by rewrite app_nil_r.
  - intros b64 Hb64. unfold create_image_query_message. rewrite Hb64.
    cbn [mbind result_bind].
    destruct (related_content_ok
                [TextBlock ("I have provided you with an input image and relevant content from a PDF document. Please analyze the input image and provide information based on the related content found in the PDF." +:+ nl +:+ nl +:+ "Input Image:");
                 ImageUrlBlock (data_url b64)]
                retrieved_docs image_data_store Hp)
      as (content1 & -> & Hurls1).
    cbn [mbind result_bind mret result_ret].
    eexists. split; [done |].
    rewrite image_urls_app, Hurls1. cbn. by rewrite app_nil_r.
Qed.

Lemma content_unit_payload (store : gmap string string) (doc : Document) :
  content_unit doc -> included_payload store doc = stored_payload store doc.
Proof.
  intros [_ Hid]. unfold included_payload, stored_payload.
  destruct (has_type "image" doc) eqn:Hi; [|done].
  apply bool_decide_eq_true_1 in Hi.
  destruct (Hid Hi) as (image_id & -> & Hne).
  by destruct (String.eqb_spec image_id "").
Qed.

Lemma content_units_images (store : gmap string string) (docs : list Document) :
  Forall content_unit docs -> included_images store docs = stored_images store docs.
Proof.
  intros Hall. unfold included_images, stored_images. f_equal.
  induction Hall as [|doc docs Hdoc _ IH]; [done |].
  by rewrite !omap_cons_option_list, IH, (content_unit_payload store doc Hdoc).
Qed.

(** C9: for retrieved content units and any image store, the prompt is
    produced, and its image blocks (after the query image, for an image
    query) are, in retrieval order, those of exactly the image units whose
    identifier is a key of the store; an image unit whose identifier is
    missing from the store is left out.  The response is what the model
    answers to that prompt, so a missing image makes neither the prompt
    nor the response fail. *)
Theorem prompt_images_are_the_stored_images (L : Libraries)
    (llm : list block -> result string) (query : string)
    (input_image : PilImage) (retrieved_docs : list Document)
    (image_data_store : gmap string string) :
  Forall content_unit retrieved_docs ->
  (exists content,
     create_text_query_message query retrieved_docs image_data_store
     = inr content /\
     image_urls content = stored_images image_data_store retrieved_docs /\
     process_text_query llm query retrieved_docs image_data_store
     = llm content) /\
  (forall input_img_base64,
     encode_input_image L input_image = inr input_img_base64 ->
     exists content,
       create_image_query_message L input_image retrieved_docs image_data_store
       = inr content /\
       image_urls content
       = data_url input_img_base64
         :: stored_images image_data_store retrieved_docs /\
       process_image_query L llm input_image retrieved_docs image_data_store
       = llm content).
Proof.
  intros Hunits.
  assert (Forall has_page retrieved_docs) as Hp
    by (eapply Forall_impl; [exact Hunits | by intros doc [? _]]).
  rewrite <- (content_units_images image_data_store retrieved_docs Hunits).
  destruct (prompt_images_are_the_usable_images L query input_image
              retrieved_docs image_data_store Hp) as [Htext Himage].
  split.
  - destruct Htext as (content & Hmsg & Hurls). exists content.
    split; [done |]. split; [done |].
    unfold process_text_query. by rewrite Hmsg.
  - intros b64 Hb64. destruct (Himage b64 Hb64) as (content & Hmsg & Hurls).
    exists content. split; [done |]. split; [done |].
    unfold process_image_query. by rewrite Hmsg.
Qed.

End Prompt.

(** ** The statements at the sample data *)

(** The sample index has a tie: all four units come back for [k = 10]. *)
Lemma search_large_k_sample :
  exists (perm : list nat) (results : list Document),
    (VectorStoreManager.search_by_vector Sample.query (Some 10%Z) Sample.world).1
    = inr results /\
    perm ≡ₚ seq 0 (length Sample.docs) /\
    Forall2 (fun i doc => Sample.docs !! i = Some doc) perm results /\
    StronglySorted (ranked_before Sample.query Sample.embeddings) perm.
Proof.
  apply (search_large_k_returns_all_ranked Sample.docs Sample.embeddings
           (initial_world ∅) Sample.world Sample.world Sample.index
           Sample.query 10).
  - vm_compute. reflexivity.
  - reflexivity.
  - unfold Sample.embeddings.
    repeat (constructor; [vm_compute; reflexivity |]). constructor.
  - reflexivity.
  - vm_compute. discriminate.
Defined.

(** Building from no embeddings over the sample index. *)
Lemma create_vector_store_fails_iff_sample :
  (exists msg,
     (VectorStoreManager.create_vector_store Sample.docs [] Sample.world).1
     = inl (ValueError msg)) /\
  (VectorStoreManager.create_vector_store Sample.docs [] Sample.world).2
  = Sample.world /\
  (Sample.docs = [] \/ @nil Vec = [] \/ length Sample.docs <> length (@nil Vec)).
Proof.
  destruct (create_vector_store_fails_iff Sample.docs [] Sample.world)
    as (Hif & Honly_if & Hatomic).
  destruct (Hif (or_intror (or_introl eq_refl))) as [msg Hmsg].
  split; [by exists msg |]. split; [exact (Hatomic _ Hmsg) |].
  apply Honly_if; [exists 2; constructor | by exists msg].
Defined.

(** A fresh process after one failed build. *)
Lemma search_and_save_before_build_fail_sample :
  VectorStoreManager.search_by_vector Sample.query (Some 3%Z) (initial_world Sample.files)
    = (inl (ValueError "Vector store not initialized"), initial_world Sample.files) /\
  VectorStoreManager.save_vector_store "saved" (initial_world Sample.files)
    = (inl (ValueError "Vector store not initialized"), initial_world Sample.files).
Proof.
  apply (search_and_save_before_build_fail (initial_world Sample.files)
           Sample.query (Some 3%Z) "saved").
  apply (unbuilt_build (initial_world Sample.files) Sample.docs []
           (ValueError "Documents and embeddings cannot be empty")).
  - apply unbuilt_start.
  - reflexivity.
Defined.

(** The sample report yields two chunks and two images. *)
Lemma process_pdf_output_order_sample :
  exists docs embeddings store,
    PDFProcessor.process_pdf Sample.libraries (PdfPath "report.pdf")
      Sample.callback
    = inr (docs, embeddings, store) /\
    length docs = 4 /\
    length docs = length embeddings /\
    Forall2 (embedded_by Sample.provider) docs embeddings /\
    StronglySorted ingestion_order docs.
Proof.
  eexists _, _, _. split; [vm_compute; reflexivity |]. split; [reflexivity |].
  eapply (process_pdf_output_order Sample.libraries Sample.callback
            (PdfPath "report.pdf")).
  vm_compute. reflexivity.
Defined.

(** The sample report loses one chunk and two images; a missing file is
    an error of the whole call. *)
Lemma unit_failures_dropped_sample :
  (exists store,
     PDFProcessor.process_pdf Sample.libraries (PdfPath "report.pdf")
      Sample.callback
     = inr ((IngestionSpec.document_units Sample.libraries Sample.report).*1,
            (IngestionSpec.document_units Sample.libraries Sample.report).*2,
            store)) /\
  length (IngestionSpec.document_units Sample.libraries Sample.report) = 4 /\
  PDFProcessor.process_pdf Sample.libraries (PdfPath "missing.pdf")
    Sample.callback
  = inl (RuntimeError "cannot open file").
Proof.
  split; [|split; [reflexivity |]].
  - apply (unit_failures_dropped_document_failures_raised Sample.libraries
             Sample.callback (PdfPath "report.pdf")).
    + intros callback x [= <-]. reflexivity.
    + cbn [pdf_pages Sample.report].
      repeat (constructor; [split; reflexivity |]). constructor.
  - exact (unit_failures_dropped_document_failures_raised Sample.libraries
             Sample.callback (PdfPath "missing.pdf")).
Defined.

(** C5 at a document whose only image is decoded and stored but cannot be
    embedded: no unit comes out, yet the store has an entry. *)
Theorem image_store_keeps_entry_of_dropped_image :
  PDFProcessor.process_pdf Sample.libraries (PdfPath "lone_image.pdf") None
  = inr ([], [], {["page_0_img_0" := b64encode Sample.libraries [Byte.x00]]}).
Proof. vm_compute. reflexivity. Qed.

(** An unsupported query type on the sample index. *)
Lemma retrieve_multimodal_unsupported_type_sample :
  MultimodalRetriever.retrieve_multimodal Sample.provider (PStr "diagram")
    "audio" (Some 3%Z) Sample.world
  = (inl (ValueError "Unsupported query type: audio"), Sample.world).
Proof.
  apply (retrieve_multimodal_unsupported_type Sample.provider (PStr "diagram")
           "audio" (Some 3%Z) Sample.world); discriminate.
Defined.

Lemma sample_provider_dim : provider_dim Sample.provider 2.
Proof.
  intros x v. destruct x as [s | im]; cbn [Sample.provider embed_text embed_image].
  - destruct (String.eqb s "unembeddable"); intros [[=] | [=]]; by subst.
  - destruct (im_data im) as [|b [|? ?]]; [| destruct (Byte.eqb b _) |];
      intros [[=] | [=]]; by subst.
Qed.


(** The units of the sample report with a store that holds the first of
    their two images: the second image is left out. *)
Lemma prompt_images_are_the_stored_images_sample :
  (exists content,
     ResponseGenerator.create_text_query_message "what?" Fixture.report_docs
       Sample.image_store = inr content /\
     ResponseGenerator.image_urls content
     = stored_images Sample.image_store Fixture.report_docs /\
     ResponseGenerator.process_text_query
       (fun message => inr (str_nat (length message))) "what?"
       Fixture.report_docs Sample.image_store
     = inr (str_nat (length content))) /\
  stored_images Sample.image_store Fixture.report_docs
  = [ResponseGenerator.data_url "QUJD"].
Proof.
  split; [|reflexivity].
  apply (prompt_images_are_the_stored_images Sample.libraries
           (fun message => inr (str_nat (length message))) "what?"
           (mkPilImage (1, 1) [Byte.x61]) Fixture.report_docs
           Sample.image_store).
  unfold Fixture.report_docs.
  repeat (constructor;
          [split; [eexists; reflexivity
                  |first [intros H; vm_compute in H; discriminate H
                         |intros _; eexists; split; [reflexivity | discriminate]]] |]).
  constructor.
Defined.

(** [k = 0] on six units: five come back. *)
Lemma zero_k_sample :
  (exists results,
     (VectorStoreManager.search_by_vector Sample.query (Some 0%Z) Sample.world6).1
     = inr results /\
     length results = 5 `min` length Sample.docs6) /\
  (exists results,
     (MultimodalRetriever.get_similar_documents Sample.query (Some 0%Z)
        Sample.world6).1 = inr results /\
     length results = 5 `min` length Sample.docs6) /\
  (exists results,
     (MultimodalRetriever.retrieve_by_image Sample.provider
        (PImage (mkPilImage (1, 1) [Byte.x61])) (Some 0%Z) Sample.world6).1
     = inr results /\
     length results = 5 `min` length Sample.docs6).
Proof.
  destruct (proj2 (zero_k_means_default_k Sample.provider Sample.docs6
                     Sample.embeddings6 (initial_world ∅) Sample.world6
                     Sample.world6 Sample.index6 Sample.query
                     (PImage (mkPilImage (1, 1) [Byte.x61])) "image"))
    as (Hsearch & Hsimilar & _ & Himage).
  - vm_compute. reflexivity.
  - reflexivity.
  - reflexivity.
  - split; [exact Hsearch |]. split; [exact Hsimilar |].
    apply Himage. reflexivity.
Defined.


(** * Further properties *)

(** ** Batch embedding *)

Lemma batch_loop_inr (embed : pyobj -> result Vec) (items : list pyobj)
    (acc es : list Vec) :
  EmbeddingBatch.batch_loop embed acc items = inr es <->
  exists new, es = acc ++ new /\ Forall2 (fun x e => embed x = inr e) items new.
Proof.
  revert acc. induction items as [|x items IH]; intros acc; cbn [EmbeddingBatch.batch_loop].
  - split.
    + intros [= <-]. exists []. split; [by rewrite app_nil_r | constructor].
    + intros (new & -> & Hnew). apply Forall2_nil_inv_l in Hnew as ->.
      by rewrite app_nil_r.
  - destruct (embed x) as [e | v] eqn:Hx; cbn [mbind result_bind].
    + split; [discriminate |].
      intros (new & _ & Hnew). apply Forall2_cons_inv_l in Hnew as (? & ? & ? & _ & _).
      congruence.
    + rewrite IH. split.
      * intros (new & -> & Hnew). exists (v :: new).
        split; [by rewrite <- app_assoc | by constructor].
      * intros (new & -> & Hnew).
        apply Forall2_cons_inv_l in Hnew as (v' & new' & Hv & Hnew & ->).
        assert (v' = v) as -> by congruence.
        exists new'. split; [by rewrite <- app_assoc | done].
Qed.

Lemma batch_loop_inl (embed : pyobj -> result Vec) (pre post : list pyobj)
    (x : pyobj) (acc : list Vec) (e : exn) :
  Forall (fun y => is_ok (embed y) = true) pre ->
  embed x = inl e ->
  EmbeddingBatch.batch_loop embed acc (pre ++ x :: post) = inl e.
Proof.
  intros Hpre Hx. revert acc.
  induction Hpre as [|y pre Hy _ IH]; intros acc; cbn [app EmbeddingBatch.batch_loop].
  - by rewrite Hx.
  - destruct (embed y); [discriminate |]. cbn [mbind result_bind]. apply IH.
Qed.

(** X1: a batch call returns a list exactly when every item embeds, and the
    list then holds the embedding of each item, in the order of the
    items. *)
Theorem embed_batch_is_the_map (g : EmbeddingGenerator) (items : list pyobj)
    (es : list Vec) :
  (EmbeddingBatch.embed_batch_texts g items = inr es <->
   Forall2 (fun x e => embed_text g x = inr e) items es) /\
  (EmbeddingBatch.embed_batch_images g items = inr es <->
   Forall2 (fun x e => embed_image g x = inr e) items es).
Proof.
  unfold EmbeddingBatch.embed_batch_texts, EmbeddingBatch.embed_batch_images.
  split; rewrite batch_loop_inr; (split; [by intros (new & -> & H) | eauto]).
Qed.

(** X2: when an item cannot be embedded and the items before it can, the
    batch call raises that item's exception and returns nothing of the
    embeddings computed so far. *)
Theorem embed_batch_raises_first_failure (g : EmbeddingGenerator)
    (pre post : list pyobj) (x : pyobj) (e : exn) :
  (Forall (fun y => is_ok (embed_text g y) = true) pre ->
   embed_text g x = inl e ->
   EmbeddingBatch.embed_batch_texts g (pre ++ x :: post) = inl e) /\
  (Forall (fun y => is_ok (embed_image g y) = true) pre ->
   embed_image g x = inl e ->
   EmbeddingBatch.embed_batch_images g (pre ++ x :: post) = inl e).
Proof.
  split; intros Hpre Hx; by apply batch_loop_inl.
Qed.

(** One text in three cannot be embedded by the sample provider. *)
Lemma embed_batch_raises_first_failure_sample :
  EmbeddingBatch.embed_batch_texts Sample.provider
    [PStr "alpha"; PStr "unembeddable"; PStr "beta"]
  = inl (RuntimeError "CLIP failed") /\
  EmbeddingBatch.embed_batch_texts Sample.provider [PStr "alpha"; PStr "beta"]
  = inr [[1; 0]; [1; 0]]%Q.
Proof.
  split.
  - apply (proj1 (embed_batch_raises_first_failure Sample.provider
                    [PStr "alpha"] [PStr "beta"] (PStr "unembeddable")
                    (RuntimeError "CLIP failed"))).
    + repeat constructor.
    + reflexivity.
  - reflexivity.
Defined.

(** ** Retrieval *)

(** X3: when the embedding provider raises, a retrieval raises the same
    exception; the provider was called once and the index was not
    searched. *)
Theorem retrieval_raises_provider_failure (g : EmbeddingGenerator)
    (x : pyobj) (k : option Z) (w : World) (e : exn) :
  (embed_text g x = inl e ->
   MultimodalRetriever.retrieve_by_text g x k w
   = (inl e, mkWorld (vector_store w) (disk w) (calls w ++ [EmbedText x]))) /\
  (embed_image g x = inl e ->
   MultimodalRetriever.retrieve_by_image g x k w
   = (inl e, mkWorld (vector_store w) (disk w) (calls w ++ [EmbedImage x]))).
Proof.
  split; intros Hx.
  - unfold MultimodalRetriever.retrieve_by_text, mbind, M_bind, log, lift.
    by rewrite Hx.
  - unfold MultimodalRetriever.retrieve_by_image, mbind, M_bind, log, lift.
    by rewrite Hx.
Qed.

(** The sample provider refuses an image where a text is expected. *)
Lemma retrieval_raises_provider_failure_sample :
  MultimodalRetriever.retrieve_by_text Sample.provider
    (PImage (mkPilImage (1, 1) [Byte.x61])) None Sample.world
  = (inl (TypeError "text expected"),
     mkWorld (Some Sample.index) ∅
       [EmbedText (PImage (mkPilImage (1, 1) [Byte.x61]))]).
Proof.
  apply (proj1 (retrieval_raises_provider_failure Sample.provider
                  (PImage (mkPilImage (1, 1) [Byte.x61])) None Sample.world
                  (TypeError "text expected"))).
  reflexivity.
Defined.

(** X4: a retrieval on a store that was never built embeds the query first
    and only then raises the not-initialised error: the call of the
    provider is in the log, a search of the index is not. *)
Theorem retrieval_before_build_embeds_first (g : EmbeddingGenerator)
    (x : pyobj) (k : option Z) (w : World) (q : Vec) :
  vector_store w = None ->
  (embed_text g x = inr q ->
   MultimodalRetriever.retrieve_by_text g x k w
   = (inl (ValueError "Vector store not initialized"),
      mkWorld None (disk w) (calls w ++ [EmbedText x]))) /\
  (embed_image g x = inr q ->
   MultimodalRetriever.retrieve_by_image g x k w
   = (inl (ValueError "Vector store not initialized"),
      mkWorld None (disk w) (calls w ++ [EmbedImage x]))).
Proof.
  destruct w as [store files log0]. cbn [vector_store disk calls].
  intros ->. split; intros Hx.
  - unfold MultimodalRetriever.retrieve_by_text.
    unfold mbind at 1, M_bind at 1, log at 1.
    unfold mbind at 1, M_bind at 1, lift at 1. rewrite Hx.
    by rewrite search_by_vector_uninitialised.
  - unfold MultimodalRetriever.retrieve_by_image.
    unfold mbind at 1, M_bind at 1, log at 1.
    unfold mbind at 1, M_bind at 1, lift at 1. rewrite Hx.
    by rewrite search_by_vector_uninitialised.
Qed.

(** A text query in a fresh process. *)
Lemma retrieval_before_build_embeds_first_sample :
  MultimodalRetriever.retrieve_by_text Sample.provider (PStr "beta")
    (Some 3%Z) (initial_world ∅)
  = (inl (ValueError "Vector store not initialized"),
     mkWorld None ∅ [EmbedText (PStr "beta")]).
Proof.
  apply (proj1 (retrieval_before_build_embeds_first Sample.provider
                  (PStr "beta") (Some 3%Z) (initial_world ∅) [1; 0]%Q eq_refl)).
  reflexivity.
Defined.

Lemma py_or_idempotent (k : option Z) :
  py_or (Some (py_or k settings.DEFAULT_K)) settings.DEFAULT_K
  = py_or k settings.DEFAULT_K.
Proof.
  destruct k as [n|]; [|reflexivity]. unfold py_or.
  destruct (Z.eqb_spec n 0) as [-> | Hn]; [reflexivity |].
  by destruct (Z.eqb_spec n 0).
Qed.

Lemma search_by_vector_defaulted (q : Vec) (k : option Z) (w : World) :
  VectorStoreManager.search_by_vector q (Some (py_or k settings.DEFAULT_K)) w
  = VectorStoreManager.search_by_vector q k w.
Proof.
  destruct (vector_store w) as [vs|] eqn:Hvs.
  - rewrite !(search_by_vector_initialised _ _ _ _ Hvs).
    by rewrite py_or_idempotent.
  - by rewrite !search_by_vector_uninitialised.
Qed.

(** X5: the retriever applies the default to [k] and the vector store
    applies it again; the second application changes nothing, so for every
    [k] a retrieval is the embedding of the query followed by
    [search_by_vector] with the caller's own [k]. *)
Theorem retriever_defaulting_is_transparent (g : EmbeddingGenerator)
    (x : pyobj) (q : Vec) (k : option Z) (w : World) :
  MultimodalRetriever.get_similar_documents q k w
  = VectorStoreManager.search_by_vector q k w /\
  MultimodalRetriever.retrieve_by_text g x k w
  = (log (EmbedText x);;
     query_embedding ← lift (embed_text g x);
     VectorStoreManager.search_by_vector query_embedding k) w /\
  MultimodalRetriever.retrieve_by_image g x k w
  = (log (EmbedImage x);;
     query_embedding ← lift (embed_image g x);
     VectorStoreManager.search_by_vector query_embedding k) w.
Proof.
  split; [apply search_by_vector_defaulted |].
  split.
  - unfold MultimodalRetriever.retrieve_by_text.
    unfold mbind, M_bind, log, lift.
    destruct (embed_text g x); [done |]. apply search_by_vector_defaulted.
  - unfold MultimodalRetriever.retrieve_by_image.
    unfold mbind, M_bind, log, lift.
    destruct (embed_image g x); [done |]. apply search_by_vector_defaulted.
Qed.

(** ** The prompts *)

Section Prompts.
Import ResponseGenerator.

Lemma filter_filter_bool {A} (f g : A -> bool) (l : list A) :
  (forall x, f x = true -> g x = true) ->
  filter (fun y => f y) (filter (fun y => g y) l) = filter (fun y => f y) l.
Proof.
  intros Hfg. induction l as [|x l IH]; [done |].
  rewrite (filter_bool_cons g), (filter_bool_cons f).
  destruct (g x) eqn:Eg.
  - by rewrite filter_bool_cons, IH.
  - destruct (f x) eqn:Ef; [|done]. apply Hfg in Ef. congruence.
Qed.

Lemma page_label_inr (doc : Document) :
  (exists label, page_label doc = inr label) <-> has_page doc.
Proof.
  split; [|apply page_label_ok].
  intros [label Hl]. unfold page_label in Hl. unfold has_page, on_page.
  destruct (metadata doc !! "page") as [[p | s]|]; cbn in Hl;
    [by exists p | done | done].
Qed.

Lemma comprehension_text_line_inr (docs : list Document) :
  (exists lines, comprehension text_line docs = inr lines) <->
  Forall has_page docs.
Proof.
  split; [|apply comprehension_text_line].
  induction docs as [|doc docs IH]; [done |].
  intros [lines Hl]. cbn [comprehension] in Hl.
  destruct (text_line doc) as [e | line] eqn:El; [done |].
  cbn [mbind result_bind mret result_ret] in Hl.
  destruct (comprehension text_line docs) as [e | rest] eqn:Er; [done |].
  constructor; [|apply IH; eauto].
  apply page_label_inr. unfold text_line in El.
  destruct (page_label doc) as [e | label]; [done | eauto].
Qed.

Lemma add_text_context_inr (title : string) (content : list block)
    (text_docs : list Document) :
  (exists content', add_text_context title content text_docs = inr content') <->
  Forall has_page text_docs.
Proof.
  unfold add_text_context. destruct text_docs as [|doc docs]; cbn [py_not].
  - split; [done | by exists content].
  - rewrite <- comprehension_text_line_inr.
    destruct (comprehension text_line (doc :: docs)) as [e | lines];
      cbn [mbind result_bind mret result_ret].
    + split; intros [? ?]; done.
    + split; eauto.
Qed.

Lemma add_images_inr (header : string) (store : gmap string string)
    (content : list block) (image_docs : list Document) :
  (exists content', add_images header store content image_docs = inr content') <->
  Forall (fun doc => is_Some (usable_image_id store doc) -> has_page doc)
    image_docs.
Proof.
  revert content. induction image_docs as [|doc docs IH]; intros content.
  - split; [done | by exists content].
  - cbn [add_images]. unfold image_blocks_step. rewrite Forall_cons.
    destruct (usable_image_id store doc) as [image_id|];
      cbn [mbind result_bind mret result_ret].
    + destruct (page_label doc) as [e | label] eqn:El;
        cbn [mbind result_bind mret result_ret].
      * split; [by intros [? ?] |]. intros [Hp _].
        destruct (proj2 (page_label_inr doc) (Hp (mk_is_Some _ _ eq_refl)))
          as [label Hl]. congruence.
      * rewrite IH. split; [|by intros [_ ?]].
        intros H. split; [|done]. intros _. apply page_label_inr. eauto.
    + rewrite IH. split; [|by intros [_ ?]].
      intros H. split; [|done]. by intros [? ?].
Qed.

Lemma Forall_filter_impl (P : Document -> Prop) (f : Document -> bool)
    (l : list Document) :
  Forall P (filter (fun doc => f doc) l) <-> Forall (fun doc => f doc = true -> P doc) l.
Proof.
  rewrite !Forall_forall. split.
  - intros H doc Hin Hf. apply H, list_elem_of_filter. split; [|done].
    by apply Is_true_true.
  - intros H doc [Hf Hin]%list_elem_of_filter. apply H; [done |].
    by apply Is_true_true.
Qed.

(** X6: the question about an image.  [process_image_question] sends the
    model one message; its image blocks are the query image followed, in
    retrieval order, by the payloads of the retrieved image units whose
    identifier is a non-empty key of the store. *)
Theorem image_question_prompt_images (L : Libraries)
    (llm : list block -> result string) (input_image : PilImage)
    (question : string) (retrieved_docs : list Document)
    (image_data_store : gmap string string) (input_img_base64 : string) :
  Forall has_page retrieved_docs ->
  encode_input_image L input_image = inr input_img_base64 ->
  exists content,
    create_image_question_message L input_image question retrieved_docs
      image_data_store = inr content /\
    image_urls content
    = data_url input_img_base64
      :: included_images image_data_store retrieved_docs /\
    ImageQuestion.process_image_question L llm input_image question
      retrieved_docs image_data_store = llm content.
Proof.
  intros Hp Hb64. unfold ImageQuestion.process_image_question.
  unfold create_image_question_message. rewrite Hb64.
  cbn [mbind result_bind].
  destruct (related_content_ok
              [TextBlock ("I have provided you with an input image and relevant content from a PDF document. Please answer the following specific question about the image:" +:+ nl +:+ nl +:+ "Question: " +:+ question +:+ nl +:+ nl +:+ "Input Image:");
               ImageUrlBlock (data_url input_img_base64)]
              retrieved_docs image_data_store Hp)
    as (content1 & -> & Hurls1).
  cbn [mbind result_bind mret result_ret].
  eexists. split; [done |]. split; [|done].
  rewrite image_urls_app, Hurls1. cbn. by rewrite app_nil_r.
Qed.

(** X7: a prompt looks only at the retrieved documents whose type is
    [text] or [image]; documents of any other type, or of none, change
    nothing, whatever else their metadata holds. *)
Theorem prompts_ignore_other_types (L : Libraries) (query question : string)
    (input_image : PilImage) (retrieved_docs : list Document)
    (image_data_store : gmap string string) :
  create_text_query_message query retrieved_docs image_data_store
  = create_text_query_message query
      (filter (fun doc => text_or_image doc) retrieved_docs) image_data_store /\
  create_image_query_message L input_image retrieved_docs image_data_store
  = create_image_query_message L input_image
      (filter (fun doc => text_or_image doc) retrieved_docs) image_data_store /\
  create_image_question_message L input_image question retrieved_docs
    image_data_store
  = create_image_question_message L input_image question
      (filter (fun doc => text_or_image doc) retrieved_docs) image_data_store.
Proof.
  assert (forall x, has_type "text" x = true -> text_or_image x = true) as Ht
    by (intros x Hx; unfold text_or_image; by rewrite Hx).
  assert (forall x, has_type "image" x = true -> text_or_image x = true) as Hi
    by (intros x Hx; unfold text_or_image; rewrite Hx; apply orb_true_r).
  unfold create_text_query_message, create_image_query_message,
    create_image_question_message, related_content.
  by rewrite !(filter_filter_bool _ _ _ Ht), !(filter_filter_bool _ _ _ Hi).
Qed.

(** X8: the text prompt is produced exactly when every document whose
    page is formatted carries an integer page number: every text unit, and
    every image unit that passes the store test.  An image unit that is
    left out may lack a page; a text unit may not. *)
Theorem text_prompt_needs_page_numbers (query : string)
    (retrieved_docs : list Document) (image_data_store : gmap string string) :
  (exists content,
     create_text_query_message query retrieved_docs image_data_store
     = inr content) <->
  Forall (fun doc => needs_label image_data_store doc = true -> has_page doc)
    retrieved_docs.
Proof.
  unfold create_text_query_message.
  set (c0 := [TextBlock ("Question: " +:+ _)]).
  set (texts := filter (fun doc => has_type "text" doc) retrieved_docs).
  set (images := filter (fun doc => has_type "image" doc) retrieved_docs).
  transitivity (Forall has_page texts /\
                Forall (fun doc => is_Some (usable_image_id image_data_store doc)
                                   -> has_page doc) images).
  - rewrite <- (add_text_context_inr "Text excerpts:" c0 texts).
    destruct (add_text_context "Text excerpts:" c0 texts) as [e | c1];
      cbn [mbind result_bind].
    + split; [by intros [? ?] | by intros [[? ?] _]].
    + rewrite <- (add_images_inr (nl +:+ "[Image from page ") image_data_store
                    c1 images).
      destruct (add_images _ _ c1 images) as [e | c2];
        cbn [mbind result_bind mret result_ret].
      * split; [by intros [? ?] | by intros [_ [? ?]]].
      * split; eauto.
  - unfold texts, images. rewrite !Forall_filter_impl, <- Forall_and.
    apply Forall_iff. intros doc. unfold needs_label.
    destruct (has_type "text" doc), (has_type "image" doc); cbn [orb andb].
    + split; [intros [H _] _; by apply H | intros H; split; intros; by apply H].
    + split; [intros [H _] _; by apply H | intros H; split; [done |]; intros; done].
    + split.
      * intros [_ H] Hb. apply H; [done |]. by apply bool_decide_eq_true_1 in Hb.
      * intros H. split; [done |]. intros _ Hs. apply H.
        by apply bool_decide_eq_true_2.
    + split; [done | intros _; split; intros; done].
Qed.

End Prompts.

(** A question about a one-byte image, over the sample units. *)
Lemma image_question_prompt_images_sample :
  exists content,
    ResponseGenerator.create_image_question_message Sample.libraries
      (mkPilImage (1, 1) [Byte.x61]) "what is it?" Sample.docs
      Sample.image_store = inr content /\
    ResponseGenerator.image_urls content
    = ResponseGenerator.data_url "a"
      :: included_images Sample.image_store Sample.docs /\
    ImageQuestion.process_image_question Sample.libraries
      (fun message => inr (str_nat (length message)))
      (mkPilImage (1, 1) [Byte.x61]) "what is it?" Sample.docs
      Sample.image_store = inr (str_nat (length content)).
Proof.
  apply (image_question_prompt_images Sample.libraries
           (fun message => inr (str_nat (length message)))
           (mkPilImage (1, 1) [Byte.x61]) "what is it?" Sample.docs
           Sample.image_store "a").
  - unfold Sample.docs.
    repeat (constructor; [eexists; reflexivity |]). constructor.
  - reflexivity.
Defined.

(** ** Ingestion *)

Section Ingested.
Context (L : Libraries).
Import IngestionSpec.

Lemma process_pdf_inr (progress_callback : option (Q -> result unit))
    (src : pdf_source) (docs : list Document) (embeddings : list Vec)
    (store : gmap string string) :
  PDFProcessor.process_pdf L src progress_callback
  = inr (docs, embeddings, store) ->
  exists doc,
    pymupdf_open L src = inr doc /\ Forall readable (pdf_pages doc) /\
    docs = (document_units L doc).*1 /\
    embeddings = (document_units L doc).*2.
Proof.
  intros Hrun. pose proof Hrun as Hunits.
  unfold PDFProcessor.process_pdf in Hunits.
  destruct (pymupdf_open L src) as [e | doc] eqn:Hopen; [discriminate |].
  cbn [mbind result_bind] in Hunits.
  apply (run_pages_inr L progress_callback doc _ (pdf_pages doc) 0)
    in Hunits as (Hr & Hd & He).
  exists doc. split; [done |]. split; [done |]. split; [exact Hd | exact He].
Qed.

Lemma page_step_without_callback (progress_callback : option (Q -> result unit))
    (doc : PdfDocument) (total_pages : nat) (st : PDFProcessor.image_state)
    (i : nat) (page : Page) :
  PDFProcessor.report_progress progress_callback i total_pages = inr tt ->
  PDFProcessor.page_step L doc progress_callback total_pages st (i, page)
  = PDFProcessor.page_step L doc None total_pages st (i, page).
Proof.
  intros H. destruct st as [[docs embeddings] store].
  unfold PDFProcessor.page_step. rewrite H. reflexivity.
Qed.

Lemma run_pages_without_callback (progress_callback : option (Q -> result unit))
    (doc : PdfDocument) (total_pages : nat) (st : PDFProcessor.image_state)
    (entries : list (nat * Page)) :
  never_raises progress_callback ->
  PDFProcessor.run_pages L doc progress_callback total_pages st entries
  = PDFProcessor.run_pages L doc None total_pages st entries.
Proof.
  intros Hcb. revert st.
  induction entries as [|[i page] entries IH]; intros st; [done |].
  cbn [PDFProcessor.run_pages].
  rewrite (page_step_without_callback progress_callback)
    by by apply report_progress_ok.
  destruct (PDFProcessor.page_step L doc None total_pages st (i, page));
    cbn [mbind result_bind]; [done | apply IH].
Qed.

(** X9: progress reporting is advisory.  With a callback that returns
    normally, [process_pdf] returns or raises exactly what it does without
    a callback. *)
Theorem progress_callback_is_advisory
    (progress_callback : option (Q -> result unit)) (src : pdf_source) :
  never_raises progress_callback ->
  PDFProcessor.process_pdf L src progress_callback
  = PDFProcessor.process_pdf L src None.
Proof.
  intros Hcb. unfold PDFProcessor.process_pdf.
  destruct (pymupdf_open L src) as [e | doc]; [done |].
  cbn [mbind result_bind]. by apply run_pages_without_callback.
Qed.

Lemma run_pages_callback_raises (callback : Q -> result unit)
    (doc : PdfDocument) (total_pages : nat) (pages : list Page) (i : nat)
    (e : exn) :
  forall (k : nat) (st : PDFProcessor.image_state),
  i < length pages ->
  Forall readable (take i pages) ->
  (forall j, j < i -> callback (progress_at (k + j) total_pages) = inr tt) ->
  callback (progress_at (k + i) total_pages) = inl e ->
  PDFProcessor.run_pages L doc (Some callback) total_pages st
    (imap (fun j page => (k + j, page)) pages)
  = inl e.
Proof.
  revert pages. induction i as [|i IH]; intros pages k st Hlen Hread Hok Hfail.
  - destruct pages as [|page pages]; [simpl in Hlen; lia |].
    rewrite imap_cons. cbn [PDFProcessor.run_pages].
    rewrite Nat.add_0_r in *.
    by rewrite (page_step_callback_raises L (Some callback) doc total_pages
                  st k page e Hfail).
  - destruct pages as [|page pages]; [simpl in Hlen; lia |].
    rewrite imap_cons. cbn [PDFProcessor.run_pages].
    cbn [take] in Hread. apply Forall_cons in Hread as [Hpage Hread].
    destruct st as [[docs embeddings] store].
    destruct (page_step_units L (Some callback) doc total_pages docs embeddings
                store (k + 0) page) as [store1 ->];
      [apply (Hok 0); lia | done |].
    cbn [mbind result_bind].
    rewrite (imap_ext _ (fun j page => (S k + j, page)))
      by (intros; simpl; f_equal; lia).
    apply IH.
    + simpl in Hlen. lia.
    + done.
    + intros j Hj. replace (S k + j) with (k + S j) by lia. apply Hok. lia.
    + by replace (S k + i) with (k + S i) by lia.
Qed.

(** X10: a failure of the progress callback is a failure of the
    ingestion.  If the callback raises when page [i] is announced, after
    readable pages announced without error, [process_pdf] raises that
    exception; what was extracted from the earlier pages is lost. *)
Theorem failing_progress_callback_aborts (callback : Q -> result unit)
    (src : pdf_source) (doc : PdfDocument) (i : nat) (e : exn) :
  pymupdf_open L src = inr doc ->
  i < length (pdf_pages doc) ->
  Forall readable (take i (pdf_pages doc)) ->
  (forall j, j < i ->
     callback (progress_at j (length (pdf_pages doc))) = inr tt) ->
  callback (progress_at i (length (pdf_pages doc))) = inl e ->
  PDFProcessor.process_pdf L src (Some callback) = inl e.
Proof.
  intros Hopen Hlen Hread Hok Hfail. unfold PDFProcessor.process_pdf.
  rewrite Hopen. cbn [mbind result_bind]. unfold enumerate.
  by apply (run_pages_callback_raises callback doc _ (pdf_pages doc) i e 0).
Qed.

Lemma VStr_inj (s t : string) : VStr s = VStr t -> s = t.
Proof. congruence. Qed.

Lemma image_ids_app (a b : list Document) :
  image_ids (a ++ b) = image_ids a ++ image_ids b.
Proof. apply omap_app. Qed.

Lemma image_ids_none (l : list Document) :
  Forall (fun d => metadata d !! "image_id" = None) l -> image_ids l = [].
Proof.
  induction 1 as [|d l Hd _ IH]; [done |].
  unfold image_ids. rewrite omap_cons_option_list, Hd. exact IH.
Qed.

Lemma text_units_ids (page : Page) (p : nat) :
  image_ids (omap (text_unit L) (page_chunks L page p)).*1 = [].
Proof.
  apply image_ids_none, Forall_forall. intros d [e Hin]%fst_elem.
  apply list_elem_of_omap in Hin as (c & Hc & Hu).
  apply text_unit_Some in Hu as [-> _].
  unfold page_chunks in Hc.
  destruct (get_text page) as [|text]; [by apply elem_of_nil in Hc |].
  destruct (strip_nonempty text); [|by apply elem_of_nil in Hc].
  apply list_elem_of_fmap in Hc as (chunk & -> & _).
  cbn [metadata]. rewrite !lookup_insert_ne, lookup_empty by done. reflexivity.
Qed.

Lemma image_units_ids (doc : PdfDocument) (p : nat) (entries : list (nat * nat)) :
  exists kept,
    kept `sublist_of` entries /\
    image_ids (omap (image_unit L doc p) entries).*1
    = (fun i => VStr (PDFProcessor.image_id_of p i)) <$> kept.*1.
Proof.
  induction entries as [|entry entries (kept & Hsub & Hids)];
    [by exists [] |].
  rewrite omap_cons_option_list.
  destruct (image_unit L doc p entry) as [[d e]|] eqn:Hu;
    cbn [option_list option_rect app].
  - apply image_unit_Some in Hu as [-> _].
    exists (entry :: kept). split; [by apply sublist_skip |].
    rewrite !fmap_cons. unfold image_ids. rewrite omap_cons_option_list.
    cbn [fst image_document metadata].
    rewrite !lookup_insert_ne, lookup_insert_eq by done.
    cbn [option_list option_rect app]. f_equal. exact Hids.
  - exists kept. split; [by apply sublist_cons | exact Hids].
Qed.

Lemma enumerate_indices {A} (l : list A) : (enumerate l).*1 = seq 0 (length l).
Proof.
  unfold enumerate. rewrite fmap_imap.
  rewrite (imap_ext _ (fun j _ => id j)) by done.
  by rewrite imap_seq_0, list_fmap_id.
Qed.

Lemma page_units_ids (doc : PdfDocument) (p : nat) (page : Page) :
  exists indices,
    NoDup indices /\
    image_ids (page_units L doc p page).*1
    = (fun i => VStr (PDFProcessor.image_id_of p i)) <$> indices.
Proof.
  destruct (image_units_ids doc p (enumerate (page_images page)))
    as (kept & Hsub & Hids).
  exists kept.*1. split.
  - eapply sublist_NoDup; [|by apply fmap_sublist].
    rewrite enumerate_indices. apply NoDup_seq.
  - unfold page_units. by rewrite fmap_app, image_ids_app, text_units_ids, Hids.
Qed.

Lemma later_pages_ids (doc : PdfDocument) (pages : list Page) (k : nat) :
  NoDup (image_ids (mjoin (imap (fun i => page_units L doc (k + i)) pages)).*1) /\
  forall v,
    v ∈ image_ids (mjoin (imap (fun i => page_units L doc (k + i)) pages)).*1 ->
    exists p i, k <= p /\ v = VStr (PDFProcessor.image_id_of p i).
Proof.
  revert k. induction pages as [|page pages IH]; intros k.
  - split; [constructor | by intros v ?%elem_of_nil].
  - rewrite imap_cons. cbn [mjoin list_join]. rewrite Nat.add_0_r.
    rewrite (imap_ext ((fun i => page_units L doc (k + i)) ∘ S)
               (fun i => page_units L doc (S k + i)))
      by (intros; simpl; f_equal; lia).
    rewrite fmap_app, image_ids_app.
    destruct (page_units_ids doc k page) as (indices & Hnd & ->).
    destruct (IH (S k)) as [Hrest Hlater].
    split.
    + apply NoDup_app. split; [|split; [|done]].
      * assert (Inj eq eq (fun i => VStr (PDFProcessor.image_id_of k i)))
          by (intros i j H; apply VStr_inj, image_id_of_inj in H; tauto).
        by apply (NoDup_fmap_2 _).
      * intros v (i & -> & _)%list_elem_of_fmap (p' & i' & Hp' & H)%Hlater.
        apply VStr_inj, image_id_of_inj in H as [-> _]. lia.
    + intros v [(i & -> & _)%list_elem_of_fmap | (p' & i' & Hp' & ->)%Hlater]%elem_of_app.
      * by exists k, i.
      * exists p', i'. split; [lia | done].
Qed.

(** X11: the image identifiers of the units of one ingestion are pairwise
    different: no two units of the output refer to the same entry of the
    image store. *)
Theorem image_identifiers_are_unique
    (progress_callback : option (Q -> result unit)) (src : pdf_source)
    (docs : list Document) (embeddings : list Vec)
    (store : gmap string string) :
  PDFProcessor.process_pdf L src progress_callback
  = inr (docs, embeddings, store) ->
  NoDup (image_ids docs).
Proof.
  intros (doc & _ & _ & -> & _)%process_pdf_inr.
  apply (later_pages_ids doc (pdf_pages doc) 0).
Qed.

(** X12: the store entry of an image unit is the picture that was
    embedded.  For every unit of the output that carries an identifier,
    the store holds, under that identifier, the base64 text of the PNG of
    the very image whose embedding stands beside the unit. *)
Theorem image_unit_payload_is_its_image
    (progress_callback : option (Q -> result unit)) (src : pdf_source)
    (docs : list Document) (embeddings : list Vec)
    (store : gmap string string) (d : Document) (e : Vec) (id : string) :
  PDFProcessor.process_pdf L src progress_callback
  = inr (docs, embeddings, store) ->
  (d, e) ∈ zip docs embeddings ->
  metadata d !! "image_id" = Some (VStr id) ->
  exists pil_image buffered,
    embed_image (embedding_generator L) (PImage pil_image) = inr e /\
    Image_save L pil_image settings.IMAGE_FORMAT = inr buffered /\
    store !! id = Some (b64encode L buffered).
Proof.
  intros Hrun Hin Hid.
  destruct (process_pdf_inr _ _ _ _ _ Hrun) as (doc & Hopen & _ & -> & ->).
  rewrite zip_fst_snd in Hin.
  destruct (unit_with_image_id L doc d e id Hin Hid)
    as (p & page & i & xref & Hpage & Hxref & -> & Hu).
  apply image_unit_stored in Hu as (_ & pil & buffered & _ & Hsave & He & Hs).
  exists pil, buffered. split; [done |]. split; [done |].
  apply (process_pdf_store_lookup L progress_callback src doc _ _ store _ _
           Hopen Hrun).
  apply document_stored_elem. by exists p, page, i, xref.
Qed.

(** X13: what the image store holds.  An identifier maps to a payload
    exactly when some image of some page was extracted, decoded and
    re-encoded to that payload under that identifier; whether the image
    could be embedded plays no part. *)
Theorem image_store_holds_the_encoded_images
    (progress_callback : option (Q -> result unit)) (src : pdf_source)
    (docs : list Document) (embeddings : list Vec)
    (store : gmap string string) (id payload : string) :
  PDFProcessor.process_pdf L src progress_callback
  = inr (docs, embeddings, store) ->
  store !! id = Some payload <->
  exists doc p page i xref pil_image buffered,
    pymupdf_open L src = inr doc /\
    pdf_pages doc !! p = Some page /\ get_images page = inr (page_images page) /\
    page_images page !! i = Some xref /\
    prepared_image L doc xref = Some pil_image /\
    Image_save L pil_image settings.IMAGE_FORMAT = inr buffered /\
    id = PDFProcessor.image_id_of p i /\ payload = b64encode L buffered.
Proof.
  intros Hrun.
  destruct (process_pdf_inr _ _ _ _ _ Hrun) as (doc & Hopen & Hread & _ & _).
  rewrite (process_pdf_store_lookup L progress_callback src doc _ _ store _ _
             Hopen Hrun), document_stored_elem.
  split.
  - intros (p & page & i & xref & Hpage & Hxref & Hs).
    unfold stored_image in Hs. cbn [fst snd] in Hs.
    destruct (prepared_image L doc xref) as [pil|] eqn:Hprep;
      cbn [mbind option_bind] in Hs; [|done].
    destruct (Image_save L pil _) as [|buffered] eqn:Hsave;
      cbn [ok mbind option_bind] in Hs; [done |].
    injection Hs as <- <-.
    exists doc, p, page, i, xref, pil, buffered.
    repeat (split; [done |]). split; [|done].
    rewrite Forall_forall in Hread.
    destruct (Hread page) as [_ Himgs]; [by eapply list_elem_of_lookup_2 |].
    unfold page_images. by destruct (get_images page).
  - intros (doc' & p & page & i & xref & pil & buffered & Hopen' & Hpage & _
            & Hxref & Hprep & Hsave & -> & ->).
    assert (doc' = doc) as -> by congruence.
    exists p, page, i, xref. split; [done |]. split; [done |].
    unfold stored_image. cbn [fst snd]. rewrite Hprep.
    cbn [mbind option_bind]. rewrite Hsave. done.
Qed.

Lemma join_imap_nil {A B} (f : nat -> A -> list B) (l : list A) :
  (forall i x, x ∈ l -> f i x = []) -> mjoin (imap f l) = [].
Proof.
  revert f. induction l as [|x l IH]; intros f Hf; [done |].
  rewrite imap_cons. cbn [mjoin list_join].
  rewrite (Hf 0 x) by apply list_elem_of_here.
  apply IH. intros i y Hy. apply Hf. by apply list_elem_of_further.
Qed.

Lemma blank_page_units (doc : PdfDocument) (p : nat) (page : Page) :
  blank page ->
  readable page /\ page_units L doc p page = [] /\ page_stored L doc p page = [].
Proof.
  intros [(text & Ht & Hs) Hi]. split; [|split].
  - unfold readable. by rewrite Ht, Hi.
  - unfold page_units, page_chunks, page_images. by rewrite Ht, Hs, Hi.
  - unfold page_stored, page_images. by rewrite Hi.
Qed.

(** X14: a document without text and without images (also one without
    pages) is ingested without error and yields nothing: no units, no
    embeddings and an empty image store. *)
Theorem blank_document_yields_nothing
    (progress_callback : option (Q -> result unit)) (src : pdf_source)
    (doc : PdfDocument) :
  never_raises progress_callback ->
  pymupdf_open L src = inr doc ->
  Forall blank (pdf_pages doc) ->
  PDFProcessor.process_pdf L src progress_callback = inr ([], [], ∅).
Proof.
  intros Hcb Hopen Hblank. rewrite Forall_forall in Hblank.
  assert (Forall readable (pdf_pages doc)) as Hread.
  { apply Forall_forall. intros page Hp.
    by apply (blank_page_units doc 0 page), Hblank. }
  destruct (run_pages_readable L progress_callback doc (length (pdf_pages doc))
              (pdf_pages doc) 0 [] [] ∅ Hcb Hread) as [store Hrun].
  assert (PDFProcessor.process_pdf L src progress_callback
          = inr ((document_units L doc).*1, (document_units L doc).*2, store))
    as Hpdf.
  { unfold PDFProcessor.process_pdf. rewrite Hopen. exact Hrun. }
  pose proof (process_pdf_store L progress_callback src doc _ _ _ Hopen Hpdf)
    as ->.
  rewrite Hpdf. unfold document_units, document_stored.
  rewrite !join_imap_nil; [done | |].
  - intros i page Hp. by apply blank_page_units, Hblank.
  - intros i page Hp. by apply blank_page_units, Hblank.
Qed.

Lemma unit_embedding_dim (doc : PdfDocument) (n : nat) (e : Vec) :
  provider_dim (embedding_generator L) n ->
  e ∈ (document_units L doc).*2 -> length e = n.
Proof.
  intros Hdim ([d e'] & -> & Hin)%list_elem_of_fmap.
  apply document_units_elem in Hin as (p & page & _ & Hin).
  apply page_units_meta in Hin as (_ & _ & [[_ He] | [_ [pil He]]]);
    eapply Hdim; eauto.
Qed.

(** X15: what an ingestion returns can be indexed.  When the provider's
    embeddings all have one dimensionality, the units and embeddings of a
    successful ingestion that found anything are accepted by
    [create_vector_store], which installs an index over exactly them. *)
Theorem ingestion_output_builds_an_index
    (progress_callback : option (Q -> result unit)) (src : pdf_source)
    (docs : list Document) (embeddings : list Vec)
    (store : gmap string string) (n : nat) (w : World) :
  PDFProcessor.process_pdf L src progress_callback
  = inr (docs, embeddings, store) ->
  provider_dim (embedding_generator L) n ->
  docs <> [] ->
  exists vs,
    VectorStoreManager.create_vector_store docs embeddings w
    = (inr vs, mkWorld (Some vs) (disk w) (calls w)) /\
    FAISS.docstore vs = docs /\ FAISS.xb vs = embeddings /\ FAISS.d vs = n.
Proof.
  intros (doc & _ & _ & -> & ->)%process_pdf_inr Hdim Hne.
  assert (Forall (fun e : Vec => length e = n) (document_units L doc).*2)
    as Hall by (apply Forall_forall; intros e; by apply unit_embedding_dim).
  assert (length (document_units L doc).*1 = length (document_units L doc).*2)
    as Hlen by (by rewrite !length_fmap).
  destruct (create_vector_store_ok _ _ n w Hne Hlen Hall) as [vs Hvs].
  exists vs. split; [done |].
  pose proof (create_vector_store_inr _ _ _ _ _ Hvs)
    as (_ & _ & Hxb & Hstore & Hd & _).
  split; [done |]. split; [done |].
  destruct (document_units L doc) as [|[d e] units]; [done |].
  rewrite fmap_cons in Hd, Hall.
  apply Forall_cons in Hd as [Hd _]. apply Forall_cons in Hall as [He _].
  cbn [snd] in Hd, He. congruence.
Qed.

Lemma unit_kinds (doc : PdfDocument) (d : Document) :
  d ∈ (document_units L doc).*1 ->
  has_page d /\
  (ResponseGenerator.has_type "image" d = true ->
   exists p i, d = image_document p i).
Proof.
  intros [e Hin]%fst_elem.
  apply document_units_elem in Hin as (p & page & _ & Hin).
  pose proof (page_units_meta L doc page p d e Hin) as (Hp & _ & _).
  split; [by exists (Z.of_nat p) |].
  unfold page_units in Hin. apply elem_of_app in Hin as [Hin | Hin].
  - apply list_elem_of_omap in Hin as (c & Hc & Hu).
    apply text_unit_Some in Hu as [-> _].
    apply (page_chunks_meta L) in Hc as [_ Ht].
    unfold ResponseGenerator.has_type, is_text in *. rewrite Ht.
    intros ?%bool_decide_eq_true_1. congruence.
  - apply list_elem_of_omap in Hin as (c & _ & Hu).
    apply image_unit_Some in Hu as [-> _]. intros _. by exists p, c.1.
Qed.

Lemma image_document_payload (store : gmap string string) (p i : nat) :
  included_payload store (image_document p i)
  = store !! PDFProcessor.image_id_of p i.
Proof.
  unfold included_payload, ResponseGenerator.has_type.
  cbn [image_document metadata].
  rewrite bool_decide_eq_true_2
    by (rewrite lookup_insert_ne by done; apply lookup_insert_eq).
  rewrite !lookup_insert_ne, lookup_insert_eq by done. reflexivity.
Qed.

Lemma text_query_message_ok (query : string) (retrieved_docs : list Document)
    (store : gmap string string) :
  Forall has_page retrieved_docs ->
  exists content,
    ResponseGenerator.create_text_query_message query retrieved_docs store
    = inr content /\
    ResponseGenerator.image_urls content = included_images store retrieved_docs.
Proof.
  intros Hp. unfold ResponseGenerator.create_text_query_message.
  destruct (add_text_context_ok "Text excerpts:"
              [TextBlock ("Question: " +:+ query +:+ nl +:+ nl +:+ "Context:" +:+ nl)]
              (filter (fun doc => ResponseGenerator.has_type "text" doc)
                 retrieved_docs))
    as (content1 & -> & Hurls1); [by apply Forall_filter_bool |].
  cbn [mbind result_bind].
  destruct (add_images_ok (nl +:+ "[Image from page ") store content1
              (filter (fun doc => ResponseGenerator.has_type "image" doc)
                 retrieved_docs))
    as (content2 & -> & Hurls2);
    [by apply Forall_filter_bool | apply filter_bool_all |].
  cbn [mbind result_bind mret result_ret].
  eexists. split; [done |].
  rewrite image_urls_app, Hurls2, Hurls1, included_images_filter.
  cbn. by rewrite app_nil_r.
Qed.

(** X16: ingestion and prompt fit together.  A text prompt over any
    selection of the units of a successful ingestion, with the image store
    of that ingestion, is always produced, and it shows every selected
    image unit: one image block per image unit, in order, holding the
    store's payload for that unit's identifier. *)
Theorem ingested_units_compose_into_prompts
    (progress_callback : option (Q -> result unit)) (src : pdf_source)
    (docs : list Document) (embeddings : list Vec)
    (store : gmap string string) (query : string)
    (retrieved_docs : list Document) :
  PDFProcessor.process_pdf L src progress_callback
  = inr (docs, embeddings, store) ->
  Forall (fun d => d ∈ docs) retrieved_docs ->
  exists content,
    ResponseGenerator.create_text_query_message query retrieved_docs store
    = inr content /\
    Forall2
      (fun d url =>
         exists id payload,
           metadata d !! "image_id" = Some (VStr id) /\
           store !! id = Some payload /\
           url = ResponseGenerator.data_url payload)
      (filter (fun d => ResponseGenerator.has_type "image" d) retrieved_docs)
      (ResponseGenerator.image_urls content).
Proof.
  intros Hrun Hsel.
  destruct (process_pdf_inr _ _ _ _ _ Hrun) as (doc & Hopen & _ & Hdocs & _).
  assert (Forall has_page retrieved_docs) as Hp.
  { eapply Forall_impl; [exact Hsel |]. intros d Hd. rewrite Hdocs in Hd.
    by apply unit_kinds in Hd as [? _]. }
  destruct (text_query_message_ok query retrieved_docs store Hp)
    as (content & Hmsg & Hurls).
  exists content. split; [done |]. rewrite Hurls. clear Hmsg Hurls Hp.
  unfold included_images.
  induction Hsel as [|d rest Hd _ IH]; [constructor |].
  rewrite filter_bool_cons, omap_cons_option_list.
  destruct (ResponseGenerator.has_type "image" d) eqn:Hi.
  - pose proof Hd as Hd'. rewrite Hdocs in Hd'.
    apply unit_kinds in Hd' as [_ Hkind].
    destruct (Hkind Hi) as (p & i & ->).
    assert (metadata (image_document p i) !! "image_id"
            = Some (VStr (PDFProcessor.image_id_of p i))) as Hid
      by (cbn [image_document metadata];
          rewrite !lookup_insert_ne, lookup_insert_eq by done; reflexivity).
    destruct (image_units_are_stored L progress_callback src doc _ _ store _ _
                Hopen Hrun Hd Hid) as [payload Hpayload].
    rewrite image_document_payload, Hpayload.
    cbn [option_list option_rect app]. rewrite fmap_cons.
    constructor; [|exact IH]. eauto.
  - unfold included_payload at 1. rewrite Hi.
    cbn [option_list option_rect app]. exact IH.
Qed.

End Ingested.

(** The sample document, with and without the sample callback. *)
Lemma progress_callback_is_advisory_sample :
  PDFProcessor.process_pdf Sample.libraries (PdfPath "report.pdf") Sample.callback
  = PDFProcessor.process_pdf Sample.libraries (PdfPath "report.pdf") None.
Proof.
  apply (progress_callback_is_advisory Sample.libraries Sample.callback
           (PdfPath "report.pdf")).
  intros callback x [= <-]. reflexivity.
Defined.

(** The display fails when the second and last page is announced. *)
Lemma failing_progress_callback_aborts_sample :
  PDFProcessor.process_pdf Sample.libraries (PdfPath "report.pdf")
    (Some Fixture.fragile_callback)
  = inl (RuntimeError "widget is gone").
Proof.
  apply (failing_progress_callback_aborts Sample.libraries
           Fixture.fragile_callback (PdfPath "report.pdf") Sample.report 1).
  - reflexivity.
  - simpl. lia.
  - repeat constructor.
  - intros [|j] Hj; [reflexivity | lia].
  - reflexivity.
Defined.

Lemma report_ingested :
  PDFProcessor.process_pdf Sample.libraries (PdfPath "report.pdf") None
  = inr (Fixture.report_docs, Fixture.report_embeddings, Fixture.report_store).
Proof. vm_compute. reflexivity. Qed.

(** The two image units of the sample report. *)
Lemma image_identifiers_are_unique_sample :
  PDFProcessor.process_pdf Sample.libraries (PdfPath "report.pdf") None
  = inr (Fixture.report_docs, Fixture.report_embeddings, Fixture.report_store) /\
  image_ids Fixture.report_docs = [VStr "page_0_img_0"; VStr "page_1_img_0"] /\
  NoDup (image_ids Fixture.report_docs).
Proof.
  split; [exact report_ingested |]. split; [reflexivity |].
  exact (image_identifiers_are_unique Sample.libraries None
           (PdfPath "report.pdf") _ _ _ report_ingested).
Defined.

(** The third unit of the sample report and its picture. *)
Lemma image_unit_payload_is_its_image_sample :
  PDFProcessor.process_pdf Sample.libraries (PdfPath "report.pdf") None
  = inr (Fixture.report_docs, Fixture.report_embeddings, Fixture.report_store) /\
  exists pil_image buffered,
    embed_image Sample.provider (PImage pil_image) = inr [0; 1]%Q /\
    Image_save Sample.libraries pil_image settings.IMAGE_FORMAT = inr buffered /\
    Fixture.report_store !! "page_0_img_0"
    = Some (b64encode Sample.libraries buffered).
Proof.
  split; [exact report_ingested |].
  apply (image_unit_payload_is_its_image Sample.libraries None
           (PdfPath "report.pdf") _ _ _
           (mkDocument "[Image: page_0_img_0]"
              (Sample.image_meta 0 "page_0_img_0"))
           [0; 1]%Q "page_0_img_0" report_ingested).
  - apply (list_elem_of_lookup_2 _ 2). reflexivity.
  - reflexivity.
Defined.

(** The store of the sample report holds the first image of page 0. *)
Lemma image_store_holds_the_encoded_images_sample :
  PDFProcessor.process_pdf Sample.libraries (PdfPath "report.pdf") None
  = inr (Fixture.report_docs, Fixture.report_embeddings, Fixture.report_store) /\
  (Fixture.report_store !! "page_0_img_0" = Some "a" <->
   exists doc p page i xref pil_image buffered,
     pymupdf_open Sample.libraries (PdfPath "report.pdf") = inr doc /\
     pdf_pages doc !! p = Some page /\
     get_images page = inr (IngestionSpec.page_images page) /\
     IngestionSpec.page_images page !! i = Some xref /\
     IngestionSpec.prepared_image Sample.libraries doc xref = Some pil_image /\
     Image_save Sample.libraries pil_image settings.IMAGE_FORMAT = inr buffered /\
     "page_0_img_0" = PDFProcessor.image_id_of p i /\
     "a" = b64encode Sample.libraries buffered).
Proof.
  split; [exact report_ingested |].
  exact (image_store_holds_the_encoded_images Sample.libraries None
           (PdfPath "report.pdf") _ _ _ "page_0_img_0" "a" report_ingested).
Defined.

(** Two blank pages. *)
Lemma blank_document_yields_nothing_sample :
  PDFProcessor.process_pdf Fixture.libraries (PdfPath "blank.pdf") Sample.callback
  = inr ([], [], ∅).
Proof.
  apply (blank_document_yields_nothing Fixture.libraries Sample.callback
           (PdfPath "blank.pdf") Fixture.empty_pages).
  - intros callback x [= <-]. reflexivity.
  - reflexivity.
  - unfold Fixture.empty_pages, blank. cbn [pdf_pages].
    repeat (constructor; [split; [eexists; split; reflexivity | reflexivity] |]).
    constructor.
Defined.

(** The sample report is indexed as it comes out of the ingestion. *)
Lemma ingestion_output_builds_an_index_sample :
  PDFProcessor.process_pdf Sample.libraries (PdfPath "report.pdf") None
  = inr (Fixture.report_docs, Fixture.report_embeddings, Fixture.report_store) /\
  exists vs,
    VectorStoreManager.create_vector_store Fixture.report_docs
      Fixture.report_embeddings (initial_world ∅)
    = (inr vs, mkWorld (Some vs) ∅ []) /\
    FAISS.docstore vs = Fixture.report_docs /\
    FAISS.xb vs = Fixture.report_embeddings /\ FAISS.d vs = 2.
Proof.
  split; [exact report_ingested |].
  apply (ingestion_output_builds_an_index Sample.libraries None
           (PdfPath "report.pdf") _ _ _ 2 (initial_world ∅) report_ingested).
  - apply sample_provider_dim.
  - discriminate.
Defined.

(** The two images and one text chunk of the sample report, retrieved in
    another order. *)
Lemma ingested_units_compose_into_prompts_sample :
  PDFProcessor.process_pdf Sample.libraries (PdfPath "report.pdf") None
  = inr (Fixture.report_docs, Fixture.report_embeddings, Fixture.report_store) /\
  exists content,
    ResponseGenerator.create_text_query_message "what?"
      (reverse Fixture.report_docs) Fixture.report_store
    = inr content /\
    Forall2
      (fun d url =>
         exists id payload,
           metadata d !! "image_id" = Some (VStr id) /\
           Fixture.report_store !! id = Some payload /\
           url = ResponseGenerator.data_url payload)
      (filter (fun d => ResponseGenerator.has_type "image" d)
         (reverse Fixture.report_docs))
      (ResponseGenerator.image_urls content).
Proof.
  split; [exact report_ingested |].
  apply (ingested_units_compose_into_prompts Sample.libraries None
           (PdfPath "report.pdf") _ _ _ "what?" _ report_ingested).
  apply Forall_forall. intros d Hd. by rewrite elem_of_reverse in Hd.
Defined.

(** ** The application *)

Section Application.
Import Frontend.

Lemma process_uploaded_pdf_cases (L : Libraries) (H : Host)
    (uploaded_file : UploadedFile) (w w' : World) (s s' : SessionState)
    (answer : bool * string) :
  process_uploaded_pdf L H uploaded_file (w, s) = (answer, (w', s')) ->
  (answer.1 = false /\ w' = w /\ s' = s) \/
  (exists tmp_path docs embeddings store vs,
     write_temp_file H (getvalue uploaded_file) = inr tmp_path /\
     PDFProcessor.process_pdf L (PdfPath tmp_path) (Some (show_progress H))
     = inr (docs, embeddings, store) /\
     w' = mkWorld (Some vs) (disk w) (calls w) /\
     FAISS.docstore vs = docs /\ FAISS.xb vs = embeddings /\
     s' = mkSessionState true store (length docs) (Some (file_name uploaded_file)) /\
     (answer.1 = true <-> unlink H tmp_path = inr tt) /\
     docs <> [] /\ Forall (fun e : Vec => length e = FAISS.d vs) embeddings).
Proof.
  unfold process_uploaded_pdf, upload_body.
  destruct (write_temp_file H (getvalue uploaded_file)) as [e | tmp_path] eqn:Htmp.
  { intros [= <- <- <-]. by left. }
  destruct (PDFProcessor.process_pdf L (PdfPath tmp_path) _)
    as [e | [[docs embeddings] store]] eqn:Hpdf.
  { intros [= <- <- <-]. by left. }
  destruct (negb (py_not docs) && negb (py_not embeddings)).
  2: { intros [= <- <- <-]. by left. }
  destruct (VectorStoreManager.create_vector_store docs embeddings w)
    as [[e | vs] w1] eqn:Hbuild.
  { apply create_vector_store_inl in Hbuild as ->.
    intros [= <- <- <-]. by left. }
  apply create_vector_store_inr in Hbuild as (Hne & _ & Hxb & Hstore & Hd & ->).
  destruct (unlink H tmp_path) as [e | []] eqn:Hunlink;
    intros [= <- <- <-]; right;
    exists tmp_path, docs, embeddings, store, vs;
    cbn [fst]; repeat split; first [done | congruence].
Qed.

(** X17: an upload replaces the index and the session together, or
    neither.  After [process_uploaded_pdf], either the index and the
    session are what they were and the answer is negative, or the index
    holds exactly the units of the uploaded document and the session has
    the image store, the count and the name of that document.  In the
    second case the answer is positive exactly when the temporary file
    could be removed: a failed removal is reported as an error although
    the new document is installed. *)
Theorem upload_replaces_index_and_session_together (L : Libraries) (H : Host)
    (uploaded_file : UploadedFile) (w w' : World) (s s' : SessionState)
    (answer : bool * string) :
  process_uploaded_pdf L H uploaded_file (w, s) = (answer, (w', s')) ->
  (answer.1 = false /\ w' = w /\ s' = s) \/
  (exists tmp_path docs embeddings store vs,
     write_temp_file H (getvalue uploaded_file) = inr tmp_path /\
     PDFProcessor.process_pdf L (PdfPath tmp_path) (Some (show_progress H))
     = inr (docs, embeddings, store) /\
     w' = mkWorld (Some vs) (disk w) (calls w) /\
     FAISS.docstore vs = docs /\ FAISS.xb vs = embeddings /\
     s' = mkSessionState true store (length docs) (Some (file_name uploaded_file)) /\
     (answer.1 = true <-> unlink H tmp_path = inr tt)).
Proof.
  intros [Hsame | (tmp_path & docs & embeddings & store & vs & H1 & H2 & H3
                   & H4 & H5 & H6 & H7 & _)]%process_uploaded_pdf_cases.
  - by left.
  - right. exists tmp_path, docs, embeddings, store, vs.
    repeat (split; [done |]). done.
Qed.

Lemma enumerate_values {A} (l : list A) : (enumerate l).*2 = l.
Proof.
  unfold enumerate. rewrite fmap_imap.
  rewrite (imap_ext _ (fun _ x => id x)) by done.
  induction l as [|x l IH]; [done |].
  rewrite imap_cons. f_equal. exact IH.
Qed.

Lemma shown_images_app (a b : list widget) :
  shown_images (a ++ b) = shown_images a ++ shown_images b.
Proof. unfold shown_images. apply bind_app. Qed.

Lemma shown_page_ok (doc : Document) :
  page_not_a_string doc -> exists page, shown_page doc = inr page.
Proof.
  intros Hp. unfold shown_page.
  destruct (metadata doc !! "page") as [[n | s]|] eqn:E; eauto.
  by destruct (Hp s).
Qed.

Lemma display_loop_images (H : Host) (store : gmap string string)
    (entries : list (nat * Document)) :
  Forall page_not_a_string entries.*2 ->
  Forall (fun doc => text_or_image doc = true) entries.*2 ->
  Forall (drawable H) (omap (included_payload store) entries.*2) ->
  exists drawn,
    display_loop H store entries = (drawn, None) /\
    Forall2 (fun payload data => b64decode H payload = inr data)
      (omap (included_payload store) entries.*2) (shown_images drawn).
Proof.
  induction entries as [|[i doc] entries IH]; intros Hpage Hkind Hdec.
  { exists []. split; [done | constructor]. }
  rewrite fmap_cons in *. cbn [snd] in *.
  apply Forall_cons in Hpage as [Hp Hpage]. apply Forall_cons in Hkind as [Hk Hkind].
  rewrite omap_cons_option_list in *.
  apply Forall_app in Hdec as [Hd Hdec].
  destruct (IH Hpage Hkind Hdec) as (more & Hmore & Himgs).
  cbn [display_loop]. unfold display_step.
  destruct (shown_page_ok doc Hp) as [page ->].
  unfold text_or_image, ResponseGenerator.has_type in Hk.
  destruct (bool_decide (metadata doc !! "type" = Some (VStr "text"))) eqn:Ht.
  - rewrite Hmore. eexists. split; [done |].
    apply bool_decide_eq_true_1 in Ht.
    unfold included_payload at 1, ResponseGenerator.has_type.
    rewrite bool_decide_eq_false_2 by (rewrite Ht; congruence).
    rewrite shown_images_app. exact Himgs.
  - cbn [orb] in Hk. revert Hd.
    rewrite (usable_image_id_payload store doc Hk).
    destruct (ResponseGenerator.usable_image_id store doc) as [image_id|] eqn:Eid;
      cbn [mbind option_bind].
    + destruct (usable_image_id_in_store _ _ _ Eid) as [payload ->].
      cbn [option_list option_rect default from_option id app].
      intros [(img_data & Hdec' & Hdraw) _]%Forall_cons.
      rewrite Hdec', Hdraw, Hmore. eexists. split; [done |].
      rewrite shown_images_app. cbn. by constructor.
    + intros _. rewrite Hmore. eexists. split; [done |].
      rewrite shown_images_app. exact Himgs.
Qed.

Lemma display_step_default_page (H : Host) (store : gmap string string)
    (i : nat) (doc : Document) :
  display_step H store i (with_default_page doc) = display_step H store i doc.
Proof.
  unfold with_default_page.
  destruct (metadata doc !! "page") as [v|] eqn:Epage; [done |].
  unfold display_step, shown_page, ResponseGenerator.usable_image_id.
  cbn [metadata page_content].
  rewrite lookup_insert_eq, Epage.
  by rewrite !lookup_insert_ne by done.
Qed.

Lemma display_loop_default_page (H : Host) (store : gmap string string)
    (entries : list (nat * Document)) :
  display_loop H store (prod_map id with_default_page <$> entries)
  = display_loop H store entries.
Proof.
  induction entries as [|[i doc] entries IH]; [done |].
  rewrite fmap_cons. cbn [prod_map fst snd id display_loop].
  by rewrite display_step_default_page, IH.
Qed.

Lemma enumerate_fmap {A B} (f : A -> B) (l : list A) :
  enumerate (f <$> l) = prod_map id f <$> enumerate l.
Proof. unfold enumerate. by rewrite imap_fmap, fmap_imap. Qed.

(** X18: the retrieved context shows the images of the prompt.  For
    retrieved text and image units whose page, if any, is a number, and
    payloads that decode to pictures [st.image] can draw,
    [display_retrieved_context] draws without error; it starts with the
    number of units, and the pictures it draws are the decoded payloads of
    the image units whose identifier is a non-empty key of the store, in
    order: when the units carry a page, the image blocks of the text
    prompt over the same units.  A unit without a page is drawn exactly as
    the same unit with page 0, that is, as page 1. *)
Theorem context_display_shows_the_prompt_images (H : Host)
    (retrieved_docs : list Document) (store : gmap string string) :
  Forall page_not_a_string retrieved_docs ->
  Forall (fun doc => text_or_image doc = true) retrieved_docs ->
  Forall (drawable H) (omap (included_payload store) retrieved_docs) ->
  exists drawn,
    display_retrieved_context H retrieved_docs store = (drawn, None) /\
    display_retrieved_context H (with_default_page <$> retrieved_docs) store
    = (drawn, None) /\
    head drawn
    = Some (Write ("Found " +:+ str_nat (length retrieved_docs)
                   +:+ " relevant items:")) /\
    Forall2 (fun payload data => b64decode H payload = inr data)
      (omap (included_payload store) retrieved_docs) (shown_images drawn) /\
    (Forall has_page retrieved_docs ->
     forall query,
     exists content,
       ResponseGenerator.create_text_query_message query retrieved_docs store
       = inr content /\
       Forall2
         (fun url data =>
            exists payload,
              url = ResponseGenerator.data_url payload /\
              b64decode H payload = inr data)
         (ResponseGenerator.image_urls content) (shown_images drawn)).
Proof.
  intros Hpage Hkind Hdec.
  assert (display_retrieved_context H (with_default_page <$> retrieved_docs) store
          = display_retrieved_context H retrieved_docs store) as Hdefault.
  { unfold display_retrieved_context.
    by rewrite enumerate_fmap, display_loop_default_page, length_fmap. }
  rewrite Hdefault. unfold display_retrieved_context.
  destruct (display_loop_images H store (enumerate retrieved_docs))
    as (drawn & -> & Himgs); rewrite ?enumerate_values; try done.
  rewrite enumerate_values in Himgs.
  eexists. split; [done |]. split; [done |]. split; [done |].
  split; [exact Himgs |].
  intros Hp query.
  destruct (text_query_message_ok query retrieved_docs store Hp)
    as (content & Hmsg & Hurls).
  exists content. split; [done |]. rewrite Hurls. unfold included_images.
  apply Forall2_fmap_l. eapply Forall2_impl; [exact Himgs |].
  intros payload data Hd. by exists payload.
Qed.

(** X19: an uploaded document can be asked about.  After an upload that
    answered with success, with a provider of one dimensionality, the
    index holds the units of the uploaded document, as many as the session
    counts and at least one; a text query that the provider embeds has the
    dimension of the index, and the retrieval is the library's search of
    that index with that embedding.  The text prompt over any selection of
    the indexed units, with the session's image store, is produced without
    error. *)
Theorem uploaded_document_can_be_queried (L : Libraries) (H : Host)
    (uploaded_file : UploadedFile) (w w' : World) (s s' : SessionState)
    (message query : string) (n : nat) (k : option Z) (q : Vec) :
  process_uploaded_pdf L H uploaded_file (w, s) = ((true, message), (w', s')) ->
  provider_dim (embedding_generator L) n ->
  embed_text (embedding_generator L) (PStr query) = inr q ->
  vector_store_ready s' = true /\
  exists vs tmp_path embeddings,
    write_temp_file H (getvalue uploaded_file) = inr tmp_path /\
    PDFProcessor.process_pdf L (PdfPath tmp_path) (Some (show_progress H))
    = inr (FAISS.docstore vs, embeddings, image_data_store s') /\
    vector_store w' = Some vs /\
    processed_docs_count s' = length (FAISS.docstore vs) /\
    0 < length (FAISS.docstore vs) /\
    length q = FAISS.d vs /\
    (MultimodalRetriever.retrieve_by_text (embedding_generator L)
       (PStr query) k w').1
    = FAISS.similarity_search_by_vector vs q (py_or k settings.DEFAULT_K) /\
    forall results,
      Forall (fun doc => doc ∈ FAISS.docstore vs) results ->
      exists content,
        ResponseGenerator.create_text_query_message query results
          (image_data_store s') = inr content.
Proof.
  intros Hrun Hdim Hq.
  apply process_uploaded_pdf_cases in Hrun
    as [(Hfalse & _) | (tmp_path & docs & embeddings & store & vs & Htmp & Hpdf
                        & -> & Hstore & Hxb & -> & _ & Hne & Hd)];
    [discriminate Hfalse |].
  cbn [vector_store_ready processed_docs_count image_data_store vector_store].
  split; [done |].
  destruct (process_pdf_inr L _ _ _ _ _ Hpdf) as (doc & _ & _ & Hdocs & Hembs).
  exists vs, tmp_path, embeddings. rewrite Hstore.
  split; [done |]. split; [done |]. split; [done |]. split; [done |].
  split; [destruct docs; [done | simpl; lia] |].
  split; [|split].
  - rewrite (Hdim (PStr query) q (or_introl Hq)).
    destruct embeddings as [|e0 embeddings].
    + apply (f_equal length) in Hdocs. apply (f_equal length) in Hembs.
      rewrite length_fmap in Hdocs. rewrite length_fmap in Hembs.
      destruct docs; [done |]. simpl in Hdocs, Hembs. congruence.
    + apply Forall_cons in Hd as [<- _].
      symmetry. apply (unit_embedding_dim L doc n e0 Hdim).
      rewrite <- Hembs. apply list_elem_of_here.
  - unfold MultimodalRetriever.retrieve_by_text.
    unfold mbind at 1, M_bind at 1, log at 1.
    unfold mbind at 1, M_bind at 1, lift at 1. rewrite Hq.
    rewrite (search_by_vector_initialised _ _ (mkWorld (Some vs) _ _) vs eq_refl).
    by rewrite py_or_idempotent.
  - intros results Hin.
    assert (Forall has_page results) as Hp.
    { eapply Forall_impl; [exact Hin |]. intros d Hd'.
      rewrite Hdocs in Hd'. by apply unit_kinds in Hd' as [? _]. }
    destruct (text_query_message_ok query results store Hp)
      as (content & Hmsg & _).
    by exists content.
Qed.

End Application.

(** The sample report is uploaded and indexed, the temporary file cannot
    be removed, and the answer is an error. *)
Lemma upload_replaces_index_and_session_together_sample :
  Frontend.process_uploaded_pdf Fixture.libraries Fixture.locked_host
    Fixture.upload (initial_world ∅, Frontend.initial_session)
  = ((false, "Error processing PDF: file is in use"),
     (mkWorld (Some Fixture.report_index) ∅ [],
      Frontend.mkSessionState true Fixture.report_store 4 (Some "report.pdf"))) /\
  exists tmp_path,
    Frontend.write_temp_file Fixture.locked_host
      (Frontend.getvalue Fixture.upload) = inr tmp_path /\
    Frontend.unlink Fixture.locked_host tmp_path <> inr tt.
Proof.
  assert (Frontend.process_uploaded_pdf Fixture.libraries Fixture.locked_host
            Fixture.upload (initial_world ∅, Frontend.initial_session)
          = ((false, "Error processing PDF: file is in use"),
             (mkWorld (Some Fixture.report_index) ∅ [],
              Frontend.mkSessionState true Fixture.report_store 4
                (Some "report.pdf")))) as Hrun
    by (vm_compute; reflexivity).
  split; [exact Hrun |].
  destruct (upload_replaces_index_and_session_together _ _ _ _ _ _ _ _ Hrun)
    as [(_ & Hw & _)
       | (tmp & docs & embeddings & store & vs & Htmp & _ & _ & _ & _ & _ & Hok)].
  - discriminate Hw.
  - exists tmp. split; [exact Htmp |]. intros Hunlink.
    apply Hok in Hunlink. discriminate Hunlink.
Defined.

(** A unit without a page and the sample units, drawn with the sample
    store. *)
Lemma context_display_shows_the_prompt_images_sample :
  exists drawn,
    Frontend.display_retrieved_context Fixture.host
      (Fixture.loose :: Sample.docs) Sample.image_store
    = (drawn, None) /\
    drawn !! 1 = Some (Frontend.Write "**1. Text from page 1:**") /\
    Frontend.shown_images drawn = [list_byte_of_string "QUJD"].
Proof.
  destruct (context_display_shows_the_prompt_images Fixture.host
              (Fixture.loose :: Sample.docs) Sample.image_store)
    as (drawn & Hdrawn & _).
  - unfold Sample.docs, Fixture.loose, page_not_a_string.
    repeat (constructor; [intros s; cbn [metadata]; vm_compute; discriminate |]).
    constructor.
  - unfold Sample.docs. repeat (constructor; [reflexivity |]). constructor.
  - vm_compute. constructor; [|constructor].
    eexists. split; [reflexivity |]. intros caption. reflexivity.
  - exists drawn. split; [exact Hdrawn |].
    vm_compute in Hdrawn. injection Hdrawn as <-. split; reflexivity.
Defined.

(** The sample report is uploaded and asked about. *)
Lemma uploaded_document_can_be_queried_sample :
  Frontend.process_uploaded_pdf Fixture.libraries Fixture.host Fixture.upload
    (initial_world ∅, Frontend.initial_session)
  = ((true, "Successfully processed 4 document chunks!"),
     (mkWorld (Some Fixture.report_index) ∅ [],
      Frontend.mkSessionState true Fixture.report_store 4 (Some "report.pdf"))) /\
  exists vs tmp_path embeddings,
    Frontend.write_temp_file Fixture.host (Frontend.getvalue Fixture.upload)
    = inr tmp_path /\
    PDFProcessor.process_pdf Fixture.libraries (PdfPath tmp_path)
      (Some (Frontend.show_progress Fixture.host))
    = inr (FAISS.docstore vs, embeddings, Fixture.report_store) /\
    Some Fixture.report_index = Some vs /\
    4 = length (FAISS.docstore vs) /\
    0 < length (FAISS.docstore vs) /\
    length [1; 0]%Q = FAISS.d vs /\
    (MultimodalRetriever.retrieve_by_text Sample.provider (PStr "beta")
       (Some 3%Z) (mkWorld (Some Fixture.report_index) ∅ [])).1
    = FAISS.similarity_search_by_vector vs [1; 0]%Q 3.
Proof.
  assert (Frontend.process_uploaded_pdf Fixture.libraries Fixture.host
            Fixture.upload (initial_world ∅, Frontend.initial_session)
          = ((true, "Successfully processed 4 document chunks!"),
             (mkWorld (Some Fixture.report_index) ∅ [],
              Frontend.mkSessionState true Fixture.report_store 4
                (Some "report.pdf")))) as Hrun
    by (vm_compute; reflexivity).
  split; [exact Hrun |].
  destruct (uploaded_document_can_be_queried Fixture.libraries Fixture.host
              Fixture.upload _ _ _ _ _ "beta" 2 (Some 3%Z) [1; 0]%Q Hrun
              sample_provider_dim eq_refl)
    as (_ & vs & tmp_path & embeddings & H1 & H2 & H3 & H4 & H5 & H6 & H7 & _).
  exists vs, tmp_path, embeddings.
  split; [exact H1 |]. split; [exact H2 |]. split; [exact H3 |].
  split; [exact H4 |]. split; [exact H5 |]. split; [exact H6 | exact H7].
Defined.
